(** * SecureAuthGateway: token lifecycle, RBAC pipeline and client refresh queue

    A shallow embedding of the server-side token service, authentication and
    RBAC middleware, the auth/user controllers, and of the client-side axios
    interceptors, together with the properties the specification states
    about them.

    Conventions.
    - A string is the [string] of its UTF-8 bytes; JS truthiness of a
      string is "not empty", its [length] is counted in UTF-16 code units,
      and [toLowerCase] and [trim] are the engine's ([StringPrototype]).
    - An identifier is the text of an [ObjectId], 24 hexadecimal digits
      in lower case; a lookup by id casts its argument as mongoose does.
    - The clock is the number of seconds since the epoch ([Z]), the value
      jsonwebtoken computes as [Math.floor(Date.now() / 1000)].
    - A thrown value is an [Exn]: either the application's [AppError] or any
      other JS error, which the global error handler turns into a 500.
    - Third-party libraries (jsonwebtoken/jws, ms, bcryptjs, the document
      creation of mongoose) and the Unicode tables of the engine are not
      part of the repository; they are the classes [Jsonwebtoken],
      [Bcryptjs], [User.Mongoose] and [StringPrototype], with the part of
      their documented contract that the properties rely on.  The module
      [Reference] implements them. *)

From Stdlib Require Import ZArith Lia Ascii String.
From stdpp Require Import base tactics option list strings pretty countable gmap.

Local Open Scope Z_scope.
Local Open Scope string_scope.
Local Open Scope list_scope.

(* ===================================================================== *)
(** * JavaScript values and exceptions *)
(* ===================================================================== *)

(** JSON values of a request body; [undefined] is the absence of the key. *)
Inductive JsValue :=
| JNull
| JBool (b : bool)
| JNum (z : Z)
| JStr (s : string).

#[global] Instance JsValue_eq_dec : EqDecision JsValue.
Proof. solve_decision. Defined.

(** [!!s] for a string. *)
Definition truthy_str (s : string) : bool :=
  if decide (s = EmptyString) then false else true.

(** [!!v] for an optional JSON value. *)
Definition truthy (v : option JsValue) : bool :=
  match v with
  | None | Some JNull => false
  | Some (JBool b) => b
  | Some (JNum z) => if decide (z = 0) then false else true
  | Some (JStr s) => truthy_str s
  end.

(** [typeof v === 'boolean'] *)
Definition typeof_boolean (v : option JsValue) : option bool :=
  match v with
  | Some (JBool b) => Some b
  | _ => None
  end.

(** [a || b] on optional strings ([process.env.X || 'default']). *)
Definition or_else (a : option string) (b : string) : string :=
  match a with
  | Some s => if truthy_str s then s else b
  | None => b
  end.

(** A JS [Error]: only its [name] and [message] are observed. *)
Record JsError := mkJsError { name : string; js_message : string }.

(** [class AppError extends Error]: [statusCode] defaults to 500 and
    [isOperational] is always set to [true] by the constructor. *)
Record AppError := mkAppError {
  message : string;
  statusCode : Z;
  isOperational : bool
}.

Definition new_AppError (msg : string) (code : Z) : AppError :=
  {| message := msg; statusCode := code; isOperational := true |}.

Inductive Exn :=
| AppErr (e : AppError)
| JsErr (e : JsError).

Inductive result (A : Type) :=
| Ok (a : A)
| Throw (e : Exn).
Arguments Ok {A} a.
Arguments Throw {A} e.

(** [throw new AppError(msg, code)] *)
Definition throw_AppError {A} (msg : string) (code : Z) : result A :=
  Throw (AppErr (new_AppError msg code)).

(** The status the global error handler answers with for a thrown value. *)
Definition exn_status (e : Exn) : Z :=
  match e with
  | AppErr a => statusCode a
  | JsErr _ => 500
  end.

Definition exn_message (e : Exn) : string :=
  match e with
  | AppErr a => message a
  | JsErr _ => "Internal Server Error"
  end.

(** The status a result is answered with when it is a thrown value. *)
Definition exn_status_of {A} (r : result A) : option Z :=
  match r with
  | Ok _ => None
  | Throw e => Some (exn_status e)
  end.

(* ===================================================================== *)
(** * String helpers ([String.prototype]) *)
(* ===================================================================== *)

(** [s.startsWith(p)] *)
Fixpoint startsWith (s p : string) {struct p} : bool :=
  match p with
  | EmptyString => true
  | String c p' =>
      match s with
      | EmptyString => false
      | String d s' => Ascii.eqb c d && startsWith s' p'
      end
  end.

(** [s.split(sep)] for a one-character separator. *)
Fixpoint split (sep : ascii) (s : string) : list string :=
  match s with
  | EmptyString => [EmptyString]
  | String c s' =>
      if Ascii.eqb c sep then EmptyString :: split sep s'
      else match split sep s' with
           | [] => [String c EmptyString]
           | w :: ws => String c w :: ws
           end
  end.

(** [xs.join(sep)] *)
Fixpoint join (sep : string) (xs : list string) : string :=
  match xs with
  | [] => EmptyString
  | [x] => x
  | x :: rest => x +:+ sep +:+ join sep rest
  end.

(** A JavaScript string is represented by the bytes of its UTF-8
    encoding (a lone surrogate by the three bytes of the generalised
    form).  An ASCII pattern matches byte for byte in that encoding, so
    [startsWith] and [split] above are the engine's on every string. *)
Definition is_ascii (s : string) : bool :=
  forallb (fun c => Nat.ltb (Ascii.nat_of_ascii c) 128)
    (list_ascii_of_string s).

(** The UTF-16 code units a byte contributes: one for an ASCII byte and
    for the lead byte of a two- or three-byte form (a code point of the
    basic plane), two for the lead byte of a four-byte form (a surrogate
    pair), none for a continuation byte. *)
Definition code_units (c : ascii) : nat :=
  let n := Ascii.nat_of_ascii c in
  if Nat.ltb n 128 then 1%nat
  else if Nat.ltb n 192 then 0%nat
  else if Nat.ltb n 240 then 1%nat
  else 2%nat.

(** [s.length]: the number of UTF-16 code units of [s]. *)
Fixpoint length_utf16 (s : string) : nat :=
  match s with
  | EmptyString => 0%nat
  | String c s' => (code_units c + length_utf16 s')%nat
  end.

Definition lower_ascii (c : ascii) : ascii :=
  let n := Ascii.nat_of_ascii c in
  if (Nat.leb 65 n && Nat.leb n 90)%bool
  then Ascii.ascii_of_nat (n + 32) else c.

(** Lower-casing of the letters A to Z. *)
Fixpoint ascii_toLowerCase (s : string) : string :=
  match s with
  | EmptyString => EmptyString
  | String c s' => String (lower_ascii c) (ascii_toLowerCase s')
  end.

(** The ASCII members of the engine's white space and line terminators:
    tab, line feed, vertical tab, form feed, carriage return, space. *)
Definition is_ascii_whitespace (c : ascii) : bool :=
  let n := Ascii.nat_of_ascii c in
  (Nat.leb 9 n && Nat.leb n 13)%bool || Nat.eqb n 32.

Fixpoint ascii_trimStart (s : string) : string :=
  match s with
  | EmptyString => EmptyString
  | String c s' => if is_ascii_whitespace c then ascii_trimStart s' else s
  end.

Fixpoint ascii_trimEnd (s : string) : string :=
  match s with
  | EmptyString => EmptyString
  | String c s' =>
      match ascii_trimEnd s' with
      | EmptyString =>
          if is_ascii_whitespace c then EmptyString else String c EmptyString
      | r => String c r
      end
  end.

Definition ascii_trim (s : string) : string :=
  ascii_trimEnd (ascii_trimStart s).

(** [s.toLowerCase()] and [s.trim()].  Outside ASCII both follow the
    Unicode tables of the engine, which are not part of the program; on
    ASCII text they are the two functions above. *)
Class StringPrototype := {
  toLowerCase : string -> string;
  trim : string -> string;
  toLowerCase_ascii : forall s,
    is_ascii s = true -> toLowerCase s = ascii_toLowerCase s;
  trim_ascii : forall s, is_ascii s = true -> trim s = ascii_trim s
}.

(* ===================================================================== *)
(** * Types shared by the server ([types/index.ts]) *)
(* ===================================================================== *)

Inductive UserRole := USER | MERCHANT | ADMIN.

#[global] Instance UserRole_eq_dec : EqDecision UserRole.
Proof. solve_decision. Defined.

(** The string value of the enum member. *)
Definition UserRole_value (r : UserRole) : string :=
  match r with
  | USER => "USER"
  | MERCHANT => "MERCHANT"
  | ADMIN => "ADMIN"
  end.

(** [Object.values(UserRole).includes(v)], returning the member found. *)
Definition UserRole_of_value (v : string) : option UserRole :=
  if decide (v = "USER") then Some USER
  else if decide (v = "MERCHANT") then Some MERCHANT
  else if decide (v = "ADMIN") then Some ADMIN
  else None.

(** The runtime object behind [JWTPayload] and [Pick<JWTPayload, 'userId'>]:
    the payload handed to [jwt.sign] and the object [jwt.verify] returns.
    The TypeScript casts erase nothing, so the registered claims the
    library adds ([iat], [exp], [iss], [aud]) are fields too; [email] and
    [role] are absent from a refresh token's payload. *)
Record JWTPayload := mkPayload {
  userId : string;
  email : option string;
  role : option UserRole;
  iat : option Z;
  nbf : option Z;
  exp : option Z;
  iss : option string;
  aud : option string
}.

#[global] Instance JWTPayload_eq_dec : EqDecision JWTPayload.
Proof. solve_decision. Defined.

(** The object literal [{ userId, email, role }]. *)
Definition access_payload (uid em : string) (r : UserRole) : JWTPayload :=
  {| userId := uid; email := Some em; role := Some r;
     iat := None; nbf := None; exp := None; iss := None; aud := None |}.

(** The object literal [{ userId }]. *)
Definition refresh_payload (uid : string) : JWTPayload :=
  {| userId := uid; email := None; role := None;
     iat := None; nbf := None; exp := None; iss := None; aud := None |}.

(* ===================================================================== *)
(** * Configuration ([config/index.ts]) *)
(* ===================================================================== *)

(** [process.env] *)
Abbreviation ProcessEnv := (gmap string string).

(** The fields of [Config] that the token service and the controllers
    read. *)
Record Config := mkConfig {
  NODE_ENV : string;
  JWT_ACCESS_SECRET : string;
  JWT_REFRESH_SECRET : string;
  JWT_ACCESS_EXPIRY : string;
  JWT_REFRESH_EXPIRY : string
}.

Definition config (env : ProcessEnv) : Config :=
  {| NODE_ENV := or_else (env !! "NODE_ENV") "development";
     JWT_ACCESS_SECRET :=
       or_else (env !! "JWT_ACCESS_SECRET") "fallback-secret-change-in-production";
     JWT_REFRESH_SECRET :=
       or_else (env !! "JWT_REFRESH_SECRET") "fallback-refresh-change-in-production";
     JWT_ACCESS_EXPIRY := or_else (env !! "JWT_ACCESS_EXPIRY") "15m";
     JWT_REFRESH_EXPIRY := or_else (env !! "JWT_REFRESH_EXPIRY") "7d" |}.

(* ===================================================================== *)
(** * The jsonwebtoken library *)
(* ===================================================================== *)

(** What the package is built on: the compact JWS serialisation with
    HS256 ([jws]) and the time-span parser ([ms]).  The laws are the ideal
    (symbolic) view of a MAC: a serialised payload verifies under the key
    it was signed with and under no other key; the serialisation is the
    base64url text [header.payload.signature], which is never empty and
    contains no space.  [ms '15m'] and [ms '7d'] are the two values of the
    parser's documented table that the default configuration uses. *)
Class Jsonwebtoken := {
  jws_sign : JWTPayload -> string -> string;
  jws_verify : string -> string -> option JWTPayload;
  ms : string -> option Z;
  jws_verify_sign : forall p k k',
    jws_verify (jws_sign p k) k' = if decide (k = k') then Some p else None;
  jws_sign_not_empty : forall p k, jws_sign p k <> EmptyString;
  jws_sign_no_space : forall p k, split " " (jws_sign p k) = [jws_sign p k];
  ms_15m : ms "15m" = Some 900000;
  ms_7d : ms "7d" = Some 604800000
}.

Record SignOptions := mkSignOptions {
  expiresIn : string;
  issuer : string;
  audience : string
}.

Record VerifyOptions := mkVerifyOptions {
  v_issuer : string;
  v_audience : string
}.

Definition js_throw {A} (nm msg : string) : result A :=
  Throw (JsErr {| name := nm; js_message := msg |}).

Section JsonwebtokenModel.
Context `{Jsonwebtoken}.

(** [timespan(time, iat)] of jsonwebtoken for a string [time]:
    [Math.floor(iat + ms(time) / 1000)], undefined when [ms] rejects the
    string. *)
Definition timespan (time : string) (timestamp : Z) : option Z :=
  match ms time with
  | Some milliseconds => Some (timestamp + milliseconds / 1000)
  | None => None
  end.

(** [jwt.sign(payload, secret, { expiresIn, issuer, audience })] at clock
    [now], synchronous form: the payload gets [iat] (its own, when it has
    a truthy one, else the clock), [exp = iat + expiresIn], [iss] and
    [aud], and is serialised under [secret].  A payload that already has
    the claim an option sets is an error, as is an empty secret or an
    unparsable time span. *)
Definition jwt_sign (now : Z) (payload : JWTPayload) (secret : string)
    (options : SignOptions) : result string :=
  if negb (truthy_str secret) then
    js_throw "Error" "secretOrPrivateKey must have a value"
  else if bool_decide (is_Some (exp payload)) then
    js_throw "Error"
      "Bad 'options.expiresIn' option the payload already has an 'exp' property."
  else
    let timestamp :=
      match iat payload with
      | Some t => if decide (t = 0) then now else t
      | None => now
      end in
    match timespan (expiresIn options) timestamp with
    | None =>
        js_throw "Error"
          "'expiresIn' should be a number of seconds or string representing a timespan"
    | Some e =>
        if bool_decide (is_Some (aud payload)) then
          js_throw "Error"
            "Bad 'options.audience' option. The payload already has an 'aud' property."
        else if bool_decide (is_Some (iss payload)) then
          js_throw "Error"
            "Bad 'options.issuer' option. The payload already has an 'iss' property."
        else
          Ok (jws_sign
                {| userId := userId payload;
                   email := email payload;
                   role := role payload;
                   iat := Some timestamp;
                   nbf := nbf payload;
                   exp := Some e;
                   iss := Some (issuer options);
                   aud := Some (audience options) |}
                secret)
    end.

(** [jwt.verify(token, secret, { issuer, audience })] at clock [now],
    synchronous form.  The checks run in the library's order: presence,
    format and signature, then [nbf], [exp], audience, issuer. *)
Definition jwt_verify (now : Z) (token secret : string)
    (options : VerifyOptions) : result JWTPayload :=
  if negb (truthy_str token) then
    js_throw "JsonWebTokenError" "jwt must be provided"
  else
    match jws_verify token secret with
    | None => js_throw "JsonWebTokenError" "invalid signature"
    | Some payload =>
        if match nbf payload with Some n => (now <? n)%Z | None => false end then
          js_throw "NotBeforeError" "jwt not active"
        else if match exp payload with Some e => (e <=? now)%Z | None => false end then
          js_throw "TokenExpiredError" "jwt expired"
        else if negb (bool_decide (aud payload = Some (v_audience options))) then
          js_throw "JsonWebTokenError" "jwt audience invalid"
        else if negb (bool_decide (iss payload = Some (v_issuer options))) then
          js_throw "JsonWebTokenError" "jwt issuer invalid"
        else Ok payload
    end.
End JsonwebtokenModel.

(* ===================================================================== *)
(** * Token service ([services/token.service.ts]) *)
(* ===================================================================== *)

(** The claims of a token issued at [now] with lifetime [ttl] seconds for
    a payload that brings no registered claims of its own: what either
    signer of the token service serialises. *)
Definition signed_claims (payload : JWTPayload) (now ttl : Z) : JWTPayload :=
  {| userId := userId payload; email := email payload; role := role payload;
     iat := Some now; nbf := nbf payload; exp := Some (now + ttl);
     iss := Some "secureauth-gateway"; aud := Some "secureauth-api" |}.


Section TokenService.
Context `{Jsonwebtoken}.
Variable env : ProcessEnv.

Definition generateAccessToken (now : Z) (payload : JWTPayload)
    : result string :=
  let options :=
    {| expiresIn := JWT_ACCESS_EXPIRY (config env);
       issuer := "secureauth-gateway";
       audience := "secureauth-api" |} in
  jwt_sign now payload (JWT_ACCESS_SECRET (config env)) options.

Definition generateRefreshToken (now : Z) (payload : JWTPayload)
    : result string :=
  let options :=
    {| expiresIn := JWT_REFRESH_EXPIRY (config env);
       issuer := "secureauth-gateway";
       audience := "secureauth-api" |} in
  jwt_sign now payload (JWT_REFRESH_SECRET (config env)) options.

(** [error.name] of a caught value; the [catch] block of both verifiers
    selects its message by it, the status is always 401. *)
Definition error_name (e : Exn) : string :=
  match e with
  | JsErr j => name j
  | AppErr _ => "Error"
  end.

Definition verifyAccessToken (now : Z) (token : string)
    : result JWTPayload :=
  let options :=
    {| v_issuer := "secureauth-gateway"; v_audience := "secureauth-api" |} in
  match jwt_verify now token (JWT_ACCESS_SECRET (config env)) options with
  | Ok decoded => Ok decoded
  | Throw error =>
      if decide (error_name error = "TokenExpiredError") then
        throw_AppError "Access token has expired" 401
      else if decide (error_name error = "JsonWebTokenError") then
        throw_AppError "Invalid access token" 401
      else if decide (error_name error = "NotBeforeError") then
        throw_AppError "Access token not yet valid" 401
      else throw_AppError "Token verification failed" 401
  end.

Definition verifyRefreshToken (now : Z) (token : string)
    : result JWTPayload :=
  let options :=
    {| v_issuer := "secureauth-gateway"; v_audience := "secureauth-api" |} in
  match jwt_verify now token (JWT_REFRESH_SECRET (config env)) options with
  | Ok decoded => Ok decoded
  | Throw error =>
      if decide (error_name error = "TokenExpiredError") then
        throw_AppError "Refresh token has expired. Please log in again." 401
      else if decide (error_name error = "JsonWebTokenError") then
        throw_AppError "Invalid refresh token" 401
      else if decide (error_name error = "NotBeforeError") then
        throw_AppError "Refresh token not yet valid" 401
      else throw_AppError "Refresh token verification failed" 401
  end.
End TokenService.

(* ===================================================================== *)
(** * The credential store ([models/User.ts]) *)
(* ===================================================================== *)

(** [bcrypt.compare(candidate, hash)] on two strings. *)
Class Bcryptjs := {
  bcrypt_compare : string -> string -> bool
}.

Module User.

Inductive Provider := local | google.

#[global] Instance Provider_eq_dec : EqDecision Provider.
Proof. solve_decision. Defined.

(** [interface IUser]; dates are clock readings. *)
Record IUser := mkIUser {
  _id : string;
  username : string;
  email : string;
  password : option string;
  role : UserRole;
  provider : Provider;
  googleId : option string;
  isActive : bool;
  createdAt : Z;
  updatedAt : Z
}.

(** The collection, in natural (insertion) order. *)
Abbreviation Store := (list IUser).

(** The argument of [User.create] as the register handler builds it. *)
Record CreateInput := mkCreateInput {
  c_username : JsValue;
  c_email : string;
  c_password : JsValue;
  c_role : UserRole;
  c_provider : Provider
}.

(** Building the document that [User.create] inserts: schema casting and
    validation, the pre-save hashing hook, the fresh [_id] and the
    timestamps are mongoose's and bcryptjs's work; a rejected document
    is a thrown (non-application) error. *)
Class Mongoose := {
  new_document : Store -> CreateInput -> Z -> result IUser
}.

(** [select: false] on [password] and [googleId]: a query returns them
    only when asked to ([.select('+password')]). *)
Definition project (select_password : bool) (u : IUser) : IUser :=
  {| _id := _id u; username := username u; email := email u;
     password := if select_password then password u else None;
     role := role u; provider := provider u;
     googleId := None;
     isActive := isActive u;
     createdAt := createdAt u; updatedAt := updatedAt u |}.

(** A query filter on [email] and, optionally, [provider]. *)
Record Filter := mkFilter {
  f_email : string;
  f_provider : option Provider
}.

Section Queries.
Context `{StringPrototype}.

(** The setters of the [email] path ([lowercase: true, trim: true]).
    Mongoose runs a path's setters, last declared first, on a value
    assigned to the path and on a value the path is queried by. *)
Definition email_setters (v : string) : string := toLowerCase (trim v).

Definition matches (f : Filter) (u : IUser) : bool :=
  bool_decide (email u = email_setters (f_email f))
  && match f_provider f with
     | Some p => bool_decide (provider u = p)
     | None => true
     end.

(** [User.findOne(filter)], with or without [.select('+password')]. *)
Definition findOne (f : Filter) (select_password : bool) (db : Store)
    : option IUser :=
  project select_password <$> List.find (matches f) db.
End Queries.

Definition is_hex_digit (c : ascii) : bool :=
  let n := Ascii.nat_of_ascii c in
  (Nat.leb 48 n && Nat.leb n 57)%bool
  || (Nat.leb 65 n && Nat.leb n 70)%bool
  || (Nat.leb 97 n && Nat.leb n 102)%bool.

(** The cast of a string to the [ObjectId] of the [_id] path: a string of
    24 hexadecimal digits, in either case, is the identifier those digits
    spell; any other string is refused.  A stored [_id] is held as the
    text [toString()] gives, the 24 digits in lower case. *)
Definition castObjectId (id : string) : option string :=
  if Nat.eqb (String.length id) 24
     && forallb is_hex_digit (list_ascii_of_string id)
  then Some (ascii_toLowerCase id)
  else None.

(** [User.findById(id)]: the cast of [id], which throws a [CastError] on
    a string that is no identifier, then the lookup; [findById(undefined)]
    finds nothing. *)
Definition findById (id : option string) (db : Store)
    : result (option IUser) :=
  match id with
  | Some i =>
      match castObjectId i with
      | Some oid =>
          Ok (project false
                <$> List.find (fun u => bool_decide (_id u = oid)) db)
      | None =>
          js_throw "CastError" "Cast to ObjectId failed for value at path '_id'"
      end
  | None => Ok None
  end.

(** [user.isActive = v] on a loaded document. *)
Definition set_isActive (v : bool) (u : IUser) : IUser :=
  {| _id := _id u; username := username u; email := email u;
     password := password u; role := role u; provider := provider u;
     googleId := googleId u; isActive := v;
     createdAt := createdAt u; updatedAt := updatedAt u |}.

(** [user.save()] on a document loaded by [findById] whose only assigned
    path is [isActive]: the stored document with that [_id] gets the new
    flag and, when the flag changed, a new [updatedAt]; every other
    stored field, the unselected ones included, is kept. *)
Definition save (doc : IUser) (now : Z) (db : Store) : Store :=
  List.map
    (fun d =>
       if bool_decide (_id d = _id doc) then
         if bool_decide (isActive d = isActive doc) then d
         else {| _id := _id d; username := username d; email := email d;
                 password := password d; role := role d;
                 provider := provider d; googleId := googleId d;
                 isActive := isActive doc;
                 createdAt := createdAt d; updatedAt := now |}
       else d)
    db.

Section Methods.
Context `{Bcryptjs}.

(** [UserSchema.methods.comparePassword]: [false] without a stored
    hash, and [false] when [bcrypt.compare] rejects (a candidate that
    is not a string). *)
Definition comparePassword (u : IUser) (candidatePassword : JsValue)
    : bool :=
  match password u with
  | None => false
  | Some hash =>
      match candidatePassword with
      | JStr s => bcrypt_compare s hash
      | _ => false
      end
  end.
End Methods.

End User.

(* ===================================================================== *)
(** * Requests, responses and the handler monad *)
(* ===================================================================== *)

(** The parts of an Express request that the middleware and controllers
    read; [user] is the field added by declaration merging. *)
Record Request := mkRequest {
  headers_authorization : option string;
  cookies : option (gmap string string);
  body : gmap string JsValue;
  params : gmap string string;
  user : option JWTPayload
}.

(** [req.user = decoded] *)
Definition set_user (req : Request) (decoded : JWTPayload) : Request :=
  {| headers_authorization := headers_authorization req;
     cookies := cookies req; body := body req; params := params req;
     user := Some decoded |}.

Inductive SameSite := lax | none | strict.

Record CookieOptions := mkCookieOptions {
  httpOnly : bool;
  secure : bool;
  sameSite : SameSite;
  maxAge : option Z
}.

Record Cookie := mkCookie {
  cookie_name : string;
  cookie_value : string;
  cookie_options : CookieOptions
}.

(** The [user] object of a response body; the keys a handler leaves out
    are [None]. *)
Record UserView := mkUserView {
  uv_id : string;
  uv_username : string;
  uv_email : string;
  uv_role : UserRole;
  uv_isActive : option bool;
  uv_createdAt : option Z
}.

(** The [data] object of a response body. *)
Record Data := mkData {
  d_user : option UserView;
  d_accessToken : option string
}.

(** The response as sent: status, the envelope's [success], [message] and
    [data], and the cookies set on it.  The envelope's [timestamp] and the
    development-only [error] stack are not modelled. *)
Record Response := mkResponse {
  status : Z;
  success : bool;
  res_message : string;
  data : option Data;
  set_cookies : list Cookie
}.

(** The response object a handler starts from. *)
Definition new_res : Response :=
  {| status := 200; success := true; res_message := EmptyString;
     data := None; set_cookies := [] |}.

(** [res.cookie(name, value, options)] *)
Definition res_cookie (res : Response) (nm value : string)
    (options : CookieOptions) : Response :=
  {| status := status res; success := success res;
     res_message := res_message res; data := data res;
     set_cookies := set_cookies res ++ [mkCookie nm value options] |}.

(** [sendSuccess(res, message, data, statusCode)] ([utils/response.ts]) *)
Definition sendSuccess (res : Response) (msg : string) (d : option Data)
    (code : Z) : Response :=
  {| status := code; success := true; res_message := msg; data := d;
     set_cookies := set_cookies res |}.

(** [sendError(res, message, error, statusCode)] *)
Definition sendError (res : Response) (msg : string) (code : Z) : Response :=
  {| status := code; success := false; res_message := msg; data := None;
     set_cookies := set_cookies res |}.

(** [errorHandler] ([middleware/errorHandler.ts]): an [AppError] answers
    with its own status and message, anything else with 500. *)
Definition errorHandler (err : Exn) (res : Response) : Response :=
  match err with
  | AppErr a => sendError res (message a) (statusCode a)
  | JsErr _ => sendError res "Internal Server Error" 500
  end.

(** An asynchronous handler body: it reads and writes the store and either
    returns or throws.  A write made before a throw stays made. *)
Definition App (A : Type) : Type := User.Store -> result A * User.Store.

Definition App_ret {A} (a : A) : App A := fun db => (Ok a, db).

Definition App_bind {A B} (m : App A) (k : A -> App B) : App B :=
  fun db =>
    match m db with
    | (Ok a, db') => k a db'
    | (Throw e, db') => (Throw e, db')
    end.

(** A synchronous call that may throw. *)
Definition lift {A} (r : result A) : App A := fun db => (r, db).

Definition throw {A} (msg : string) (code : Z) : App A :=
  lift (throw_AppError msg code).

Notation "'await' x ':=' m 'in' k" := (App_bind m (fun x => k))
  (at level 10, x name, m at level 100, k at level 200,
   format "'[v' 'await'  x  :=  m  'in'  '/' k ']'").

(** [await User.findOne(...)], [await User.findById(...)],
    [await user.save()], [await User.create(...)] *)
Definition findOne `{StringPrototype} (f : User.Filter)
    (select_password : bool) : App (option User.IUser) :=
  fun db => (Ok (User.findOne f select_password db), db).

Definition findById (id : option string) : App (option User.IUser) :=
  fun db => (User.findById id db, db).

Definition save (doc : User.IUser) (now : Z) : App unit :=
  fun db => (Ok tt, User.save doc now db).

Definition create `{User.Mongoose} (input : User.CreateInput) (now : Z)
    : App User.IUser :=
  fun db =>
    match User.new_document db input now with
    | Ok u => (Ok u, db ++ [u])
    | Throw e => (Throw e, db)
    end.

(** A middleware either calls [next()] with the (possibly extended)
    request or [next(error)]. *)
Definition Middleware : Type := Request -> result Request.

(** [router.METHOD(path, ...middleware, handler)] followed by the global
    error handler: the middleware run in order, the first [next(error)]
    skips everything after it; [asyncHandler] routes a rejected handler to
    the same error handler. *)
Fixpoint route (mws : list Middleware) (handler : Request -> App Response)
    (req : Request) (db : User.Store) : Response * User.Store :=
  match mws with
  | [] =>
      match handler req db with
      | (Ok res, db') => (res, db')
      | (Throw e, db') => (errorHandler e new_res, db')
      end
  | mw :: rest =>
      match mw req with
      | Ok req' => route rest handler req' db
      | Throw e => (errorHandler e new_res, db)
      end
  end.

(* ===================================================================== *)
(** * Authentication middleware ([middleware/auth.middleware.ts]) *)
(* ===================================================================== *)

Section AuthMiddleware.
Context `{Jsonwebtoken}.
Variable env : ProcessEnv.

Definition protect (now : Z) : Middleware := fun req =>
  let authHeader := headers_authorization req in
  match authHeader with
  | None =>
      throw_AppError
        "Authentication required. Please provide a valid access token." 401
  | Some authHeader =>
      if negb (truthy_str authHeader)
         || negb (startsWith authHeader "Bearer ") then
        throw_AppError
          "Authentication required. Please provide a valid access token." 401
      else
        let token := split " " authHeader !! 1%nat in
        match token with
        | None => throw_AppError "Access token is missing" 401
        | Some token =>
            if negb (truthy_str token) then
              throw_AppError "Access token is missing" 401
            else
              match verifyAccessToken env now token with
              | Ok decoded => Ok (set_user req decoded)
              | Throw error => Throw error
              end
        end
  end.

Definition optionalAuth (now : Z) : Middleware := fun req =>
  match headers_authorization req with
  | None => Ok req
  | Some authHeader =>
      if negb (truthy_str authHeader)
         || negb (startsWith authHeader "Bearer ") then Ok req
      else
        match split " " authHeader !! 1%nat with
        | None => Ok req
        | Some token =>
            if negb (truthy_str token) then Ok req
            else
              match verifyAccessToken env now token with
              | Ok decoded => Ok (set_user req decoded)
              | Throw _ => Ok req
              end
        end
  end.
End AuthMiddleware.

(* ===================================================================== *)
(** * RBAC middleware ([middleware/rbac.middleware.ts]) *)
(* ===================================================================== *)

(** [allowedRoles.includes(req.user.role)] *)
Definition includes (allowedRoles : list UserRole) (r : option UserRole)
    : bool :=
  match r with
  | Some r => bool_decide (r ∈ allowedRoles)
  | None => false
  end.

Definition restrictTo (allowedRoles : list UserRole) : Middleware := fun req =>
  match user req with
  | None => throw_AppError "Authentication required. Please log in first." 401
  | Some u =>
      if negb (includes allowedRoles (role u)) then
        throw_AppError
          ("Access denied. This action requires one of the following roles: "
           +:+ join ", " (UserRole_value <$> allowedRoles))
          403
      else Ok req
  end.

Definition requireAdmin : Middleware := restrictTo [ADMIN].

Definition requireMerchant : Middleware := restrictTo [MERCHANT; ADMIN].

Definition checkOwnership (resourceParam : string) : Middleware := fun req =>
  match user req with
  | None => throw_AppError "Authentication required" 401
  | Some u =>
      if bool_decide (role u = Some ADMIN) then Ok req
      else
        match params req !! resourceParam with
        | None =>
            throw_AppError
              ("Resource identifier '" +:+ resourceParam
               +:+ "' not found in request") 400
        | Some resourceId =>
            if negb (truthy_str resourceId) then
              throw_AppError
                ("Resource identifier '" +:+ resourceParam
                 +:+ "' not found in request") 400
            else if negb (bool_decide (userId u = resourceId)) then
              throw_AppError
                "Access denied. You can only access your own resources." 403
            else Ok req
        end
  end.

(* ===================================================================== *)
(** * Auth controller ([controllers/auth.controller.ts]) *)
(* ===================================================================== *)

(** [v.toLowerCase()] on a truthy body value: a [TypeError] unless the
    value is a string. *)
Definition value_toLowerCase `{StringPrototype} (v : option JsValue)
    : result string :=
  match v with
  | Some (JStr s) => Ok (toLowerCase s)
  | _ => js_throw "TypeError" "toLowerCase is not a function"
  end.

(** [password.length < 8] on a truthy body value: the [length] of a
    number or boolean is [undefined], and [undefined < 8] is false. *)
Definition length_lt_8 (v : option JsValue) : bool :=
  match v with
  | Some (JStr s) => bool_decide (length_utf16 s < 8)%nat
  | _ => false
  end.

(** [role && validRoles.includes(role) ? role : UserRole.USER] *)
Definition validated_role (v : option JsValue) : UserRole :=
  match v with
  | Some (JStr r) =>
      match UserRole_of_value r with
      | Some x => x
      | None => USER
      end
  | _ => USER
  end.

(** A present body value, for passing on ([undefined] never gets here). *)
Definition the_value (v : option JsValue) : JsValue :=
  match v with
  | Some x => x
  | None => JNull
  end.

Section AuthController.
Context `{StringPrototype} `{Jsonwebtoken} `{Bcryptjs} `{User.Mongoose}.
Variable env : ProcessEnv.

Definition register_cookieOptions : CookieOptions :=
  {| httpOnly := true;
     secure :=
       if decide (env !! "ALLOW_INSECURE_COOKIES" = Some "true") then false
       else bool_decide (NODE_ENV (config env) = "production");
     sameSite :=
       if decide (env !! "ALLOW_INSECURE_COOKIES" = Some "true") then lax
       else if decide (NODE_ENV (config env) = "production") then none
       else lax;
     maxAge := Some (7 * 24 * 60 * 60 * 1000) |}.

Definition register (now : Z) (req : Request) : App Response :=
  let username := body req !! "username" in
  let email := body req !! "email" in
  let password := body req !! "password" in
  let role := body req !! "role" in
  if negb (truthy username) || negb (truthy email) || negb (truthy password)
  then throw "Please provide username, email, and password" 400
  else if length_lt_8 password
  then throw "Password must be at least 8 characters long" 400
  else
    let userRole := validated_role role in
    await email_lc := lift (value_toLowerCase email) in
    await existingUser :=
      findOne {| User.f_email := email_lc; User.f_provider := None |} false in
    match existingUser with
    | Some _ => throw "An account with this email already exists" 400
    | None =>
        await user :=
          create {| User.c_username := the_value username;
                    User.c_email := email_lc;
                    User.c_password := the_value password;
                    User.c_role := userRole;
                    User.c_provider := User.local |} now in
        await accessToken :=
          lift (generateAccessToken env now
                  (access_payload (User._id user) (User.email user)
                     (User.role user))) in
        await refreshToken :=
          lift (generateRefreshToken env now
                  (refresh_payload (User._id user))) in
        let res := res_cookie new_res "jwt" refreshToken
                     register_cookieOptions in
        App_ret
          (sendSuccess res "Registration successful"
             (Some {| d_user :=
                        Some {| uv_id := User._id user;
                                uv_username := User.username user;
                                uv_email := User.email user;
                                uv_role := User.role user;
                                uv_isActive := None;
                                uv_createdAt := None |};
                      d_accessToken := Some accessToken |})
             201)
    end.

Definition login_cookieOptions : CookieOptions :=
  {| httpOnly := true;
     secure :=
       if decide (env !! "ALLOW_INSECURE_COOKIES" = Some "true") then false
       else bool_decide (NODE_ENV (config env) = "production");
     sameSite :=
       if decide (env !! "ALLOW_INSECURE_COOKIES" = Some "true") then lax
       else if decide (NODE_ENV (config env) = "production") then none
       else lax;
     maxAge := Some (7 * 24 * 60 * 60 * 1000) |}.

Definition login (now : Z) (req : Request) : App Response :=
  let email := body req !! "email" in
  let password := body req !! "password" in
  if negb (truthy email) || negb (truthy password)
  then throw "Please provide email and password" 400
  else
    await email_lc := lift (value_toLowerCase email) in
    await user :=
      findOne {| User.f_email := email_lc;
                 User.f_provider := Some User.local |} true in
    match user with
    | None => throw "Invalid email or password" 401
    | Some user =>
        let isPasswordCorrect :=
          User.comparePassword user (the_value password) in
        if negb isPasswordCorrect
        then throw "Invalid email or password" 401
        else if negb (User.isActive user)
        then throw
               "Your account has been deactivated. Please contact support."
               403
        else
          await accessToken :=
            lift (generateAccessToken env now
                    (access_payload (User._id user) (User.email user)
                       (User.role user))) in
          await refreshToken :=
            lift (generateRefreshToken env now
                    (refresh_payload (User._id user))) in
          let res := res_cookie new_res "jwt" refreshToken
                       login_cookieOptions in
          App_ret
            (sendSuccess res "Login successful"
               (Some {| d_user :=
                          Some {| uv_id := User._id user;
                                  uv_username := User.username user;
                                  uv_email := User.email user;
                                  uv_role := User.role user;
                                  uv_isActive := None;
                                  uv_createdAt := None |};
                        d_accessToken := Some accessToken |})
               200)
    end.


Definition refreshToken (now : Z) (req : Request) : App Response :=
  let refreshToken := cookies req ≫= (fun c => c !! "jwt") in
  match refreshToken with
  | None => throw "Refresh token not found. Please log in again." 401
  | Some refreshToken =>
      if negb (truthy_str refreshToken)
      then throw "Refresh token not found. Please log in again." 401
      else
        await decoded := lift (verifyRefreshToken env now refreshToken) in
        await user := findById (Some (userId decoded)) in
        match user with
        | None => throw "User no longer exists. Please log in again." 401
        | Some user =>
            if negb (User.isActive user)
            then throw
                   "Your account has been deactivated. Please contact support."
                   403
            else
              await newAccessToken :=
                lift (generateAccessToken env now
                        (access_payload (User._id user) (User.email user)
                           (User.role user))) in
              App_ret
                (sendSuccess new_res "Token refreshed successfully"
                   (Some {| d_user := None;
                            d_accessToken := Some newAccessToken |})
                   200)
        end
  end.

Definition getMe (req : Request) : App Response :=
  match user req with
  | None => throw "User not found in request" 401
  | Some claims =>
      await user := findById (Some (userId claims)) in
      match user with
      | None => throw "User not found" 404
      | Some user =>
          App_ret
            (sendSuccess new_res "User retrieved successfully"
               (Some {| d_user :=
                          Some {| uv_id := User._id user;
                                  uv_username := User.username user;
                                  uv_email := User.email user;
                                  uv_role := User.role user;
                                  uv_isActive := Some (User.isActive user);
                                  uv_createdAt :=
                                    Some (User.createdAt user) |};
                        d_accessToken := None |})
               200)
      end
  end.

(** The request carries, in its [jwt] cookie, a refresh token that
    verifies and whose subject is the stored, active identity [u]. *)
Definition refresh_grant (now : Z) (req : Request) (db : User.Store)
    (u : User.IUser) : Prop :=
  exists jar token decoded,
    cookies req = Some jar
    /\ jar !! "jwt" = Some token
    /\ verifyRefreshToken env now token = Ok decoded
    /\ User.findById (Some (userId decoded)) db = Ok (Some u)
    /\ User.isActive u = true.
End AuthController.

(* ===================================================================== *)
(** * User controller ([controllers/user.controller.ts]) *)
(* ===================================================================== *)

Definition updateUserStatus (now : Z) (req : Request) : App Response :=
  let id := params req !! "id" in
  let isActive := body req !! "isActive" in
  match typeof_boolean isActive with
  | None => throw "isActive must be a boolean value" 400
  | Some isActive =>
      if bool_decide (id = userId <$> user req)
      then throw "Admins cannot ban themselves" 400
      else
        await user := findById id in
        match user with
        | None => throw "User not found" 404
        | Some user =>
            if bool_decide (User.role user = ADMIN) && negb isActive
            then throw "Cannot ban other administrators" 403
            else
              let user := User.set_isActive isActive user in
              await _unit := save user now in
              App_ret
                (sendSuccess new_res
                   ("User " +:+ (if isActive then "activated" else "banned")
                    +:+ " successfully")
                   (Some {| d_user :=
                              Some {| uv_id := User._id user;
                                      uv_username := User.username user;
                                      uv_email := User.email user;
                                      uv_role := User.role user;
                                      uv_isActive :=
                                        Some (User.isActive user);
                                      uv_createdAt := None |};
                            d_accessToken := None |})
                   200)
        end
  end.

(* ===================================================================== *)
(** * Routes ([routes/auth.routes.ts], [routes/user.routes.ts]) *)
(* ===================================================================== *)

Section Routes.
Context `{StringPrototype} `{Jsonwebtoken} `{Bcryptjs} `{User.Mongoose}.
Variable env : ProcessEnv.

(** [router.post('/register', AuthController.register)] *)
Definition POST_auth_register (now : Z) := route [] (register env now).

(** [router.post('/login', AuthController.login)] *)
Definition POST_auth_login (now : Z) := route [] (login env now).

(** [router.post('/refresh', AuthController.refreshToken)] *)
Definition POST_auth_refresh (now : Z) := route [] (refreshToken env now).

(** [router.get('/me', protect, AuthController.getMe)] *)
Definition GET_auth_me (now : Z) := route [protect env now] getMe.

(** [router.patch('/:id/status', protect, restrictTo(UserRole.ADMIN),
    UserController.updateUserStatus)] *)
Definition PATCH_users_status (now : Z) :=
  route [protect env now; restrictTo [ADMIN]] (updateUserStatus now).
End Routes.

(* ===================================================================== *)
(** * Client token orchestrator ([client/lib/axios.ts]) *)
(* ===================================================================== *)

Module Client.

(** The browser globals the module touches; on the server side of the
    framework [window] is undefined. *)
Record Window := mkWindow {
  localStorage : gmap string string;
  sessionStorage : gmap string string;
  location_href : string
}.

(** An axios request configuration: the fields the interceptors read or
    write.  [_retry] is [false] until the response interceptor sets
    it. *)
Record RequestConfig := mkRequestConfig {
  url : string;
  headers : option (gmap string string);
  _retry : bool
}.

(** [AxiosError]: the configuration of the failed call and the status
    of the response, if there was one. *)
Record AxiosError := mkAxiosError {
  config : RequestConfig;
  response_status : option Z
}.

(** A suspended [.then(...).catch(...)] chain hanging off a queued
    promise; the closure captures the call's [originalRequest]. *)
Record Waiter := mkWaiter {
  originalRequest : RequestConfig
}.

(** The module-level variables and the browser. *)
Record State := mkState {
  accessToken : option string;
  isRefreshing : bool;
  failedQueue : list Waiter;
  window : option Window
}.

(** What the outside world sees. *)
Inductive Effect :=
| RefreshCall
| Dispatch (cfg : RequestConfig)
| Rejected (cfg : RequestConfig) (reason : AxiosError).

(** Jobs queued by settling a promise. *)
Inductive Microtask :=
| ThenRetry (w : Waiter) (token : string)
| CatchReject (w : Waiter) (err : AxiosError).

(** The outcome of [axios.post('/auth/refresh')]: the [accessToken] of
    the response body, or the rejection. *)
Inductive RefreshOutcome :=
| RefreshOk (newAccessToken : string)
| RefreshFailed (refreshError : AxiosError).

Definition set_accessToken (st : State) (t : option string) : State :=
  {| accessToken := t; isRefreshing := isRefreshing st;
     failedQueue := failedQueue st; window := window st |}.

Definition set_isRefreshing (st : State) (b : bool) : State :=
  {| accessToken := accessToken st; isRefreshing := b;
     failedQueue := failedQueue st; window := window st |}.

Definition set_failedQueue (st : State) (q : list Waiter) : State :=
  {| accessToken := accessToken st; isRefreshing := isRefreshing st;
     failedQueue := q; window := window st |}.

Definition set_window (st : State) (w : option Window) : State :=
  {| accessToken := accessToken st; isRefreshing := isRefreshing st;
     failedQueue := failedQueue st; window := w |}.

(** [!!t] for [string | null] *)
Definition truthy_token (t : option string) : bool :=
  match t with
  | Some s => truthy_str s
  | None => false
  end.

(** [config.headers.Authorization = `Bearer ${token}`] *)
Definition set_Authorization (cfg : RequestConfig) (token : string)
    : RequestConfig :=
  {| url := url cfg;
     headers := Some (<["Authorization" := "Bearer " +:+ token]>
                        (default ∅ (headers cfg)));
     _retry := _retry cfg |}.

(** The request interceptor. *)
Definition request_interceptor (st : State) (cfg : RequestConfig)
    : State * RequestConfig :=
  let token :=
    if truthy_token (accessToken st) then accessToken st
    else match window st with
         | Some w => localStorage w !! "accessToken"
         | None => None
         end in
  match token with
  | Some t =>
      if truthy_str t then
        let cfg := set_Authorization cfg t in
        if negb (truthy_token (accessToken st))
        then (set_accessToken st (Some t), cfg)
        else (st, cfg)
      else (st, cfg)
  | None => (st, cfg)
  end.

(** [apiClient(config)]: axios gives the configuration a headers object,
    runs the request interceptor and sends the call. *)
Definition apiClient (st : State) (cfg : RequestConfig)
    : State * list Effect :=
  let cfg := {| url := url cfg;
                headers := Some (default ∅ (headers cfg));
                _retry := _retry cfg |} in
  let '(st, cfg) := request_interceptor st cfg in
  (st, [Dispatch cfg]).

Definition setTokens (st : State) (access : string) : State :=
  let st := set_accessToken st (Some access) in
  match window st with
  | Some w =>
      set_window st
        (Some {| localStorage := localStorage w;
                 sessionStorage := <["accessToken" := access]> (sessionStorage w);
                 location_href := location_href w |})
  | None => st
  end.

Definition getAccessToken (st : State) : State * option string :=
  let st :=
    match window st with
    | Some w =>
        if negb (truthy_token (accessToken st))
        then set_accessToken st (sessionStorage w !! "accessToken")
        else st
    | None => st
    end in
  (st, accessToken st).

Definition clearTokens (st : State) : State :=
  let st := set_accessToken st None in
  match window st with
  | Some w =>
      set_window st
        (Some {| localStorage := localStorage w;
                 sessionStorage := delete "accessToken" (sessionStorage w);
                 location_href := location_href w |})
  | None => st
  end.

Definition initializeTokens (st : State) : State :=
  match window st with
  | Some w =>
      match sessionStorage w !! "accessToken" with
      | Some storedAccessToken =>
          if truthy_str storedAccessToken
          then set_accessToken st (Some storedAccessToken)
          else st
      | None => st
      end
  | None => st
  end.

(** [processQueue(error, token)]: every queued promise is settled, in
    queue order, and the queue is replaced by an empty one. *)
Definition processQueue (st : State) (error : option AxiosError)
    (token : option string) : State * list Microtask :=
  let jobs :=
    (fun prom =>
       match error with
       | Some e => CatchReject prom e
       | None => ThenRetry prom (default EmptyString token)
       end) <$> failedQueue st in
  (set_failedQueue st [], jobs).

(** The response interceptor's error handler, up to its first
    suspension point.  A queued call returns a pending promise and has
    no effect yet; the initiator issues the refresh call and waits. *)
Inductive Suspended :=
| Settled
| Queued
| AwaitingRefresh (originalRequest : RequestConfig).

Definition on_response_error (st : State) (error : AxiosError)
    : State * list Effect * Suspended :=
  let originalRequest := config error in
  if bool_decide (response_status error = Some 401)
     && negb (_retry originalRequest) then
    if isRefreshing st then
      (set_failedQueue st (failedQueue st ++ [mkWaiter originalRequest]),
       [], Queued)
    else
      let originalRequest :=
        {| url := url originalRequest;
           headers := headers originalRequest;
           _retry := true |} in
      let st := set_isRefreshing st true in
      (st, [RefreshCall], AwaitingRefresh originalRequest)
  else (st, [Rejected originalRequest error], Settled).

(** [originalRequest.headers.Authorization = ...], guarded by
    [if (originalRequest.headers)]. *)
Definition set_Authorization_if_headers (cfg : RequestConfig)
    (token : string) : RequestConfig :=
  match headers cfg with
  | Some _ => set_Authorization cfg token
  | None => cfg
  end.

(** The rest of the error handler, resumed when the refresh call
    settles: the [try] body or the [catch] body, then [finally]. *)
Definition on_refresh_settled (st : State) (originalRequest : RequestConfig)
    (outcome : RefreshOutcome) : State * list Effect * list Microtask :=
  match outcome with
  | RefreshOk newAccessToken =>
      let st := setTokens st newAccessToken in
      let originalRequest :=
        set_Authorization_if_headers originalRequest newAccessToken in
      let '(st, jobs) := processQueue st None (Some newAccessToken) in
      let '(st, effs) := apiClient st originalRequest in
      let st := set_isRefreshing st false in
      (st, effs, jobs)
  | RefreshFailed refreshError =>
      let '(st, jobs) := processQueue st (Some refreshError) None in
      let st := clearTokens st in
      let st :=
        match window st with
        | Some w =>
            set_window st
              (Some {| localStorage := localStorage w;
                       sessionStorage := sessionStorage w;
                       location_href := "/auth/login" |})
        | None => st
        end in
      let st := set_isRefreshing st false in
      (st, [Rejected originalRequest refreshError], jobs)
  end.

(** One queued job: the [.then] callback of a released call, or the
    [.catch] callback of a rejected one. *)
Definition run_microtask (st : State) (job : Microtask)
    : State * list Effect :=
  match job with
  | ThenRetry w token =>
      let originalRequest :=
        set_Authorization_if_headers (originalRequest w) token in
      apiClient st originalRequest
  | CatchReject w err => (st, [Rejected (originalRequest w) err])
  end.

Fixpoint run_microtasks (st : State) (jobs : list Microtask)
    : State * list Effect :=
  match jobs with
  | [] => (st, [])
  | job :: rest =>
      let '(st, e1) := run_microtask st job in
      let '(st, e2) := run_microtasks st rest in
      (st, e1 ++ e2)
  end.

(** [N] calls whose 401 responses arrive, one after the other, before the
    refresh call settles.  The result also records which call, if any,
    is waiting on the refresh. *)
Fixpoint receive_401s (st : State) (calls : list RequestConfig)
    : State * list Effect * list RequestConfig :=
  match calls with
  | [] => (st, [], [])
  | c :: rest =>
      let '(st, e1, s) :=
        on_response_error st {| config := c; response_status := Some 401 |} in
      let '(st, e2, inits) := receive_401s st rest in
      (st, e1 ++ e2,
       match s with
       | AwaitingRefresh r => r :: inits
       | _ => inits
       end)
  end.

(** The refresh settles: the initiator's handler resumes, then the
    queued jobs run. *)
Definition settle (st : State) (initiator : RequestConfig)
    (outcome : RefreshOutcome) : State * list Effect :=
  let '(st, e1, jobs) := on_refresh_settled st initiator outcome in
  let '(st, e2) := run_microtasks st jobs in
  (st, e1 ++ e2).

(** [useLogin]'s [onSuccess] ([client/lib/auth-hooks.ts]) in the browser,
    on [response.data?.accessToken]: the token goes to [localStorage] and
    the page is reloaded at the dashboard; without a token the callback
    throws ([None]). *)
Definition useLogin_onSuccess (w : Window) (accessToken : option string)
    : option Window :=
  match accessToken with
  | Some t =>
      if truthy_str t then
        Some {| localStorage := <["accessToken" := t]> (localStorage w);
                sessionStorage := sessionStorage w;
                location_href := "/dashboard" |}
      else None
  | None => None
  end.

(** [useLogout]'s [onSuccess] *)
Definition useLogout_onSuccess (w : Window) : Window :=
  {| localStorage := delete "accessToken" (localStorage w);
     sessionStorage := sessionStorage w;
     location_href := "/auth/login" |}.

(** The configuration a call is sent again with: its own, with
    [token] as the bearer credential. *)
Definition retried (token : string) (cfg : RequestConfig) : RequestConfig :=
  {| url := url cfg;
     headers := Some (<["Authorization" := "Bearer " +:+ token]>
                        (default ∅ (headers cfg)));
     _retry := _retry cfg |}.

(** The initiator's configuration after [originalRequest._retry = true]. *)
Definition marked (cfg : RequestConfig) : RequestConfig :=
  {| url := url cfg; headers := headers cfg; _retry := true |}.

(** The module as it is loaded: [let accessToken = null],
    [let isRefreshing = false], [let failedQueue = []], in a browser whose
    storages are what earlier pages left. *)
Definition init (w : option Window) : State :=
  {| accessToken := None; isRefreshing := false; failedQueue := [];
     window := w |}.

(** Response errors of any kind arriving one after the other while no
    refresh settles. *)
Fixpoint receive_errors (st : State) (errors : list AxiosError)
    : State * list Effect :=
  match errors with
  | [] => (st, [])
  | error :: rest =>
      let '(st, e1, _) := on_response_error st error in
      let '(st, e2) := receive_errors st rest in
      (st, e1 ++ e2)
  end.

Definition is_RefreshCall (e : Effect) : bool :=
  match e with
  | RefreshCall => true
  | _ => false
  end.

(** The calls that join the queue: fresh 401s. *)
Definition joins_queue (error : AxiosError) : bool :=
  bool_decide (response_status error = Some 401) && negb (_retry (config error)).

End Client.

(* ===================================================================== *)
(** * The rest of the token service, middleware and routes *)
(* ===================================================================== *)

(** [jwt.decode]: the payload of a well-formed token, read without any
    key; what was serialised is what is read back. *)
Class JsonwebtokenDecode `{Jsonwebtoken} := {
  jws_decode : string -> option JWTPayload;
  jws_decode_sign : forall p k, jws_decode (jws_sign p k) = Some p
}.

Section DecodeToken.
Context `{JsonwebtokenDecode}.

(** [TokenService.decodeToken]: [jwt.decode(token)], [null] when the
    library gives up. *)
Definition decodeToken (token : string) : option JWTPayload :=
  jws_decode token.
End DecodeToken.

Section RefreshCookieMiddleware.
Context `{Jsonwebtoken}.
Variable env : ProcessEnv.

(** The middleware [verifyRefreshToken] of [auth.middleware.ts] (the
    token service has a function of the same name): the token is read
    from the cookie [refreshToken], and on success the request gets
    [{ userId: decoded.userId }] as its user. *)
Definition verifyRefreshToken_middleware (now : Z) : Middleware := fun req =>
  let refreshToken := cookies req ≫= (fun jar => jar !! "refreshToken") in
  match refreshToken with
  | None => throw_AppError "Refresh token not found. Please log in again." 401
  | Some refreshToken =>
      if negb (truthy_str refreshToken) then
        throw_AppError "Refresh token not found. Please log in again." 401
      else
        match verifyRefreshToken env now refreshToken with
        | Ok decoded => Ok (set_user req (refresh_payload (userId decoded)))
        | Throw error => Throw error
        end
  end.
End RefreshCookieMiddleware.

Section TransactionRoutes.
Context `{Jsonwebtoken}.
Variable env : ProcessEnv.

(** The handlers of the transaction controller, whatever they do. *)
Variable simulate getHistory : Request -> App Response.

(** [router.post('/simulate', protect,
    restrictTo(UserRole.MERCHANT, UserRole.ADMIN),
    TransactionController.simulate)] *)
Definition POST_transaction_simulate (now : Z) :=
  route [protect env now; restrictTo [MERCHANT; ADMIN]] simulate.

(** [router.get('/history', protect,
    restrictTo(UserRole.MERCHANT, UserRole.ADMIN),
    TransactionController.getHistory)] *)
Definition GET_transaction_history (now : Z) :=
  route [protect env now; restrictTo [MERCHANT; ADMIN]] getHistory.
End TransactionRoutes.

(** What [user.save()] does to one stored document, seen through a
    query. *)
Definition saved (doc : User.IUser) (now : Z) (d : User.IUser) : User.IUser :=
  if bool_decide (User._id d = User._id doc) then
    if bool_decide (User.isActive d = User.isActive doc) then d
    else {| User._id := User._id d; User.username := User.username d;
            User.email := User.email d; User.password := User.password d;
            User.role := User.role d; User.provider := User.provider d;
            User.googleId := User.googleId d;
            User.isActive := User.isActive doc;
            User.createdAt := User.createdAt d; User.updatedAt := now |}
  else d.

(** The cookies a client holds after a response: name and value of each
    cookie set, a later one replacing an earlier one of the same name. *)
Definition cookie_jar (res : Response) : gmap string string :=
  foldl (fun jar c => <[cookie_name c := cookie_value c]> jar) ∅
    (set_cookies res).



(** The next request of that client: the given one, with those cookies. *)
Definition with_cookies_of (res : Response) (req : Request) : Request :=
  {| headers_authorization := headers_authorization req;
     cookies := Some (cookie_jar res);
     body := body req; params := params req; user := user req |}.

(* ===================================================================== *)
(** * A reference implementation of the libraries *)
(* ===================================================================== *)

(** The library contracts above are satisfiable: a symbolic signer whose
    token is the bit string of the signing input (payload and key) behind
    a one-letter header, a table for [ms], a tagging "hash", and a
    document builder that numbers the identities.  The examples at the
    end of the file run the model on it. *)
Module Reference.

Definition role_code (r : UserRole) : nat :=
  match r with
  | USER => 0
  | MERCHANT => 1
  | ADMIN => 2
  end%nat.

Definition role_of_code (n : nat) : UserRole :=
  match n with
  | O => USER
  | S O => MERCHANT
  | _ => ADMIN
  end.

#[global] Instance UserRole_countable : Countable UserRole.
Proof.
  apply (inj_countable' role_code role_of_code). by intros [].
Defined.

(** One field of the signing input. *)
Definition Field : Type := option string + (option Z + option UserRole).

Definition signing_input (p : JWTPayload) (k : string) : list Field :=
  [inl (Some (userId p)); inl (email p); inr (inr (role p));
   inr (inl (iat p)); inr (inl (nbf p)); inr (inl (exp p));
   inl (iss p); inl (aud p); inl (Some k)].

Definition parse_input (l : list Field) : option (JWTPayload * string) :=
  match l with
  | [inl (Some a); inl b; inr (inr c); inr (inl d); inr (inl e);
     inr (inl f); inl g; inl h; inl (Some k)] =>
      Some (mkPayload a b c d e f g h, k)
  | _ => None
  end.

Fixpoint bits (p : positive) : string :=
  match p with
  | xH => EmptyString
  | xO q => String "0" (bits q)
  | xI q => String "1" (bits q)
  end.

Fixpoint of_bits (s : string) : option positive :=
  match s with
  | EmptyString => Some xH
  | String c r =>
      if Ascii.eqb c "0" then xO <$> of_bits r
      else if Ascii.eqb c "1" then xI <$> of_bits r
      else None
  end.

Definition decode_input (n : positive) : option (list Field) := decode n.

Definition sign (p : JWTPayload) (k : string) : string :=
  String "J" (bits (encode (signing_input p k))).

Definition verify (t k : string) : option JWTPayload :=
  match t with
  | EmptyString => None
  | String c r =>
      if Ascii.eqb c "J" then
        match of_bits r with
        | Some n =>
            match decode_input n with
            | Some l =>
                match parse_input l with
                | Some (p, k') => if decide (k' = k) then Some p else None
                | None => None
                end
            | None => None
            end
        | None => None
        end
      else None
  end.

Definition ms_table (s : string) : option Z :=
  if decide (s = "15m") then Some 900000
  else if decide (s = "7d") then Some 604800000
  else if decide (s = "1h") then Some 3600000
  else None.

#[global, refine] Instance jsonwebtoken : Jsonwebtoken :=
  {| jws_sign := sign; jws_verify := verify; ms := ms_table |}.
Proof.
  - intros p k k'. unfold verify, sign. cbn [Ascii.eqb Bool.eqb].
    assert (forall q, of_bits (bits q) = Some q) as ->
      by (induction q as [q IH|q IH|]; cbn; rewrite ?IH; reflexivity).
    unfold decode_input. rewrite decode_encode.
    destruct p; reflexivity.
  - intros p k. unfold sign. discriminate.
  - intros p k. unfold sign. cbn.
    assert (forall q, split " " (bits q) = [bits q]) as ->
      by (induction q as [q IH|q IH|]; cbn; rewrite ?IH; reflexivity).
    reflexivity.
  - reflexivity.
  - reflexivity.
Defined.

(** The "hash" of a password is the password behind a cost tag. *)
#[global] Instance bcryptjs : Bcryptjs :=
  {| bcrypt_compare := fun candidate hash =>
       bool_decide (hash = "$2a$12$" +:+ candidate) |}.

(** The two functions as they are on ASCII text, which is all the
    examples use. *)
#[global] Instance string_prototype : StringPrototype :=
  {| toLowerCase := ascii_toLowerCase;
     trim := ascii_trim;
     toLowerCase_ascii := fun _ _ => eq_refl;
     trim_ascii := fun _ _ => eq_refl |}.

Definition hex_digit (n : nat) : ascii :=
  default "0"%char (String.get (n mod 16) "0123456789abcdef").

(** The identifier of the [n]-th document: 24 hexadecimal digits. *)
Definition object_id (n : nat) : string :=
  "65f0a1b2c3d4e5f6a7b8"
  +:+ String (hex_digit (n / 4096))
        (String (hex_digit (n / 256))
           (String (hex_digit (n / 16))
              (String (hex_digit n) EmptyString))).

(** Documents are built for a string-valued name of 3 to 30 characters
    and a string-valued password of at least 8, pass through the setters
    of their paths and get the index of their position as [_id]. *)
#[global] Instance mongoose : User.Mongoose :=
  {| User.new_document := fun db input now =>
       match User.c_username input, User.c_password input with
       | JStr u, JStr p =>
           if bool_decide (length_utf16 (trim u) < 3)%nat
              || bool_decide (30 < length_utf16 (trim u))%nat
              || bool_decide (length_utf16 p < 8)%nat
           then js_throw "ValidationError" "User validation failed"
           else
           Ok {| User._id := object_id (length db);
                 User.username := trim u;
                 User.email := User.email_setters (User.c_email input);
                 User.password := Some ("$2a$12$" +:+ p);
                 User.role := User.c_role input;
                 User.provider := User.c_provider input;
                 User.googleId := None;
                 User.isActive := true;
                 User.createdAt := now;
                 User.updatedAt := now |}
       | _, _ => js_throw "ValidationError" "User validation failed"
       end |}.

(** Identifiers: the first three in the order of insertion, and one that
    no stored identity has. *)
Definition admin_id : string := "65f0a1b2c3d4e5f6a7b80000".
Definition alice_id : string := "65f0a1b2c3d4e5f6a7b80001".
Definition bob_id : string := "65f0a1b2c3d4e5f6a7b80002".
Definition ghost_id : string := "65f0a1b2c3d4e5f6a7b80009".

(** The identities of the examples: an administrator and a user. *)
Definition admin : User.IUser :=
  {| User._id := admin_id; User.username := "root";
     User.email := "root@x.com"; User.password := Some "$2a$12$Passw0rd1";
     User.role := ADMIN; User.provider := User.local;
     User.googleId := None; User.isActive := true;
     User.createdAt := 1700000000; User.updatedAt := 1700000000 |}.

Definition alice : User.IUser :=
  {| User._id := alice_id; User.username := "alice";
     User.email := "alice@x.com"; User.password := Some "$2a$12$Passw0rd1";
     User.role := USER; User.provider := User.local;
     User.googleId := None; User.isActive := true;
     User.createdAt := 1700000100; User.updatedAt := 1700000100 |}.

Definition store : User.Store := [admin; alice].

(** A request with nothing in it. *)
Definition empty_request : Request :=
  {| headers_authorization := None; cookies := None; body := ∅;
     params := ∅; user := None |}.

(** Reading the payload back without the key. *)
Definition decode_unverified (t : string) : option JWTPayload :=
  match t with
  | EmptyString => None
  | String c r =>
      if Ascii.eqb c "J" then
        match of_bits r with
        | Some n =>
            match decode_input n with
            | Some l => fst <$> parse_input l
            | None => None
            end
        | None => None
        end
      else None
  end.

#[global, refine] Instance jsonwebtoken_decode : JsonwebtokenDecode :=
  {| jws_decode := decode_unverified |}.
Proof.
  intros p k. cbn [jws_sign jsonwebtoken]. unfold decode_unverified, sign.
  cbn [Ascii.eqb Bool.eqb].
  assert (forall q, of_bits (bits q) = Some q) as ->
    by (induction q as [q IH|q IH|]; cbn; rewrite ?IH; reflexivity).
  unfold decode_input. rewrite decode_encode.
  destruct p; reflexivity.
Defined.

End Reference.

(* ===================================================================== *)
(** * Concrete inputs *)
(* ===================================================================== *)

Module Examples.
Import Reference.

(** The default configuration: nothing set in the environment. *)
Definition env0 : ProcessEnv := ∅.

Definition t0 : Z := 1700000000.

Definition token_of (r : result string) : string :=
  match r with
  | Ok t => t
  | Throw _ => EmptyString
  end.

(** The tokens a login of [alice] at [t0] issues. *)
Definition alice_access : string :=
  Eval vm_compute in
    token_of (generateAccessToken env0 t0
                (access_payload Reference.alice_id "alice@x.com" USER)).

Definition alice_refresh : string :=
  Eval vm_compute in
    token_of (generateRefreshToken env0 t0 (refresh_payload Reference.alice_id)).

(** An access token for an identity that is not in the store. *)
Definition ghost_access : string :=
  Eval vm_compute in
    token_of (generateAccessToken env0 t0
                (access_payload Reference.ghost_id "ghost@x.com" USER)).

(** The store after an administrator has banned [alice]. *)
Definition banned_store : User.Store :=
  User.save (User.set_isActive false alice) (t0 + 200) store.

Definition bearer (token : string) : Request :=
  {| headers_authorization := Some ("Bearer " +:+ token);
     cookies := None; body := ∅; params := ∅; user := None |}.

Definition with_cookie (token : string) : Request :=
  {| headers_authorization := None;
     cookies := Some {["jwt" := token]};
     body := ∅; params := ∅; user := None |}.

Definition login_request : Request :=
  {| headers_authorization := None; cookies := None;
     body := {["email" := JStr "Alice@X.com";
               "password" := JStr "Passw0rd1"]};
     params := ∅; user := None |}.

(** A login whose email is a number. *)
Definition login_numeric_email : Request :=
  {| headers_authorization := None; cookies := None;
     body := {["email" := JNum 5; "password" := JStr "Passw0rd1"]};
     params := ∅; user := None |}.

(** A login whose email has white space around it. *)
Definition login_padded_email : Request :=
  {| headers_authorization := None; cookies := None;
     body := {["email" := JStr " Alice@X.com ";
               "password" := JStr "Passw0rd1"]};
     params := ∅; user := None |}.

(** The administrator asking to re-activate the administrator's own
    account. *)
Definition self_unban : Request :=
  {| headers_authorization := None; cookies := None;
     body := {["isActive" := JBool true]};
     params := {["id" := Reference.admin_id]};
     user := Some (signed_claims (access_payload Reference.admin_id "root@x.com" ADMIN)
                     t0 900) |}.

(** The same request with the administrator's id spelt in upper case,
    and a store in which that administrator is deactivated. *)
Definition self_unban_upper : Request :=
  {| headers_authorization := None; cookies := None;
     body := {["isActive" := JBool true]};
     params := {["id" := "65F0A1B2C3D4E5F6A7B80000"]};
     user := Some (signed_claims (access_payload admin_id "root@x.com" ADMIN)
                     t0 900) |}.

Definition suspended_admin : User.IUser :=
  {| User._id := admin_id; User.username := "root";
     User.email := "root@x.com"; User.password := Some "$2a$12$Passw0rd1";
     User.role := ADMIN; User.provider := User.local;
     User.googleId := None; User.isActive := false;
     User.createdAt := 1700000000; User.updatedAt := 1700000020 |}.

Definition reactivated_admin : User.IUser :=
  {| User._id := admin_id; User.username := "root";
     User.email := "root@x.com"; User.password := Some "$2a$12$Passw0rd1";
     User.role := ADMIN; User.provider := User.local;
     User.googleId := None; User.isActive := true;
     User.createdAt := 1700000000; User.updatedAt := t0 + 50 |}.

Definition idle : Client.State :=
  {| Client.accessToken := Some "expired";
     Client.isRefreshing := false;
     Client.failedQueue := [];
     Client.window :=
       Some {| Client.localStorage := ∅;
               Client.sessionStorage := {["accessToken" := "expired"]};
               Client.location_href := "/dashboard" |} |}.

Definition call (path : string) : Client.RequestConfig :=
  {| Client.url := path;
     Client.headers := Some {["Authorization" := "Bearer expired"]};
     Client._retry := false |}.
(** A browser in which only the durable store holds a token: nothing in
    memory, nothing in the session store. *)
Definition durable_only : Client.State :=
  {| Client.accessToken := None;
     Client.isRefreshing := false;
     Client.failedQueue := [];
     Client.window :=
       Some {| Client.localStorage := {["accessToken" := "durable-token"]};
               Client.sessionStorage := ∅;
               Client.location_href := "/dashboard" |} |}.
(** A deployment whose access-token lifetime is not a time span. *)
Definition env_bad_expiry : ProcessEnv := {["JWT_ACCESS_EXPIRY" := "soon"]}.

(** A registration for an email that is not in [store], and the identity
    it creates there at [t0]. *)
Definition register_request : Request :=
  {| headers_authorization := None; cookies := None;
     body := {["username" := JStr "bob"; "email" := JStr "Bob@X.com";
               "password" := JStr "Passw0rd2"]};
     params := ∅; user := None |}.

Definition bob : User.IUser :=
  {| User._id := Reference.bob_id; User.username := "bob";
     User.email := "bob@x.com"; User.password := Some "$2a$12$Passw0rd2";
     User.role := USER; User.provider := User.local;
     User.googleId := None; User.isActive := true;
     User.createdAt := t0; User.updatedAt := t0 |}.

(** A registration that asks for the administrator role, and the
    identity it creates in [store] at [t0]. *)
Definition register_admin_request : Request :=
  {| headers_authorization := None; cookies := None;
     body := {["username" := JStr "eve"; "email" := JStr "Eve@X.com";
               "password" := JStr "Passw0rd3"; "role" := JStr "ADMIN"]};
     params := ∅; user := None |}.

Definition eve : User.IUser :=
  {| User._id := bob_id; User.username := "eve";
     User.email := "eve@x.com"; User.password := Some "$2a$12$Passw0rd3";
     User.role := ADMIN; User.provider := User.local;
     User.googleId := None; User.isActive := true;
     User.createdAt := t0; User.updatedAt := t0 |}.

Definition registered : result Response * User.Store :=
  Eval vm_compute in register env0 t0 register_request store.

(** The response to [login_request] at [t0]. *)
Definition login_response : Response :=
  Eval vm_compute in
    match login env0 t0 login_request store with
    | (Ok res, _) => res
    | (Throw _, _) => new_res
    end.

(** Claims that are in date but name another issuer. *)
Definition foreign_claims : JWTPayload :=
  {| userId := Reference.alice_id; email := Some "alice@x.com"; role := Some ADMIN;
     iat := Some t0; nbf := None; exp := None;
     iss := Some "someone-else"; aud := Some "secureauth-api" |}.

(** A token signed by somebody who does not know the server's secret. *)
Definition self_signed : string :=
  Eval vm_compute in
    token_of (jwt_sign t0 (access_payload Reference.alice_id "alice@x.com" ADMIN)
                "not-the-secret"
                {| expiresIn := "15m"; issuer := "secureauth-gateway";
                   audience := "secureauth-api" |}).

(** The administrator banning [alice]. *)
Definition ban_alice : Request :=
  {| headers_authorization := None; cookies := None;
     body := {["isActive" := JBool false]};
     params := {["id" := Reference.alice_id]};
     user := Some (signed_claims (access_payload Reference.admin_id "root@x.com" ADMIN)
                     t0 900) |}.

(** What the handler makes of [ban_alice] on [store]. *)
Definition alice_banned : result Response * User.Store :=
  Eval vm_compute in updateUserStatus (t0 + 200) ban_alice store.

(** A handler that answers every request alike. *)
Definition done_handler : Request -> App Response :=
  fun _ => App_ret (sendSuccess new_res "done" None 200).

(** A page on which a refresh is under way, one call is queued, and the
    durable store holds a token. *)
Definition browser : Client.Window :=
  {| Client.localStorage := {["accessToken" := "durable-token"]};
     Client.sessionStorage := {["accessToken" := "expired"]};
     Client.location_href := "/dashboard" |}.

Definition refreshing : Client.State :=
  {| Client.accessToken := Some "expired";
     Client.isRefreshing := true;
     Client.failedQueue := [Client.mkWaiter (call "/b")];
     Client.window := Some browser |}.

Definition unauthorized (c : Client.RequestConfig) : Client.AxiosError :=
  {| Client.config := c; Client.response_status := Some 401 |}.
End Examples.

(* ===================================================================== *)
(** * Properties of the token service *)
(* ===================================================================== *)

Lemma truthy_str_true (s : string) : truthy_str s = true <-> s <> EmptyString.
Proof. unfold truthy_str. destruct (decide (s = EmptyString)); split; congruence. Qed.

Lemma truthy_str_false (s : string) : truthy_str s = false <-> s = EmptyString.
Proof. unfold truthy_str. destruct (decide (s = EmptyString)); split; congruence. Qed.

Lemma or_else_truthy (a : option string) (b : string) :
  truthy_str b = true -> truthy_str (or_else a b) = true.
Proof.
  intros Hb. unfold or_else. destruct a as [s|]; [|done].
  destruct (truthy_str s) eqn:Hs; done.
Qed.

(** Whatever the environment holds, neither configured secret is empty:
    an unset or empty variable falls back to the built-in default. *)
Lemma access_secret_truthy (env : ProcessEnv) :
  truthy_str (JWT_ACCESS_SECRET (config env)) = true.
Proof. apply or_else_truthy. reflexivity. Qed.

Lemma refresh_secret_truthy (env : ProcessEnv) :
  truthy_str (JWT_REFRESH_SECRET (config env)) = true.
Proof. apply or_else_truthy. reflexivity. Qed.

Section TokenServiceProperties.
Context `{Jsonwebtoken}.
Variable env : ProcessEnv.

Lemma jwt_sign_fresh now payload secret options milliseconds :
  truthy_str secret = true ->
  iat payload = None -> exp payload = None ->
  iss payload = None -> aud payload = None ->
  ms (expiresIn options) = Some milliseconds ->
  jwt_sign now payload secret options =
    Ok (jws_sign
          {| userId := userId payload; email := email payload;
             role := role payload; iat := Some now; nbf := nbf payload;
             exp := Some (now + milliseconds / 1000);
             iss := Some (issuer options);
             aud := Some (audience options) |} secret).
Proof.
  intros Hs Hiat Hexp Hiss Haud Hms. unfold jwt_sign, timespan.
  rewrite Hs, Hiat, Hexp, Hiss, Haud, Hms. reflexivity.
Qed.

Lemma generateAccessToken_fresh now payload milliseconds :
  iat payload = None -> exp payload = None ->
  iss payload = None -> aud payload = None ->
  ms (JWT_ACCESS_EXPIRY (config env)) = Some milliseconds ->
  generateAccessToken env now payload =
    Ok (jws_sign (signed_claims payload now (milliseconds / 1000))
          (JWT_ACCESS_SECRET (config env))).
Proof.
  intros. unfold generateAccessToken.
  erewrite jwt_sign_fresh; eauto using access_secret_truthy.
Qed.

Lemma generateRefreshToken_fresh now payload milliseconds :
  iat payload = None -> exp payload = None ->
  iss payload = None -> aud payload = None ->
  ms (JWT_REFRESH_EXPIRY (config env)) = Some milliseconds ->
  generateRefreshToken env now payload =
    Ok (jws_sign (signed_claims payload now (milliseconds / 1000))
          (JWT_REFRESH_SECRET (config env))).
Proof.
  intros. unfold generateRefreshToken.
  erewrite jwt_sign_fresh; eauto using refresh_secret_truthy.
Qed.

(** A token that [jwt.sign] returns is the serialisation of some payload
    under the given secret. *)
Lemma jwt_sign_inv now payload secret options token :
  jwt_sign now payload secret options = Ok token ->
  exists claims, token = jws_sign claims secret.
Proof.
  unfold jwt_sign, js_throw. intros Hs.
  repeat case_match; try discriminate; inversion Hs; eauto.
Qed.

(** [jwt.verify] under a key other than the signing key fails with a
    [JsonWebTokenError], whatever the clock. *)
Lemma jwt_verify_other_key now claims k k' options :
  k <> k' ->
  jwt_verify now (jws_sign claims k) k' options =
    js_throw "JsonWebTokenError" "invalid signature".
Proof.
  intros Hk. unfold jwt_verify.
  assert (truthy_str (jws_sign claims k) = true) as ->
    by (apply truthy_str_true, jws_sign_not_empty).
  rewrite jws_verify_sign. destruct (decide (k = k')); [done|]. reflexivity.
Qed.

(** [jwt.verify] under the signing key, before the expiry. *)
Lemma jwt_verify_signed now payload t0 ttl k :
  nbf payload = None ->
  now < t0 + ttl ->
  jwt_verify now (jws_sign (signed_claims payload t0 ttl) k) k
    {| v_issuer := "secureauth-gateway"; v_audience := "secureauth-api" |}
  = Ok (signed_claims payload t0 ttl).
Proof.
  intros Hnbf Hlt. unfold jwt_verify.
  assert (truthy_str (jws_sign (signed_claims payload t0 ttl) k) = true) as ->
    by (apply truthy_str_true, jws_sign_not_empty).
  rewrite jws_verify_sign. destruct (decide (k = k)); [|done].
  cbn. rewrite Hnbf.
  destruct (Z.leb_spec (t0 + ttl) now); [lia|].
  rewrite !bool_decide_eq_true_2 by done. reflexivity.
Qed.

(** The [catch] block of [verifyAccessToken] only ever throws an
    [AppError] with status 401. *)
Lemma verifyAccessToken_throws_401 now token e :
  verifyAccessToken env now token = Throw e ->
  exists msg, e = AppErr (new_AppError msg 401).
Proof.
  unfold verifyAccessToken, throw_AppError. intros Hv.
  repeat case_match; try discriminate; inversion Hv; eauto.
Qed.

Lemma verifyRefreshToken_throws_401 now token e :
  verifyRefreshToken env now token = Throw e ->
  exists msg, e = AppErr (new_AppError msg 401).
Proof.
  unfold verifyRefreshToken, throw_AppError. intros Hv.
  repeat case_match; try discriminate; inversion Hv; eauto.
Qed.

(** The three ways a presented access token fails, and the message each
    gets: a serialisation that does not verify under the access secret
    (bad format or signature), a token presented before its [nbf], and a
    token presented at or after its [exp]. *)
Lemma verifyAccessToken_rejects now token :
  token <> EmptyString ->
  (jws_verify token (JWT_ACCESS_SECRET (config env)) = None ->
     verifyAccessToken env now token
       = throw_AppError "Invalid access token" 401)
  /\ (forall p n,
        jws_verify token (JWT_ACCESS_SECRET (config env)) = Some p ->
        nbf p = Some n -> now < n ->
        verifyAccessToken env now token
          = throw_AppError "Access token not yet valid" 401)
  /\ (forall p e,
        jws_verify token (JWT_ACCESS_SECRET (config env)) = Some p ->
        nbf p = None -> exp p = Some e -> e <= now ->
        verifyAccessToken env now token
          = throw_AppError "Access token has expired" 401).
Proof.
  intros Hne. apply truthy_str_true in Hne.
  unfold verifyAccessToken, jwt_verify. rewrite Hne. cbn [negb].
  repeat split.
  - intros ->. reflexivity.
  - intros p n -> -> Hlt. destruct (Z.ltb_spec now n); [|lia]. reflexivity.
  - intros p e -> -> -> Hle. destruct (Z.leb_spec e now); [|lia]. reflexivity.
Qed.

(** At the expiry boundary and after it the access token is refused as
    expired. *)
Lemma access_token_expires (uid em : string) (r : UserRole) (t0 t1 : Z)
    (token : string) :
  JWT_ACCESS_EXPIRY (config env) = "15m" ->
  generateAccessToken env t0 (access_payload uid em r) = Ok token ->
  t0 + 900 <= t1 ->
  verifyAccessToken env t1 token
    = throw_AppError "Access token has expired" 401.
Proof.
  intros Hexp Hgen Hle.
  rewrite (generateAccessToken_fresh t0 _ 900000) in Hgen;
    [|reflexivity..|rewrite Hexp; apply ms_15m].
  change (900000 / 1000) with 900 in Hgen. injection Hgen as <-.
  destruct (verifyAccessToken_rejects t1 _
              (jws_sign_not_empty
                 (signed_claims (access_payload uid em r) t0 900)
                 (JWT_ACCESS_SECRET (config env)))) as (_ & _ & Hexpired).
  apply (Hexpired (signed_claims (access_payload uid em r) t0 900)
           (t0 + 900)); [|reflexivity|reflexivity|exact Hle].
  rewrite jws_verify_sign. destruct (decide _); [reflexivity|done].
Qed.

(** C2. Issuing an access token for (identityId, email, role) and
    verifying it before the 15-minute expiry succeeds; the decoded
    object carries exactly that identity triple, and besides it only the
    registered claims the signer stamps on every token: issued-at,
    expiry (issued-at plus 900 seconds), issuer and audience. *)
Theorem access_token_roundtrip (uid em : string) (r : UserRole) (t0 t1 : Z) :
  JWT_ACCESS_EXPIRY (config env) = "15m" ->
  t1 < t0 + 900 ->
  exists token decoded,
    generateAccessToken env t0 (access_payload uid em r) = Ok token
    /\ verifyAccessToken env t1 token = Ok decoded
    /\ (userId decoded, email decoded, role decoded) = (uid, Some em, Some r)
    /\ decoded =
         {| userId := uid; email := Some em; role := Some r;
            iat := Some t0; nbf := None; exp := Some (t0 + 900);
            iss := Some "secureauth-gateway";
            aud := Some "secureauth-api" |}.
Proof.
  intros Hexp Hlt.
  eexists _, _. split; [|split].
  - apply (generateAccessToken_fresh t0 (access_payload uid em r) 900000);
      try reflexivity.
    rewrite Hexp. apply ms_15m.
  - unfold verifyAccessToken.
    change (900000 / 1000) with 900.
    rewrite jwt_verify_signed by (done || lia). reflexivity.
  - split; reflexivity.
Qed.

(** C3. Secret separation: with the two configured secrets distinct, a
    token issued by the access-token signer is rejected by
    [verifyRefreshToken], and a token issued by the refresh-token signer
    is rejected by [verifyAccessToken]; either way the verifier throws
    the application's invalid-token error with status 401, at every
    clock reading. *)
Theorem secret_separation (p q : JWTPayload) (t0 t1 : Z)
    (access refresh : string) :
  JWT_ACCESS_SECRET (config env) <> JWT_REFRESH_SECRET (config env) ->
  generateAccessToken env t0 p = Ok access ->
  generateRefreshToken env t0 q = Ok refresh ->
  verifyRefreshToken env t1 access
    = throw_AppError "Invalid refresh token" 401
  /\ verifyAccessToken env t1 refresh
    = throw_AppError "Invalid access token" 401.
Proof.
  intros Hne Ha Hr.
  apply jwt_sign_inv in Ha as [ca ->]. apply jwt_sign_inv in Hr as [cr ->].
  split.
  - unfold verifyRefreshToken. rewrite jwt_verify_other_key by done.
    reflexivity.
  - unfold verifyAccessToken. rewrite jwt_verify_other_key by done.
    reflexivity.
Qed.
End TokenServiceProperties.

(* ===================================================================== *)
(** * Properties of the middleware *)
(* ===================================================================== *)

Lemma includes_Some (allowedRoles : list UserRole) (r : UserRole) :
  includes allowedRoles (Some r) = true <-> r ∈ allowedRoles.
Proof. unfold includes. apply bool_decide_eq_true. Qed.

Lemma includes_false (allowedRoles : list UserRole) (o : option UserRole) :
  (forall r, o = Some r -> r ∉ allowedRoles) -> includes allowedRoles o = false.
Proof.
  intros Hno. destruct o as [r|]; [|done].
  apply bool_decide_eq_false. by apply Hno.
Qed.

(** C4. [restrictTo(allowedRoles...)]: 401 when no identity is attached;
    403, with a message that lists the allowed roles, when the attached
    role is not a member of the list; otherwise the request goes on,
    unchanged, to the next handler.  Membership is the whole test: ADMIN
    is denied by a MERCHANT-only list.  A denied request never reaches
    the handler and leaves the store as it was. *)
Theorem restrictTo_allow_list (allowedRoles : list UserRole) (req : Request) :
  (user req = None ->
     restrictTo allowedRoles req
       = throw_AppError "Authentication required. Please log in first." 401)
  /\ (forall u, user req = Some u ->
        (forall r, role u = Some r -> r ∉ allowedRoles) ->
        restrictTo allowedRoles req
          = throw_AppError
              ("Access denied. This action requires one of the following roles: "
               +:+ join ", " (UserRole_value <$> allowedRoles)) 403)
  /\ (forall u r, user req = Some u -> role u = Some r -> r ∈ allowedRoles ->
        restrictTo allowedRoles req = Ok req)
  /\ (forall u, user req = Some u -> role u = Some ADMIN ->
        restrictTo [MERCHANT] req
          = throw_AppError
              "Access denied. This action requires one of the following roles: MERCHANT"
              403)
  /\ (forall handler db,
        match restrictTo allowedRoles req with
        | Ok _ =>
            route [restrictTo allowedRoles] handler req db
              = route [] handler req db
        | Throw e =>
            route [restrictTo allowedRoles] handler req db
              = (errorHandler e new_res, db)
            /\ (exn_status e = 401 \/ exn_status e = 403)
        end).
Proof.
  repeat split.
  - intros Hu. unfold restrictTo. by rewrite Hu.
  - intros u Hu Hno. unfold restrictTo. rewrite Hu.
    by rewrite (includes_false _ _ Hno).
  - intros u r Hu Hr Hin. unfold restrictTo. rewrite Hu, Hr.
    by rewrite (proj2 (includes_Some _ _) Hin).
  - intros u Hu Hr. unfold restrictTo. rewrite Hu, Hr. reflexivity.
  - intros handler db. unfold restrictTo, throw_AppError. cbn [route].
    destruct (user req) as [u|]; cbn.
    + destruct (includes allowedRoles (role u)); cbn; [done|]. split; auto.
    + split; auto.
Qed.

Section AuthMiddlewareProperties.
Context `{Jsonwebtoken}.
Variable env : ProcessEnv.

(** [("Bearer " + token).split(' ')]: the scheme, then the pieces of the
    token. *)
Lemma split_Bearer (token : string) :
  split " " ("Bearer " +:+ token) = "Bearer" :: split " " token.
Proof. reflexivity. Qed.

Lemma startsWith_Bearer (token : string) :
  startsWith ("Bearer " +:+ token) "Bearer " = true.
Proof. reflexivity. Qed.

(** [protect] on a well-formed bearer header is the verdict of
    [verifyAccessToken] on the token. *)
Lemma protect_Bearer now req token :
  headers_authorization req = Some ("Bearer " +:+ token) ->
  token <> EmptyString ->
  split " " token = [token] ->
  protect env now req =
    match verifyAccessToken env now token with
    | Ok decoded => Ok (set_user req decoded)
    | Throw e => Throw e
    end.
Proof.
  intros Hh Hne Hsp. unfold protect. rewrite Hh.
  rewrite startsWith_Bearer, split_Bearer, Hsp. cbn.
  rewrite (proj2 (truthy_str_true token) Hne). reflexivity.
Qed.

(** A verified token gets its decoded claims attached. *)
Lemma protect_verified now req h token decoded :
  headers_authorization req = Some h ->
  startsWith h "Bearer " = true ->
  split " " h !! 1%nat = Some token ->
  token <> EmptyString ->
  verifyAccessToken env now token = Ok decoded ->
  protect env now req = Ok (set_user req decoded).
Proof.
  intros Hh Hsw Htok Hne Hv. unfold protect.
  rewrite Hh, Hsw, Htok, Hv.
  rewrite (proj2 (truthy_str_true token) Hne).
  destruct (truthy_str h) eqn:Hth; cbn; [done|].
  apply truthy_str_false in Hth. subst h. discriminate.
Qed.

(** C5. [protect]: a request whose Authorization header is missing, is
    not of the Bearer scheme, or carries an empty token, and a request
    whose token fails verification, is answered with 401 and does not
    reach the handler; a request whose token verifies reaches the
    handler with the decoded claims attached.  The verdict is a
    function of the request, the configured secret and the clock: the
    store is neither read nor written, so the handler behind [protect]
    runs for a verified token whatever the store says about the
    identity. *)
Theorem protect_stateless (now : Z) (req : Request) :
  let unauthorized :=
    exists msg, protect env now req = throw_AppError msg 401 in
  (headers_authorization req = None -> unauthorized)
  /\ (forall h, headers_authorization req = Some h ->
        startsWith h "Bearer " = false -> unauthorized)
  /\ (forall h, headers_authorization req = Some h ->
        split " " h !! 1%nat = Some EmptyString -> unauthorized)
  /\ (forall h token e, headers_authorization req = Some h ->
        startsWith h "Bearer " = true ->
        split " " h !! 1%nat = Some token -> token <> EmptyString ->
        verifyAccessToken env now token = Throw e -> unauthorized)
  /\ (forall h token decoded, headers_authorization req = Some h ->
        startsWith h "Bearer " = true ->
        split " " h !! 1%nat = Some token -> token <> EmptyString ->
        verifyAccessToken env now token = Ok decoded ->
        protect env now req = Ok (set_user req decoded))
  /\ (forall handler db,
        match protect env now req with
        | Ok req' =>
            route [protect env now] handler req db = route [] handler req' db
        | Throw e =>
            route [protect env now] handler req db
              = (errorHandler e new_res, db)
            /\ status (errorHandler e new_res) = 401
        end)
  /\ (forall uid em r t0 token handler db,
        JWT_ACCESS_EXPIRY (config env) = "15m" ->
        generateAccessToken env t0 (access_payload uid em r) = Ok token ->
        now < t0 + 900 ->
        headers_authorization req = Some ("Bearer " +:+ token) ->
        route [protect env now] handler req db
          = route [] handler
              (set_user req (signed_claims (access_payload uid em r) t0 900))
              db).
Proof.
  assert (Hthrow: forall e, protect env now req = Throw e ->
            exists msg, e = AppErr (new_AppError msg 401)).
  { unfold protect, throw_AppError. intros e He.
    repeat case_match; try discriminate; inversion He; subst; eauto.
    eapply verifyAccessToken_throws_401; eauto. }
  cbn zeta. repeat split.
  - intros Hh. unfold protect. rewrite Hh. eauto.
  - intros h Hh Hsw. unfold protect. rewrite Hh, Hsw.
    rewrite orb_true_r. eauto.
  - intros h Hh Htok. unfold protect. rewrite Hh, Htok.
    destruct (negb (truthy_str h) || negb (startsWith h "Bearer ")); eauto.
  - intros h token e Hh Hsw Htok Hne Hv. unfold protect.
    rewrite Hh, Hsw, Htok, Hv.
    destruct (verifyAccessToken_throws_401 _ _ _ _ Hv) as [msg ->].
    rewrite (proj2 (truthy_str_true token) Hne).
    destruct (truthy_str h); cbn; eauto.
  - intros h token decoded. apply protect_verified.
  - intros handler db. cbn [route].
    destruct (protect env now req) as [req'|e] eqn:Hp; [done|].
    destruct (Hthrow e eq_refl) as [msg ->]. done.
  - intros uid em r t0 token handler db Hexp Hgen Hlt Hh.
    rewrite (generateAccessToken_fresh env t0 _ 900000) in Hgen;
      [|reflexivity..|rewrite Hexp; apply ms_15m].
    change (900000 / 1000) with 900 in Hgen.
    injection Hgen as <-. cbn [route].
    rewrite (protect_Bearer now req _ Hh);
      [|apply jws_sign_not_empty|apply jws_sign_no_space].
    unfold verifyAccessToken.
    rewrite jwt_verify_signed by (done || lia). reflexivity.
Qed.
End AuthMiddlewareProperties.

(* ===================================================================== *)
(** * Properties of the controllers *)
(* ===================================================================== *)

(** [User.findById] against the content of the store. *)
Lemma findById_cast_fails i db :
  User.castObjectId i = None ->
  User.findById (Some i) db
    = js_throw "CastError" "Cast to ObjectId failed for value at path '_id'".
Proof. intros Hc. unfold User.findById. by rewrite Hc. Qed.

Lemma findById_throws_js id db e :
  User.findById id db = Throw e -> exists err, e = JsErr err.
Proof.
  unfold User.findById, js_throw. intros Hf.
  repeat case_match; simplify_eq; eauto.
Qed.

Lemma findById_absent i oid db :
  User.castObjectId i = Some oid ->
  (forall d, d ∈ db -> User._id d <> oid) ->
  User.findById (Some i) db = Ok None.
Proof.
  intros Hc Hno. unfold User.findById. rewrite Hc.
  destruct (List.find _ db) as [d|] eqn:Hf; [|reflexivity].
  apply List.find_some in Hf as [Hin Hid].
  apply bool_decide_eq_true in Hid. apply list_elem_of_In in Hin.
  by destruct (Hno d Hin).
Qed.

Lemma findById_present i oid db pre d post :
  User.castObjectId i = Some oid ->
  db = pre ++ d :: post ->
  (forall x, x ∈ pre -> User._id x <> oid) ->
  User._id d = oid ->
  User.findById (Some i) db = Ok (Some (User.project false d)).
Proof.
  intros Hc -> Hpre Hd. unfold User.findById. rewrite Hc. do 2 f_equal.
  induction pre as [|x pre IH]; cbn [app List.find].
  - by rewrite bool_decide_eq_true_2.
  - rewrite bool_decide_eq_false_2 by (apply Hpre; left).
    apply IH. intros y Hy. apply Hpre. by right.
Qed.

Lemma findById_Some i db u :
  User.findById (Some i) db = Ok (Some u) ->
  User.castObjectId i = Some (User._id u)
  /\ exists d, d ∈ db /\ u = User.project false d.
Proof.
  unfold User.findById. destruct (User.castObjectId i) as [oid|]; [|done].
  destruct (List.find _ db) as [d|] eqn:Hf; [|done].
  apply List.find_some in Hf as [Hin Hid].
  apply bool_decide_eq_true in Hid. apply list_elem_of_In in Hin.
  intros [= <-]. cbn. split; [by rewrite Hid|eauto].
Qed.

(** C9. The self-check of [PATCH /users/:id/status] compares the text of
    the path id with the caller's id.  When the two are the same text
    the answer is 400 whatever the body asks for, and the store is not
    consulted.  When the path spells the caller's own identifier in
    another way (both cast to the same [ObjectId]), the check does not
    fire: the caller's own record is loaded; [isActive: true] is saved on
    it and answered with 200, [isActive: false] likewise unless the caller
    is an administrator, who is answered by the rule about other
    administrators with 403. *)
Theorem self_check_compares_text (now : Z) (req : Request)
    (db : User.Store) (caller : JWTPayload) (id : string) :
  user req = Some caller ->
  params req !! "id" = Some id ->
  (id = userId caller ->
     (exists msg, updateUserStatus now req db = (throw_AppError msg 400, db))
     /\ (forall b, body req !! "isActive" = Some (JBool b) ->
           updateUserStatus now req db
             = (throw_AppError "Admins cannot ban themselves" 400, db))
     /\ (forall db', (updateUserStatus now req db').1
                     = (updateUserStatus now req db).1))
  /\ (forall own b,
        id <> userId caller ->
        User.castObjectId id = User.castObjectId (userId caller) ->
        User.findById (Some (userId caller)) db = Ok (Some own) ->
        body req !! "isActive" = Some (JBool b) ->
        (b = true \/ User.role own <> ADMIN ->
           updateUserStatus now req db
             = (Ok (sendSuccess new_res
                      ("User " +:+ (if b then "activated" else "banned")
                       +:+ " successfully")
                      (Some {| d_user :=
                                 Some {| uv_id := User._id own;
                                         uv_username := User.username own;
                                         uv_email := User.email own;
                                         uv_role := User.role own;
                                         uv_isActive := Some b;
                                         uv_createdAt := None |};
                               d_accessToken := None |})
                      200),
                User.save (User.set_isActive b own) now db))
        /\ (b = false -> User.role own = ADMIN ->
            updateUserStatus now req db
              = (throw_AppError "Cannot ban other administrators" 403, db))).
Proof.
  intros Hu Hid. split.
  - intros ->.
    assert (Hself : bool_decide (params req !! "id" = userId <$> user req)
                    = true).
    { apply bool_decide_eq_true. by rewrite Hu, Hid. }
    repeat split.
    + unfold updateUserStatus. rewrite Hself.
      destruct (typeof_boolean (body req !! "isActive")); eauto.
    + intros b Hb. unfold updateUserStatus. rewrite Hb, Hself. reflexivity.
    + intros db'. unfold updateUserStatus. rewrite Hself.
      destruct (typeof_boolean (body req !! "isActive")); reflexivity.
  - intros own b Hne Hcast Hown Hb.
    assert (Hself : bool_decide (params req !! "id" = userId <$> user req)
                    = false).
    { apply bool_decide_eq_false. rewrite Hu, Hid. cbn. congruence. }
    assert (Hfind : User.findById (Some id) db = Ok (Some own)).
    { revert Hown. unfold User.findById. by rewrite Hcast. }
    unfold updateUserStatus. rewrite Hb, Hself, Hid. cbn [typeof_boolean].
    unfold App_bind, findById, save, App_ret, throw, lift.
    rewrite Hfind. split.
    + intros Hok.
      assert (bool_decide (User.role own = ADMIN) && negb b = false) as ->.
      { destruct Hok as [-> | Hr]; [apply andb_false_r|].
        by rewrite bool_decide_eq_false_2. }
      reflexivity.
    + intros -> Hr. rewrite bool_decide_eq_true_2 by done. reflexivity.
Qed.

Section GetMeProperties.
Context `{Jsonwebtoken}.
Variable env : ProcessEnv.

(** C10. [GET /auth/me] with a verified access token looks the token's
    subject up in the store.  When no stored identity has that
    identifier the answer is 404 "User not found" (not 401); when one
    has, the body is built from the stored record (id, username, email,
    role, isActive, createdAt), whatever the claims of the token say.  A
    subject that is no identifier at all, which no token of this server
    carries, makes the lookup throw and is answered with 500. *)
Theorem getMe_refetches (now : Z) (req : Request) (db : User.Store)
    (h token : string) (claims : JWTPayload) :
  headers_authorization req = Some h ->
  startsWith h "Bearer " = true ->
  split " " h !! 1%nat = Some token ->
  token <> EmptyString ->
  verifyAccessToken env now token = Ok claims ->
  (forall oid,
     User.castObjectId (userId claims) = Some oid ->
     (forall d, d ∈ db -> User._id d <> oid) ->
     GET_auth_me env now req db
       = (sendError new_res "User not found" 404, db)
     /\ getMe (set_user req claims) db
        = (throw_AppError "User not found" 404, db))
  /\ (forall oid pre d post,
        User.castObjectId (userId claims) = Some oid ->
        db = pre ++ d :: post ->
        (forall x, x ∈ pre -> User._id x <> oid) ->
        User._id d = oid ->
        GET_auth_me env now req db
          = (sendSuccess new_res "User retrieved successfully"
               (Some {| d_user :=
                          Some {| uv_id := User._id d;
                                  uv_username := User.username d;
                                  uv_email := User.email d;
                                  uv_role := User.role d;
                                  uv_isActive := Some (User.isActive d);
                                  uv_createdAt := Some (User.createdAt d) |};
                        d_accessToken := None |})
               200, db))
  /\ (User.castObjectId (userId claims) = None ->
      GET_auth_me env now req db
        = (sendError new_res "Internal Server Error" 500, db)).
Proof.
  intros Hh Hsw Htok Hne Hv.
  pose proof (protect_verified env now req h token claims Hh Hsw Htok Hne Hv)
    as Hok.
  unfold GET_auth_me. cbn [route]. rewrite Hok.
  unfold getMe, findById, App_bind, throw, lift. cbn [user set_user].
  split; [|split].
  - intros oid Hc Hno. by rewrite (findById_absent _ oid).
  - intros oid pre d post Hc Hdb Hpre Hd.
    by rewrite (findById_present _ oid db pre d post).
  - intros Hc. by rewrite findById_cast_fails.
Qed.
End GetMeProperties.

Section RefreshProperties.
Context `{Jsonwebtoken}.
Variable env : ProcessEnv.

(** When [jwt.verify] returns: the serialisation verifies under the
    secret, the clock is within the validity window, and audience and
    issuer are the expected ones. *)
Lemma jwt_verify_Ok now token secret options decoded :
  jwt_verify now token secret options = Ok decoded <->
  token <> EmptyString
  /\ jws_verify token secret = Some decoded
  /\ (forall n, nbf decoded = Some n -> n <= now)
  /\ (forall e, exp decoded = Some e -> now < e)
  /\ aud decoded = Some (v_audience options)
  /\ iss decoded = Some (v_issuer options).
Proof.
  unfold jwt_verify, js_throw.
  split.
  - destruct (truthy_str token) eqn:Ht; cbn; [|discriminate].
    apply truthy_str_true in Ht.
    destruct (jws_verify token secret) as [p|]; cbn; [|discriminate].
    destruct (nbf p) as [n|] eqn:Hn; [destruct (Z.ltb_spec now n)|];
      cbn; try discriminate.
    all: destruct (exp p) as [e|] eqn:He; [destruct (Z.leb_spec e now)|];
      cbn; try discriminate.
    all: destruct (bool_decide (aud p = Some (v_audience options))) eqn:Ha;
      cbn; try discriminate; apply bool_decide_eq_true in Ha.
    all: destruct (bool_decide (iss p = Some (v_issuer options))) eqn:Hi;
      cbn; try discriminate; apply bool_decide_eq_true in Hi.
    all: intros [= <-]; repeat split; auto.
    all: intros ? ?; simplify_eq; lia.
  - intros (Hne & -> & Hnbf & Hexp & Ha & Hi).
    rewrite (proj2 (truthy_str_true token) Hne). cbn.
    rewrite !bool_decide_eq_true_2 by done. cbn.
    destruct (nbf decoded) as [n|] eqn:Hn.
    { specialize (Hnbf n eq_refl). destruct (Z.ltb_spec now n); [lia|].
      destruct (exp decoded) as [e|] eqn:He; [|reflexivity].
      specialize (Hexp e eq_refl). destruct (Z.leb_spec e now); [lia|].
      reflexivity. }
    destruct (exp decoded) as [e|] eqn:He; [|reflexivity].
    specialize (Hexp e eq_refl). destruct (Z.leb_spec e now); [lia|].
    reflexivity.
Qed.

(** What "a correctly signed, unexpired refresh token" is for
    [verifyRefreshToken]. *)
Lemma verifyRefreshToken_Ok now token decoded :
  verifyRefreshToken env now token = Ok decoded <->
  token <> EmptyString
  /\ jws_verify token (JWT_REFRESH_SECRET (config env)) = Some decoded
  /\ (forall n, nbf decoded = Some n -> n <= now)
  /\ (forall e, exp decoded = Some e -> now < e)
  /\ aud decoded = Some "secureauth-api"
  /\ iss decoded = Some "secureauth-gateway".
Proof.
  rewrite <- (jwt_verify_Ok now token _
                {| v_issuer := "secureauth-gateway";
                   v_audience := "secureauth-api" |}).
  unfold verifyRefreshToken, throw_AppError.
  destruct (jwt_verify now token _ _); [done|].
  split; [|discriminate].
  repeat case_match; discriminate.
Qed.

(** The refresh route, case by case. *)
Lemma POST_auth_refresh_unfold now req db :
  POST_auth_refresh env now req db =
    match cookies req ≫= (fun jar => jar !! "jwt") with
    | None =>
        (sendError new_res "Refresh token not found. Please log in again."
           401, db)
    | Some token =>
        if negb (truthy_str token) then
          (sendError new_res "Refresh token not found. Please log in again."
             401, db)
        else
          match verifyRefreshToken env now token with
          | Throw e => (errorHandler e new_res, db)
          | Ok decoded =>
              match User.findById (Some (userId decoded)) db with
              | Throw e => (errorHandler e new_res, db)
              | Ok None =>
                  (sendError new_res
                     "User no longer exists. Please log in again." 401, db)
              | Ok (Some u) =>
                  if negb (User.isActive u) then
                    (sendError new_res
                       "Your account has been deactivated. Please contact support."
                       403, db)
                  else
                    match generateAccessToken env now
                            (access_payload (User._id u) (User.email u)
                               (User.role u)) with
                    | Throw e => (errorHandler e new_res, db)
                    | Ok newAccessToken =>
                        (sendSuccess new_res "Token refreshed successfully"
                           (Some {| d_user := None;
                                    d_accessToken := Some newAccessToken |})
                           200, db)
                    end
              end
          end
    end.
Proof.
  unfold POST_auth_refresh, refreshToken. cbn [route].
  unfold App_bind, findById, App_ret, throw, lift, throw_AppError.
  repeat case_match; simplify_eq; reflexivity.
Qed.

(** C6. [POST /auth/refresh] mints a new access token exactly when the
    [jwt] cookie holds a verifying refresh token whose subject is still
    in the store and active.  Otherwise: 401 without the cookie, 401
    when the token does not verify, 401 when the identity is gone, 403
    when it is inactive.  The success response carries the new access
    token and sets no cookie (no rotation); the handler looks at the
    cookie only, and never writes to the store. *)
Theorem refresh_mints_iff_granted (now : Z) (req : Request)
    (db : User.Store) (milliseconds : Z) :
  ms (JWT_ACCESS_EXPIRY (config env)) = Some milliseconds ->
  let res := (POST_auth_refresh env now req db).1 in
  (POST_auth_refresh env now req db).2 = db
  /\ ((status res = 200 /\ exists t, data res ≫= d_accessToken = Some t)
      <-> exists u, refresh_grant env now req db u)
  /\ (forall u, refresh_grant env now req db u ->
        exists newAccessToken,
          generateAccessToken env now
            (access_payload (User._id u) (User.email u) (User.role u))
            = Ok newAccessToken
          /\ res = {| status := 200; success := true;
                      res_message := "Token refreshed successfully";
                      data := Some {| d_user := None;
                                      d_accessToken := Some newAccessToken |};
                      set_cookies := [] |})
  /\ (cookies req ≫= (fun jar => jar !! "jwt") = None -> status res = 401)
  /\ (cookies req ≫= (fun jar => jar !! "jwt") = Some EmptyString ->
        status res = 401)
  /\ (forall token e,
        cookies req ≫= (fun jar => jar !! "jwt") = Some token ->
        verifyRefreshToken env now token = Throw e -> status res = 401)
  /\ (forall token decoded,
        cookies req ≫= (fun jar => jar !! "jwt") = Some token ->
        verifyRefreshToken env now token = Ok decoded ->
        User.findById (Some (userId decoded)) db = Ok None ->
        status res = 401)
  /\ (forall token decoded u,
        cookies req ≫= (fun jar => jar !! "jwt") = Some token ->
        verifyRefreshToken env now token = Ok decoded ->
        User.findById (Some (userId decoded)) db = Ok (Some u) ->
        User.isActive u = false ->
        status res = 403)
  /\ (forall req', cookies req' = cookies req ->
        POST_auth_refresh env now req' db = POST_auth_refresh env now req db).
Proof.
  intros Hms res.
  assert (Hgen : forall u,
            generateAccessToken env now
              (access_payload (User._id u) (User.email u) (User.role u))
            = Ok (jws_sign
                    (signed_claims
                       (access_payload (User._id u) (User.email u)
                          (User.role u)) now (milliseconds / 1000))
                    (JWT_ACCESS_SECRET (config env)))).
  { intros u. by apply generateAccessToken_fresh. }
  assert (Hgrant : forall u, refresh_grant env now req db u ->
            POST_auth_refresh env now req db =
              (sendSuccess new_res "Token refreshed successfully"
                 (Some {| d_user := None;
                          d_accessToken :=
                            Some (jws_sign
                                    (signed_claims
                                       (access_payload (User._id u)
                                          (User.email u) (User.role u))
                                       now (milliseconds / 1000))
                                    (JWT_ACCESS_SECRET (config env))) |})
                 200, db)).
  { intros u (jar & token & decoded & Hj & Ht & Hv & Hf & Ha).
    rewrite POST_auth_refresh_unfold, Hj. cbn [mbind option_bind].
    rewrite Ht.
    assert (truthy_str token = true) as ->.
    { apply truthy_str_true.
      by apply (proj1 (verifyRefreshToken_Ok now token decoded)). }
    cbn [negb]. rewrite Hv, Hf, Ha. cbn [negb]. rewrite Hgen. reflexivity. }
  assert (Hinv : status res = 200 -> exists u, refresh_grant env now req db u).
  { subst res. rewrite POST_auth_refresh_unfold. unfold refresh_grant.
    destruct (cookies req) as [jar|] eqn:Hj; cbn [mbind option_bind];
      [|discriminate].
    destruct (jar !! "jwt") as [token|] eqn:Ht; [|discriminate].
    destruct (truthy_str token); cbn [negb]; [|discriminate].
    destruct (verifyRefreshToken env now token) as [decoded|e] eqn:Hv.
    2:{ destruct (verifyRefreshToken_throws_401 _ _ _ _ Hv) as [m ->].
        discriminate. }
    destruct (User.findById (Some (userId decoded)) db) as [[u|]|e] eqn:Hf;
      [|discriminate|].
    2:{ destruct (findById_throws_js _ _ _ Hf) as [err ->]. discriminate. }
    destruct (User.isActive u) eqn:Ha; cbn [negb]; [|discriminate].
    intros _. exists u, jar, token, decoded. auto. }
  split; [|split; [|repeat split]].
  - rewrite POST_auth_refresh_unfold.
    repeat case_match; reflexivity.
  - split.
    + intros [Hs _]. auto.
    + intros [u Hu]. subst res. rewrite (Hgrant u Hu). cbn. eauto.
  - intros u Hu. eexists. split; [apply Hgen|].
    subst res. by rewrite (Hgrant u Hu).
  - subst res. rewrite POST_auth_refresh_unfold.
    intros ->. reflexivity.
  - subst res. rewrite POST_auth_refresh_unfold.
    intros ->. reflexivity.
  - subst res. rewrite POST_auth_refresh_unfold.
    intros token e -> Hv.
    destruct (verifyRefreshToken_throws_401 _ _ _ _ Hv) as [m ->].
    rewrite Hv.
    destruct (truthy_str token); reflexivity.
  - subst res. rewrite POST_auth_refresh_unfold.
    intros token decoded -> Hv Hf. rewrite Hv, Hf.
    destruct (truthy_str token); reflexivity.
  - subst res. rewrite POST_auth_refresh_unfold.
    intros token decoded u -> Hv Hf Ha.
    assert (truthy_str token = true) as ->.
    { apply truthy_str_true.
      by apply (proj1 (verifyRefreshToken_Ok now token decoded)). }
    cbn [negb]. rewrite Hv, Hf, Ha. reflexivity.
  - intros req' Hc. rewrite !POST_auth_refresh_unfold.
    rewrite Hc. reflexivity.
Qed.
End RefreshProperties.

Section LoginProperties.
Context `{StringPrototype} `{Jsonwebtoken} `{Bcryptjs} `{User.Mongoose}.
Variable env : ProcessEnv.

(** The login handler on a body with a non-empty string [email] and a
    truthy [password], case by case. *)
Lemma login_unfold now req db e pw :
  body req !! "email" = Some (JStr e) ->
  e <> EmptyString ->
  body req !! "password" = Some pw ->
  truthy (Some pw) = true ->
  login env now req db =
    match User.findOne {| User.f_email := toLowerCase e;
                          User.f_provider := Some User.local |} true db with
    | None => (throw_AppError "Invalid email or password" 401, db)
    | Some u =>
        if negb (User.comparePassword u pw) then
          (throw_AppError "Invalid email or password" 401, db)
        else if negb (User.isActive u) then
          (throw_AppError
             "Your account has been deactivated. Please contact support."
             403, db)
        else
          match generateAccessToken env now
                  (access_payload (User._id u) (User.email u) (User.role u))
          with
          | Throw err => (Throw err, db)
          | Ok accessToken =>
              match generateRefreshToken env now
                      (refresh_payload (User._id u)) with
              | Throw err => (Throw err, db)
              | Ok refreshToken =>
                  (Ok {| status := 200; success := true;
                         res_message := "Login successful";
                         data :=
                           Some {| d_user :=
                                     Some {| uv_id := User._id u;
                                             uv_username := User.username u;
                                             uv_email := User.email u;
                                             uv_role := User.role u;
                                             uv_isActive := None;
                                             uv_createdAt := None |};
                                   d_accessToken := Some accessToken |};
                         set_cookies :=
                           [mkCookie "jwt" refreshToken
                              (login_cookieOptions env)] |}, db)
              end
          end
    end.
Proof.
  intros He Hne Hp Hpw. unfold login. rewrite He, Hp, Hpw.
  cbn [truthy]. rewrite (proj2 (truthy_str_true e) Hne).
  cbn [negb orb value_toLowerCase the_value].
  unfold App_bind, findOne, App_ret, throw, lift, throw_AppError.
  repeat case_match; simplify_eq; reflexivity.
Qed.

(** A registration that succeeds appended the created identity to the
    store and set the [jwt] cookie to that identity's refresh token. *)
Lemma register_success now req db res db' :
  register env now req db = (Ok res, db') ->
  exists u refreshToken,
    db' = db ++ [u]
    /\ generateRefreshToken env now (refresh_payload (User._id u))
       = Ok refreshToken
    /\ set_cookies res
       = [mkCookie "jwt" refreshToken (register_cookieOptions env)].
Proof.
  unfold register.
  unfold App_bind, findOne, create, App_ret, throw, lift, throw_AppError.
  intros Hr.
  repeat case_match; simplify_eq.
  eexists _, _. repeat split; eauto.
Qed.

Lemma findOne_absent f sel db :
  (forall d, d ∈ db -> User.matches f d = false) ->
  User.findOne f sel db = None.
Proof.
  intros Hno. unfold User.findOne.
  destruct (List.find (User.matches f) db) as [d|] eqn:Hf; [|reflexivity].
  apply List.find_some in Hf as [Hin Hm]. apply list_elem_of_In in Hin.
  rewrite (Hno d Hin) in Hm. discriminate.
Qed.

Lemma findOne_present f sel db pre d post :
  db = pre ++ d :: post ->
  (forall x, x ∈ pre -> User.matches f x = false) ->
  User.matches f d = true ->
  User.findOne f sel db = Some (User.project sel d).
Proof.
  intros -> Hpre Hd. unfold User.findOne. f_equal.
  induction pre as [|x pre IH]; cbn [app List.find].
  - by rewrite Hd.
  - rewrite (Hpre x) by left. apply IH. intros y Hy. apply Hpre. by right.
Qed.

Lemma matches_local v d :
  User.matches {| User.f_email := v; User.f_provider := Some User.local |} d
    = bool_decide (User.email d = User.email_setters v)
      && bool_decide (User.provider d = User.local).
Proof. reflexivity. Qed.

(** C7. Login, for every request.  A missing or falsy email or password
    is turned down by the validation (400).  A truthy email that is not
    a string is not: [email.toLowerCase()] throws on it, before any
    lookup, and the route answers 500.  For a string email, which the
    lookup reads lower-cased and trimmed: when no local-provider identity
    of the store has it, and when the password is wrong for the first
    one that has, the answer is the same 401 "Invalid email or password";
    a correct password for an inactive identity is answered with 403;
    otherwise both tokens are issued for the stored identity and the
    refresh token is set as the [jwt] cookie, with the options that
    register uses for the cookie it sets.  The store is not modified. *)
Theorem login_outcomes (now : Z) (req : Request) (db : User.Store) :
  let email := body req !! "email" in
  let password := body req !! "password" in
  (truthy email = false \/ truthy password = false ->
     login env now req db
       = (throw_AppError "Please provide email and password" 400, db))
  /\ (forall v, email = Some v -> truthy email = true ->
        truthy password = true -> (forall s, v <> JStr s) ->
        login env now req db
          = (js_throw "TypeError" "toLowerCase is not a function", db)
        /\ POST_auth_login env now req db
           = (sendError new_res "Internal Server Error" 500, db))
  /\ (forall e pw, email = Some (JStr e) -> e <> EmptyString ->
        password = Some pw -> truthy (Some pw) = true ->
        let has_email (d : User.IUser) :=
          User.provider d = User.local
          /\ User.email d = User.email_setters (toLowerCase e) in
        ((forall d, d ∈ db -> ~ has_email d) ->
           login env now req db
             = (throw_AppError "Invalid email or password" 401, db))
        /\ (forall pre d post,
              db = pre ++ d :: post ->
              (forall x, x ∈ pre -> ~ has_email x) -> has_email d ->
              (User.comparePassword d pw = false ->
                 login env now req db
                   = (throw_AppError "Invalid email or password" 401, db))
              /\ (User.comparePassword d pw = true ->
                  User.isActive d = false ->
                  login env now req db
                    = (throw_AppError
                         "Your account has been deactivated. Please contact support."
                         403, db))
              /\ (forall access_ms refresh_ms,
                    User.comparePassword d pw = true ->
                    User.isActive d = true ->
                    ms (JWT_ACCESS_EXPIRY (config env)) = Some access_ms ->
                    ms (JWT_REFRESH_EXPIRY (config env)) = Some refresh_ms ->
                    exists accessToken refreshToken,
                      generateAccessToken env now
                        (access_payload (User._id d) (User.email d)
                           (User.role d))
                        = Ok accessToken
                      /\ generateRefreshToken env now
                           (refresh_payload (User._id d))
                         = Ok refreshToken
                      /\ login env now req db
                         = (Ok {| status := 200; success := true;
                                  res_message := "Login successful";
                                  data :=
                                    Some {| d_user :=
                                              Some {| uv_id := User._id d;
                                                      uv_username :=
                                                        User.username d;
                                                      uv_email := User.email d;
                                                      uv_role := User.role d;
                                                      uv_isActive := None;
                                                      uv_createdAt := None |};
                                            d_accessToken :=
                                              Some accessToken |};
                                  set_cookies :=
                                    [mkCookie "jwt" refreshToken
                                       (register_cookieOptions env)] |},
                            db))))
  /\ login_cookieOptions env = register_cookieOptions env
  /\ (forall req' db0 res db1,
        register env now req' db0 = (Ok res, db1) ->
        exists u refreshToken,
          db1 = db0 ++ [u]
          /\ generateRefreshToken env now (refresh_payload (User._id u))
             = Ok refreshToken
          /\ set_cookies res
             = [mkCookie "jwt" refreshToken (register_cookieOptions env)]).
Proof.
  cbv zeta. split; [|split; [|split; [|split]]].
  - intros Hmiss. unfold login.
    assert (negb (truthy (body req !! "email"))
            || negb (truthy (body req !! "password")) = true) as ->.
    { destruct Hmiss as [-> | ->]; cbn; rewrite ?orb_true_r; reflexivity. }
    reflexivity.
  - intros v Hv Te Tp Hns. unfold POST_auth_login, route, login.
    rewrite Te, Tp, Hv. cbn [negb orb].
    destruct v as [| | |s]; try (split; reflexivity). by destruct (Hns s).
  - intros e pw He Hne Hp Hpw.
    pose proof (login_unfold now req db e pw He Hne Hp Hpw) as Hl.
    assert (Hmiss : forall x : User.IUser,
              ~ (User.provider x = User.local
                 /\ User.email x = User.email_setters (toLowerCase e)) ->
              User.matches {| User.f_email := toLowerCase e;
                              User.f_provider := Some User.local |} x = false).
    { intros x Hx. rewrite matches_local.
      case_bool_decide as Hem; [|reflexivity].
      rewrite bool_decide_eq_false_2; [reflexivity|]. intros Hpr. by apply Hx. }
    split.
    + intros Hno. rewrite Hl. rewrite findOne_absent; [reflexivity|].
      intros d Hd. apply Hmiss, Hno, Hd.
    + intros pre d post Hdb Hpre [Hprov Hmail].
      rewrite (findOne_present _ true db pre d post Hdb) in Hl.
      2:{ intros x Hx. apply Hmiss, Hpre, Hx. }
      2:{ rewrite matches_local. by rewrite !bool_decide_eq_true_2. }
      change (User.comparePassword (User.project true d) pw)
        with (User.comparePassword d pw) in Hl.
      cbn [User.project User.isActive User._id User.email User.role
             User.username] in Hl.
      split; [|split].
      * intros Hc. rewrite Hl, Hc. reflexivity.
      * intros Hc Ha. rewrite Hl, Hc, Ha. reflexivity.
      * intros access_ms refresh_ms Hc Ha Hams Hrms.
        rewrite Hl, Hc, Ha. cbn [negb].
        rewrite (generateAccessToken_fresh env now _ access_ms)
          by (reflexivity || done).
        rewrite (generateRefreshToken_fresh env now _ refresh_ms)
          by (reflexivity || done).
        eexists _, _. repeat split; reflexivity.
  - reflexivity.
  - intros req' db0 res db1. apply register_success.
Qed.
End LoginProperties.

(* ===================================================================== *)
(** * Properties of the client orchestrator *)
(* ===================================================================== *)

Section ClientProperties.
Import Client.

Lemma apiClient_with_token st cfg token :
  accessToken st = Some token -> token <> EmptyString ->
  apiClient st (set_Authorization_if_headers cfg token)
    = (st, [Dispatch (retried token cfg)]).
Proof.
  intros Ht Hne. apply truthy_str_true in Hne.
  unfold apiClient, request_interceptor.
  rewrite Ht. cbn [truthy_token]. rewrite Hne. cbn iota beta.
  rewrite Hne. cbn [negb].
  unfold set_Authorization_if_headers, set_Authorization, retried.
  destruct (headers cfg) as [hs|] eqn:Hh; cbn; rewrite ?Hh; cbn;
    [|reflexivity].
  by rewrite insert_insert_eq.
Qed.

(** While a refresh is in flight every further 401 joins the queue, in
    arrival order, and nothing else happens. *)
Lemma receive_401s_while_refreshing st calls :
  isRefreshing st = true ->
  Forall (fun c => _retry c = false) calls ->
  receive_401s st calls
    = (set_failedQueue st (failedQueue st ++ (mkWaiter <$> calls)), [], []).
Proof.
  intros Hr Hall. revert st Hr.
  induction Hall as [|c calls Hc _ IH]; intros st Hr.
  - cbn. rewrite app_nil_r. by destruct st.
  - cbn [receive_401s]. unfold on_response_error. cbn [config response_status].
    rewrite bool_decide_eq_true_2 by done. rewrite Hc, Hr. cbn [negb andb].
    rewrite IH by done. cbn. by rewrite <- app_assoc.
Qed.

(** Released calls retry one by one with the stored token; the state is
    left alone. *)
Lemma run_released st token (ws : list Waiter) :
  accessToken st = Some token -> token <> EmptyString ->
  run_microtasks st ((fun w => ThenRetry w token) <$> ws)
    = (st, (fun w => Dispatch (retried token (originalRequest w))) <$> ws).
Proof.
  intros Ht Hne. induction ws as [|w ws IH]; [reflexivity|].
  cbn [fmap list_fmap run_microtasks run_microtask].
  rewrite apiClient_with_token by done. rewrite IH. reflexivity.
Qed.

Lemma run_rejected st err (ws : list Waiter) :
  run_microtasks st ((fun w => CatchReject w err) <$> ws)
    = (st, (fun w => Rejected (originalRequest w) err) <$> ws).
Proof.
  induction ws as [|w ws IH]; [reflexivity|].
  cbn [fmap list_fmap run_microtasks run_microtask]. rewrite IH.
  reflexivity.
Qed.

(** C1. Single-flight refresh.  From an idle orchestrator, let the 401
    responses of [N >= 2] fresh calls arrive, in any order, before the
    refresh settles.  Then exactly one refresh call is issued, by the
    first arrival; every later arrival is queued, in order.  When the
    refresh succeeds with a token, the token is stored, the queue is
    emptied, and the initiator and every queued call are sent again
    exactly once, each with that token as its bearer credential.  When
    the refresh fails, the tokens are cleared, the queue is emptied, and
    the initiator and every queued call are rejected with the refresh
    error.  No second refresh call is made either way. *)
Theorem single_flight_refresh (st : State) (first : RequestConfig)
    (others : list RequestConfig) :
  isRefreshing st = false ->
  failedQueue st = [] ->
  _retry first = false ->
  Forall (fun c => _retry c = false) others ->
  (2 <= length (first :: others))%nat ->
  let '(st1, effects1, initiators) := receive_401s st (first :: others) in
  effects1 = [RefreshCall]
  /\ initiators = [marked first]
  /\ isRefreshing st1 = true
  /\ failedQueue st1 = mkWaiter <$> others
  /\ (forall token, token <> EmptyString ->
        let '(st2, effects2) := settle st1 (marked first) (RefreshOk token) in
        accessToken st2 = Some token
        /\ isRefreshing st2 = false
        /\ failedQueue st2 = []
        /\ effects2 = Dispatch (retried token (marked first))
                      :: (Dispatch ∘ retried token <$> others))
  /\ (forall refreshError,
        let '(st2, effects2) :=
          settle st1 (marked first) (RefreshFailed refreshError) in
        accessToken st2 = None
        /\ isRefreshing st2 = false
        /\ failedQueue st2 = []
        /\ effects2 = Rejected (marked first) refreshError
                      :: ((fun c => Rejected c refreshError) <$> others)).
Proof.
  intros Hidle Hq Hfirst Hothers _.
  cbn [receive_401s]. unfold on_response_error at 1.
  cbn [config response_status].
  rewrite bool_decide_eq_true_2 by done. rewrite Hfirst, Hidle.
  cbn [negb andb].
  rewrite receive_401s_while_refreshing by done.
  cbn [app set_isRefreshing set_failedQueue accessToken isRefreshing
         failedQueue window].
  rewrite Hq. cbn [app].
  split; [reflexivity|]. split; [reflexivity|].
  split; [reflexivity|]. split; [reflexivity|]. split.
  - intros token Hne. unfold settle, on_refresh_settled, processQueue.
    set (st' := setTokens _ token).
    assert (Ht : accessToken st' = Some token).
    { subst st'. unfold setTokens. cbn. by destruct (window st). }
    assert (Hq' : failedQueue st' = mkWaiter <$> others).
    { subst st'. unfold setTokens. cbn. by destruct (window st). }
    rewrite Hq'.
    rewrite apiClient_with_token by done.
    change (fun prom : Waiter =>
              ThenRetry prom (default EmptyString (Some token)))
      with (fun w : Waiter => ThenRetry w token).
    rewrite (run_released _ token) by done.
    rewrite <- list_fmap_compose. cbn. auto.
  - intros err. unfold settle, on_refresh_settled, processQueue.
    cbn [failedQueue set_failedQueue set_isRefreshing].
    rewrite run_rejected. rewrite <- list_fmap_compose.
    unfold clearTokens. destruct st as [tok refreshing queue [w|]]; cbn; auto.
Qed.
End ClientProperties.

Section ClientStorageProperties.
Import Client.

(** Storing and clearing the access token touch the in-memory variable
    and [sessionStorage] only. *)
Lemma setTokens_keeps_localStorage st access :
  (localStorage <$> window (setTokens st access))
    = (localStorage <$> window st).
Proof. unfold setTokens. destruct st as [? ? ? [w|]]; reflexivity. Qed.

Lemma clearTokens_keeps_localStorage st :
  (localStorage <$> window (clearTokens st)) = (localStorage <$> window st).
Proof. unfold clearTokens. destruct st as [? ? ? [w|]]; reflexivity. Qed.

(** With no token in memory, the request interceptor attaches whatever
    [localStorage] holds under [accessToken], and adopts it as the
    in-memory token; [sessionStorage] is not consulted. *)
Lemma request_interceptor_falls_back_to_localStorage st w cfg t :
  truthy_token (accessToken st) = false ->
  window st = Some w ->
  localStorage w !! "accessToken" = Some t ->
  t <> EmptyString ->
  request_interceptor st cfg
    = (set_accessToken st (Some t), set_Authorization cfg t).
Proof.
  intros Hm Hw Hl Hne. apply truthy_str_true in Hne.
  unfold request_interceptor. rewrite Hm, Hw, Hl, Hne. reflexivity.
Qed.

(** The login hook stores the token it receives in [localStorage]. *)
Lemma useLogin_onSuccess_writes_localStorage w t w' :
  useLogin_onSuccess w (Some t) = Some w' ->
  localStorage w' !! "accessToken" = Some t
  /\ sessionStorage w' = sessionStorage w.
Proof.
  unfold useLogin_onSuccess. destruct (truthy_str t); [|discriminate].
  intros [= <-]. cbn. split; [apply lookup_insert_eq|reflexivity].
Qed.

(** C8. The request interceptor reads the access token from
    [localStorage]: with an empty memory and an empty session store, an
    outbound call leaves with the token found in the durable store as
    its bearer credential, and that token becomes the in-memory one. *)
Theorem request_interceptor_reads_durable_storage :
  request_interceptor Examples.durable_only
    {| url := "/auth/me"; headers := Some ∅; _retry := false |}
  = (set_accessToken Examples.durable_only (Some "durable-token"),
     {| url := "/auth/me";
        headers := Some {["Authorization" := "Bearer durable-token"]};
        _retry := false |}).
Proof.
  rewrite (request_interceptor_falls_back_to_localStorage Examples.durable_only
             _ _ "durable-token" eq_refl eq_refl); [reflexivity| |done].
  apply lookup_singleton_eq.
Qed.
End ClientStorageProperties.

(* ===================================================================== *)
(** * The properties at the concrete inputs *)
(* ===================================================================== *)

Lemma access_token_roundtrip_witness :
  exists token decoded,
    generateAccessToken Examples.env0 Examples.t0
      (access_payload Reference.alice_id "alice@x.com" USER) = Ok token
    /\ verifyAccessToken Examples.env0 (Examples.t0 + 899) token = Ok decoded
    /\ (userId decoded, email decoded, role decoded)
       = (Reference.alice_id, Some "alice@x.com", Some USER)
    /\ decoded =
         {| userId := Reference.alice_id; email := Some "alice@x.com"; role := Some USER;
            iat := Some Examples.t0; nbf := None;
            exp := Some (Examples.t0 + 900);
            iss := Some "secureauth-gateway";
            aud := Some "secureauth-api" |}.
Proof.
  apply (access_token_roundtrip Examples.env0 Reference.alice_id "alice@x.com" USER
           Examples.t0 (Examples.t0 + 899)).
  - reflexivity.
  - unfold Examples.t0. lia.
Defined.

Lemma secret_separation_witness :
  verifyRefreshToken Examples.env0 (Examples.t0 + 1) Examples.alice_access
    = throw_AppError "Invalid refresh token" 401
  /\ verifyAccessToken Examples.env0 (Examples.t0 + 1) Examples.alice_refresh
    = throw_AppError "Invalid access token" 401.
Proof.
  apply (secret_separation Examples.env0
           (access_payload Reference.alice_id "alice@x.com" USER) (refresh_payload Reference.alice_id)
           Examples.t0 (Examples.t0 + 1)).
  - vm_compute. discriminate.
  - vm_compute. reflexivity.
  - vm_compute. reflexivity.
Defined.

Lemma restrictTo_allow_list_witness :
  restrictTo [MERCHANT; ADMIN]
    (set_user Reference.empty_request
       (signed_claims (access_payload Reference.alice_id "alice@x.com" USER)
          Examples.t0 900))
  = throw_AppError
      "Access denied. This action requires one of the following roles: MERCHANT, ADMIN"
      403.
Proof.
  apply (proj1 (proj2 (restrictTo_allow_list [MERCHANT; ADMIN]
                         (set_user Reference.empty_request
                            (signed_claims
                               (access_payload Reference.alice_id "alice@x.com" USER)
                               Examples.t0 900))))
           _ eq_refl).
  intros r [= <-]. apply (bool_decide_unpack _). vm_compute. reflexivity.
Defined.

Lemma protect_stateless_witness :
  GET_auth_me Examples.env0 (Examples.t0 + 500)
    (Examples.bearer Examples.alice_access) Examples.banned_store
  = (sendSuccess new_res "User retrieved successfully"
       (Some {| d_user :=
                  Some {| uv_id := Reference.alice_id; uv_username := "alice";
                          uv_email := "alice@x.com"; uv_role := USER;
                          uv_isActive := Some false;
                          uv_createdAt := Some 1700000100 |};
                d_accessToken := None |})
       200, Examples.banned_store).
Proof.
  etransitivity.
  - apply (proj2 (proj2 (proj2 (proj2 (proj2 (proj2
             (protect_stateless Examples.env0 (Examples.t0 + 500)
                (Examples.bearer Examples.alice_access)))))))
             Reference.alice_id "alice@x.com" USER Examples.t0 Examples.alice_access
             getMe Examples.banned_store).
    + reflexivity.
    + vm_compute. reflexivity.
    + unfold Examples.t0. lia.
    + reflexivity.
  - vm_compute. reflexivity.
Defined.

Lemma refresh_mints_iff_granted_witness :
  (POST_auth_refresh Examples.env0 (Examples.t0 + 1000)
     (Examples.with_cookie Examples.alice_refresh) Reference.store).2
    = Reference.store
  /\ exists newAccessToken,
       generateAccessToken Examples.env0 (Examples.t0 + 1000)
         (access_payload Reference.alice_id "alice@x.com" USER) = Ok newAccessToken
       /\ (POST_auth_refresh Examples.env0 (Examples.t0 + 1000)
             (Examples.with_cookie Examples.alice_refresh) Reference.store).1
          = {| status := 200; success := true;
               res_message := "Token refreshed successfully";
               data := Some {| d_user := None;
                               d_accessToken := Some newAccessToken |};
               set_cookies := [] |}.
Proof.
  pose proof (refresh_mints_iff_granted Examples.env0 (Examples.t0 + 1000)
                (Examples.with_cookie Examples.alice_refresh)
                Reference.store 900000 eq_refl) as W.
  cbv zeta in W. destruct W as (W1 & _ & W2 & _).
  split; [exact W1|].
  apply (W2 (User.project false Reference.alice)).
  exists {["jwt" := Examples.alice_refresh]}, Examples.alice_refresh,
    (signed_claims (refresh_payload Reference.alice_id) Examples.t0 604800).
  split; [reflexivity|]. split; [vm_compute; reflexivity|].
  split; [vm_compute; reflexivity|].
  split; [vm_compute; reflexivity|reflexivity].
Defined.

Lemma login_outcomes_witness :
  POST_auth_login Examples.env0 Examples.t0 Examples.login_numeric_email
    Reference.store
    = (sendError new_res "Internal Server Error" 500, Reference.store)
  /\ exists accessToken refreshToken,
       login Examples.env0 Examples.t0 Examples.login_padded_email
         Reference.store
       = (Ok {| status := 200; success := true;
                res_message := "Login successful";
                data :=
                  Some {| d_user :=
                            Some {| uv_id := Reference.alice_id;
                                    uv_username := "alice";
                                    uv_email := "alice@x.com";
                                    uv_role := USER;
                                    uv_isActive := None;
                                    uv_createdAt := None |};
                          d_accessToken := Some accessToken |};
                set_cookies :=
                  [mkCookie "jwt" refreshToken
                     (register_cookieOptions Examples.env0)] |},
          Reference.store).
Proof.
  split.
  - apply (proj1 (proj2 (login_outcomes Examples.env0 Examples.t0
                           Examples.login_numeric_email Reference.store))
             (JNum 5)).
    + vm_compute. reflexivity.
    + vm_compute. reflexivity.
    + vm_compute. reflexivity.
    + discriminate.
  - destruct (proj1 (proj2 (proj2 (login_outcomes Examples.env0 Examples.t0
                              Examples.login_padded_email Reference.store)))
                " Alice@X.com " (JStr "Passw0rd1")) as (_ & W).
    + vm_compute. reflexivity.
    + discriminate.
    + vm_compute. reflexivity.
    + reflexivity.
    + destruct (W [Reference.admin] Reference.alice [] eq_refl) as (_ & _ & W').
      * intros x Hx. apply list_elem_of_singleton in Hx. subst x.
        intros [_ Hm]. vm_compute in Hm. discriminate Hm.
      * split; vm_compute; reflexivity.
      * destruct (W' 900000 604800000) as (a & r & _ & _ & Hl);
          [vm_compute; reflexivity|reflexivity|reflexivity|reflexivity|].
        exists a, r. exact Hl.
Defined.

Lemma self_check_compares_text_witness :
  updateUserStatus (Examples.t0 + 50) Examples.self_unban_upper
    [Examples.suspended_admin; Reference.alice]
  = (Ok (sendSuccess new_res "User activated successfully"
           (Some {| d_user :=
                      Some {| uv_id := Reference.admin_id;
                              uv_username := "root";
                              uv_email := "root@x.com"; uv_role := ADMIN;
                              uv_isActive := Some true;
                              uv_createdAt := None |};
                    d_accessToken := None |})
           200),
     [Examples.reactivated_admin; Reference.alice]).
Proof.
  assert (params Examples.self_unban_upper !! "id"
          = Some "65F0A1B2C3D4E5F6A7B80000") as E
    by (vm_compute; reflexivity).
  etransitivity.
  - apply (proj1 (proj2 (self_check_compares_text (Examples.t0 + 50)
                           Examples.self_unban_upper
                           [Examples.suspended_admin; Reference.alice]
                           _ _ eq_refl E)
                    (User.project false Examples.suspended_admin) true
                    ltac:(discriminate) eq_refl eq_refl
                    ltac:(vm_compute; reflexivity))).
    left. reflexivity.
  - vm_compute. reflexivity.
Defined.

Lemma getMe_refetches_witness :
  GET_auth_me Examples.env0 (Examples.t0 + 400)
    (Examples.bearer Examples.alice_access) Examples.banned_store
  = (sendSuccess new_res "User retrieved successfully"
       (Some {| d_user :=
                  Some {| uv_id := Reference.alice_id; uv_username := "alice";
                          uv_email := "alice@x.com"; uv_role := USER;
                          uv_isActive := Some false;
                          uv_createdAt := Some 1700000100 |};
                d_accessToken := None |})
       200, Examples.banned_store).
Proof.
  assert (verifyAccessToken Examples.env0 (Examples.t0 + 400)
            Examples.alice_access
          = Ok (signed_claims
                  (access_payload Reference.alice_id "alice@x.com" USER)
                  Examples.t0 900)) as E
    by (vm_compute; reflexivity).
  apply (proj1 (proj2 (getMe_refetches Examples.env0 (Examples.t0 + 400)
                  (Examples.bearer Examples.alice_access)
                  Examples.banned_store
                  ("Bearer " +:+ Examples.alice_access) Examples.alice_access
                  _ eq_refl eq_refl eq_refl ltac:(discriminate) E))
           Reference.alice_id [Reference.admin]
           (User.set_isActive false
              {| User._id := Reference.alice_id; User.username := "alice";
                 User.email := "alice@x.com";
                 User.password := Some "$2a$12$Passw0rd1";
                 User.role := USER; User.provider := User.local;
                 User.googleId := None; User.isActive := true;
                 User.createdAt := 1700000100;
                 User.updatedAt := Examples.t0 + 200 |})
           []).
  - reflexivity.
  - vm_compute. reflexivity.
  - intros x Hx. apply list_elem_of_singleton in Hx. subst x. discriminate.
  - reflexivity.
Defined.

Lemma single_flight_refresh_witness :
  let '(st1, effects1, initiators) :=
    Client.receive_401s Examples.idle
      [Examples.call "/auth/me"; Examples.call "/users";
       Examples.call "/transaction/history"] in
  effects1 = [Client.RefreshCall]
  /\ Client.failedQueue st1
     = [Client.mkWaiter (Examples.call "/users");
        Client.mkWaiter (Examples.call "/transaction/history")]
  /\ (Client.settle st1 (Client.marked (Examples.call "/auth/me"))
        (Client.RefreshOk "fresh")).2
     = [Client.Dispatch
          (Client.retried "fresh" (Client.marked (Examples.call "/auth/me")));
        Client.Dispatch (Client.retried "fresh" (Examples.call "/users"));
        Client.Dispatch
          (Client.retried "fresh" (Examples.call "/transaction/history"))].
Proof.
  pose proof (single_flight_refresh Examples.idle (Examples.call "/auth/me")
                [Examples.call "/users"; Examples.call "/transaction/history"]
                eq_refl eq_refl eq_refl) as W.
  assert (Forall (fun c => Client._retry c = false)
            [Examples.call "/users"; Examples.call "/transaction/history"])
    as E by (repeat constructor).
  specialize (W E ltac:(simpl; lia)).
  destruct (Client.receive_401s Examples.idle _) as [[st1 effects1] inits].
  destruct W as (W1 & _ & _ & W2 & W3 & _).
  split; [exact W1|]. split; [exact W2|].
  specialize (W3 "fresh" ltac:(discriminate)).
  destruct (Client.settle st1 _ _) as [st2 effects2].
  destruct W3 as (_ & _ & _ & W3). exact W3.
Defined.

(** A login with the stored credentials is answered 200, also when the
    email is typed in another case or with white space around it: the
    lookup lower-cases and trims what it is given. *)
Example login_finds_alice :
  status (POST_auth_login Examples.env0 Examples.t0 Examples.login_request
            Reference.store).1 = 200
  /\ POST_auth_login Examples.env0 Examples.t0 Examples.login_padded_email
       Reference.store
     = POST_auth_login Examples.env0 Examples.t0 Examples.login_request
         Reference.store.
Proof. split; vm_compute; reflexivity. Qed.

(** A path id that is no identifier is answered 500, a well-formed one
    that no stored identity has 404. *)
Example status_of_unknown_ids :
  status (route [] (updateUserStatus Examples.t0)
            (set_user
               {| headers_authorization := None; cookies := None;
                  body := {["isActive" := JBool false]};
                  params := {["id" := "id-7"]}; user := None |}
               (signed_claims
                  (access_payload Reference.admin_id "root@x.com" ADMIN)
                  Examples.t0 900))
            Reference.store).1 = 500
  /\ status (route [] (updateUserStatus Examples.t0)
               (set_user
                  {| headers_authorization := None; cookies := None;
                     body := {["isActive" := JBool false]};
                     params := {["id" := Reference.ghost_id]};
                     user := None |}
                  (signed_claims
                     (access_payload Reference.admin_id "root@x.com" ADMIN)
                     Examples.t0 900))
               Reference.store).1 = 404.
Proof. split; vm_compute; reflexivity. Qed.

(** The password check counts UTF-16 code units: seven characters of
    which one takes three bytes are too short. *)
Example short_password_counts_code_units :
  (length_utf16 ("passw0" +:+ String (Ascii.ascii_of_nat 226)
                    (String (Ascii.ascii_of_nat 130)
                       (String (Ascii.ascii_of_nat 172) EmptyString)))
   = 7)%nat.
Proof. reflexivity. Qed.

(** End-to-end scenario 5, second half: once [alice] is banned, a fresh
    login and a refresh with her still-valid refresh cookie are both
    answered with 403. *)
Example banned_login_forbidden :
  POST_auth_login Examples.env0 (Examples.t0 + 500) Examples.login_request
    Examples.banned_store
  = (sendError new_res
       "Your account has been deactivated. Please contact support." 403,
     Examples.banned_store).
Proof. vm_compute. reflexivity. Qed.

Example banned_refresh_forbidden :
  POST_auth_refresh Examples.env0 (Examples.t0 + 500)
    (Examples.with_cookie Examples.alice_refresh) Examples.banned_store
  = (sendError new_res
       "Your account has been deactivated. Please contact support." 403,
     Examples.banned_store).
Proof. vm_compute. reflexivity. Qed.

(** [restrictTo(MERCHANT, ADMIN)] for each attached role. *)
Example requireMerchant_by_role :
  let as_role r :=
    set_user Reference.empty_request
      (signed_claims (access_payload Reference.alice_id "alice@x.com" r) Examples.t0 900) in
  exn_status_of (requireMerchant (as_role USER)) = Some 403
  /\ requireMerchant (as_role MERCHANT) = Ok (as_role MERCHANT)
  /\ requireMerchant (as_role ADMIN) = Ok (as_role ADMIN).
Proof. vm_compute. auto. Qed.


(* ===================================================================== *)
(** * Further properties of the token service *)
(* ===================================================================== *)

Section TokenServiceFurther.
Context `{JsonwebtokenDecode}.
Variable env : ProcessEnv.

(** The claims a token of [jwt.sign] carries: the payload's own identity
    fields, under the signing secret. *)
Lemma jwt_sign_inv_claims now payload secret options token :
  jwt_sign now payload secret options = Ok token ->
  exists claims,
    token = jws_sign claims secret
    /\ userId claims = userId payload
    /\ email claims = email payload
    /\ role claims = role payload.
Proof.
  unfold jwt_sign, js_throw. intros Hs.
  repeat case_match; try discriminate; inversion Hs; eexists;
    (split; [reflexivity|]); cbn; auto.
Qed.

Lemma jwt_verify_expired now token secret options p e :
  token <> EmptyString ->
  jws_verify token secret = Some p ->
  nbf p = None -> exp p = Some e -> e <= now ->
  jwt_verify now token secret options
    = js_throw "TokenExpiredError" "jwt expired".
Proof.
  intros Hne Hv Hn He Hle. apply truthy_str_true in Hne.
  unfold jwt_verify. rewrite Hne, Hv, Hn, He. cbn [negb].
  destruct (Z.leb_spec e now); [reflexivity|lia].
Qed.

(** X1. A refresh token issued for an identity id verifies, under the
    default 7-day lifetime, at every clock reading before issue time plus
    604800 seconds, and what comes back is the id alone: no email, no
    role, and besides the id only issued-at, expiry, issuer and
    audience. *)
Theorem refresh_token_roundtrip (uid : string) (t0 t1 : Z) :
  JWT_REFRESH_EXPIRY (config env) = "7d" ->
  t1 < t0 + 604800 ->
  exists token,
    generateRefreshToken env t0 (refresh_payload uid) = Ok token
    /\ verifyRefreshToken env t1 token
       = Ok {| userId := uid; email := None; role := None;
               iat := Some t0; nbf := None; exp := Some (t0 + 604800);
               iss := Some "secureauth-gateway";
               aud := Some "secureauth-api" |}.
Proof.
  intros Hexp Hlt. eexists. split.
  - apply (generateRefreshToken_fresh env t0 (refresh_payload uid) 604800000);
      try reflexivity.
    rewrite Hexp. apply ms_7d.
  - unfold verifyRefreshToken.
    change (604800000 / 1000) with 604800.
    rewrite jwt_verify_signed by (done || lia). reflexivity.
Qed.

(** X2. The expiry boundary.  With the default lifetimes, an access token
    issued at [t0] verifies exactly at the clock readings before
    [t0 + 900] and a refresh token exactly before [t0 + 604800]; from the
    boundary on, each verifier answers with its own "expired" 401. *)
Theorem tokens_valid_exactly_before_expiry (uid em : string) (r : UserRole)
    (t0 t1 : Z) (access refresh : string) :
  JWT_ACCESS_EXPIRY (config env) = "15m" ->
  JWT_REFRESH_EXPIRY (config env) = "7d" ->
  generateAccessToken env t0 (access_payload uid em r) = Ok access ->
  generateRefreshToken env t0 (refresh_payload uid) = Ok refresh ->
  ((exists decoded, verifyAccessToken env t1 access = Ok decoded)
     <-> t1 < t0 + 900)
  /\ (t0 + 900 <= t1 ->
        verifyAccessToken env t1 access
          = throw_AppError "Access token has expired" 401)
  /\ ((exists decoded, verifyRefreshToken env t1 refresh = Ok decoded)
        <-> t1 < t0 + 604800)
  /\ (t0 + 604800 <= t1 ->
        verifyRefreshToken env t1 refresh
          = throw_AppError "Refresh token has expired. Please log in again."
              401).
Proof.
  intros Ha Hr Hga Hgr.
  rewrite (generateAccessToken_fresh env t0 _ 900000) in Hga;
    [|reflexivity..|rewrite Ha; apply ms_15m].
  rewrite (generateRefreshToken_fresh env t0 _ 604800000) in Hgr;
    [|reflexivity..|rewrite Hr; apply ms_7d].
  change (900000 / 1000) with 900 in Hga.
  change (604800000 / 1000) with 604800 in Hgr.
  injection Hga as <-. injection Hgr as <-.
  assert (Hae : t0 + 900 <= t1 ->
            verifyAccessToken env t1
              (jws_sign (signed_claims (access_payload uid em r) t0 900)
                 (JWT_ACCESS_SECRET (config env)))
            = throw_AppError "Access token has expired" 401).
  { intros Hle. unfold verifyAccessToken.
    rewrite (jwt_verify_expired t1 _ _ _
               (signed_claims (access_payload uid em r) t0 900) (t0 + 900));
      [reflexivity|apply jws_sign_not_empty| |reflexivity|reflexivity|exact Hle].
    rewrite jws_verify_sign. destruct (decide _); [reflexivity|done]. }
  assert (Hre : t0 + 604800 <= t1 ->
            verifyRefreshToken env t1
              (jws_sign (signed_claims (refresh_payload uid) t0 604800)
                 (JWT_REFRESH_SECRET (config env)))
            = throw_AppError
                "Refresh token has expired. Please log in again." 401).
  { intros Hle. unfold verifyRefreshToken.
    rewrite (jwt_verify_expired t1 _ _ _
               (signed_claims (refresh_payload uid) t0 604800) (t0 + 604800));
      [reflexivity|apply jws_sign_not_empty| |reflexivity|reflexivity|exact Hle].
    rewrite jws_verify_sign. destruct (decide _); [reflexivity|done]. }
  split; [|split; [exact Hae|split; [|exact Hre]]].
  - split.
    + intros [decoded Hv].
      destruct (Z.lt_ge_cases t1 (t0 + 900)) as [|Hge]; [done|].
      pose proof (eq_trans (eq_sym Hv) (Hae Hge)) as Hc. discriminate Hc.
    + intros Hlt. eexists. unfold verifyAccessToken.
      rewrite jwt_verify_signed by (done || lia). reflexivity.
  - split.
    + intros [decoded Hv].
      destruct (Z.lt_ge_cases t1 (t0 + 604800)) as [|Hge]; [done|].
      pose proof (eq_trans (eq_sym Hv) (Hre Hge)) as Hc. discriminate Hc.
    + intros Hlt. eexists. unfold verifyRefreshToken.
      rewrite jwt_verify_signed by (done || lia). reflexivity.
Qed.

(** X3. Issuer and audience are enforced: a token that is correctly
    signed with the service's own secret and is within its validity
    window is still refused, as an invalid token with status 401, when
    its issuer or its audience is not the service's. *)
Theorem issuer_and_audience_enforced (now : Z) (p : JWTPayload) :
  (forall n, nbf p = Some n -> n <= now) ->
  (forall e, exp p = Some e -> now < e) ->
  iss p <> Some "secureauth-gateway" \/ aud p <> Some "secureauth-api" ->
  verifyAccessToken env now (jws_sign p (JWT_ACCESS_SECRET (config env)))
    = throw_AppError "Invalid access token" 401
  /\ verifyRefreshToken env now (jws_sign p (JWT_REFRESH_SECRET (config env)))
    = throw_AppError "Invalid refresh token" 401.
Proof.
  intros Hnbf Hexp Hbad.
  assert (Hv : forall k,
            jwt_verify now (jws_sign p k) k
              {| v_issuer := "secureauth-gateway";
                 v_audience := "secureauth-api" |}
            = js_throw "JsonWebTokenError" "jwt audience invalid"
            \/ jwt_verify now (jws_sign p k) k
                 {| v_issuer := "secureauth-gateway";
                    v_audience := "secureauth-api" |}
               = js_throw "JsonWebTokenError" "jwt issuer invalid").
  { intros k. unfold jwt_verify.
    rewrite (proj2 (truthy_str_true _) (jws_sign_not_empty p k)).
    rewrite jws_verify_sign. destruct (decide (k = k)) as [_|]; [|done].
    cbn [negb v_audience v_issuer].
    assert (match nbf p with Some n => (now <? n)%Z | None => false end
            = false) as ->.
    { destruct (nbf p) as [n|] eqn:Hn; [|reflexivity].
      specialize (Hnbf n eq_refl). destruct (Z.ltb_spec now n); [lia|done]. }
    assert (match exp p with Some x => (x <=? now)%Z | None => false end
            = false) as ->.
    { destruct (exp p) as [x|] eqn:Hx; [|reflexivity].
      specialize (Hexp x eq_refl). destruct (Z.leb_spec x now); [lia|done]. }
    destruct (bool_decide_reflect (aud p = Some "secureauth-api"));
      cbn [negb]; [|auto].
    destruct (bool_decide_reflect (iss p = Some "secureauth-gateway"));
      cbn [negb]; [|auto]. tauto. }
  split.
  - unfold verifyAccessToken.
    destruct (Hv (JWT_ACCESS_SECRET (config env))) as [-> | ->]; reflexivity.
  - unfold verifyRefreshToken.
    destruct (Hv (JWT_REFRESH_SECRET (config env))) as [-> | ->]; reflexivity.
Qed.

(** X4. [decodeToken] checks nothing: whatever secret a token was signed
    with and whenever it is presented, it returns the identity fields the
    signer put in; when that secret is not the access secret,
    [verifyAccessToken] refuses the very same token. *)
Theorem decodeToken_checks_nothing (t0 : Z) (payload : JWTPayload)
    (secret : string) (options : SignOptions) (token : string) :
  jwt_sign t0 payload secret options = Ok token ->
  (exists claims,
     decodeToken token = Some claims
     /\ userId claims = userId payload
     /\ email claims = email payload
     /\ role claims = role payload)
  /\ (secret <> JWT_ACCESS_SECRET (config env) ->
      forall t1, verifyAccessToken env t1 token
                 = throw_AppError "Invalid access token" 401).
Proof.
  intros Hs. apply jwt_sign_inv_claims in Hs as (claims & -> & Hu & He & Hr).
  split.
  - exists claims. unfold decodeToken. rewrite jws_decode_sign. auto.
  - intros Hne t1. unfold verifyAccessToken.
    rewrite jwt_verify_other_key by done. reflexivity.
Qed.
End TokenServiceFurther.

(* ===================================================================== *)
(** * Further properties of the middleware and the routes *)
(* ===================================================================== *)

(** When [restrictTo] lets a request through. *)
Lemma restrictTo_Ok (allowedRoles : list UserRole) (req req' : Request) :
  restrictTo allowedRoles req = Ok req' <->
  req' = req
  /\ exists u r, user req = Some u /\ role u = Some r /\ r ∈ allowedRoles.
Proof.
  unfold restrictTo, throw_AppError.
  destruct (user req) as [u|]; [|split; [discriminate|]].
  2:{ intros (_ & u & r & ? & _). discriminate. }
  destruct (role u) as [r|] eqn:Hr; cbn [includes].
  - destruct (bool_decide_reflect (r ∈ allowedRoles)) as [Hin|Hin]; cbn [negb].
    + split; [intros [= <-]; eauto 6|]. intros [-> _]. reflexivity.
    + split; [discriminate|].
      intros (_ & u' & r' & [= <-] & Hr' & Hin'). congruence.
  - cbn [negb]. split; [discriminate|].
    intros (_ & u' & r' & [= <-] & Hr' & _). congruence.
Qed.

(** X8. The role gate is a plain membership test.  [restrictTo] lets a
    request through exactly when the attached role is in the list, so a
    request let through by one list is let through by every list that
    contains it, whatever the order or repetition of the roles; the empty
    list lets nobody through; and what [requireAdmin] lets through,
    [requireMerchant] lets through. *)
Theorem restrictTo_monotone (allowedRoles allowedRoles' : list UserRole)
    (req : Request) :
  ((forall r, r ∈ allowedRoles -> r ∈ allowedRoles') ->
   restrictTo allowedRoles req = Ok req ->
   restrictTo allowedRoles' req = Ok req)
  /\ (forall req', restrictTo [] req <> Ok req')
  /\ (requireAdmin req = Ok req -> requireMerchant req = Ok req)
  /\ (requireAdmin req = Ok req <->
      exists u, user req = Some u /\ role u = Some ADMIN)
  /\ (requireMerchant req = Ok req <->
      exists u, user req = Some u
                /\ (role u = Some MERCHANT \/ role u = Some ADMIN)).
Proof.
  split; [|split; [|split; [|split]]].
  - intros Hsub Hok. apply restrictTo_Ok in Hok as (_ & u & r & Hu & Hr & Hin).
    apply restrictTo_Ok. split; [reflexivity|]. eauto 6.
  - intros req' Hok. apply restrictTo_Ok in Hok as (_ & u & r & _ & _ & Hin).
    by apply not_elem_of_nil in Hin.
  - unfold requireAdmin, requireMerchant. intros Hok.
    apply restrictTo_Ok in Hok as (_ & u & r & Hu & Hr & Hin).
    apply restrictTo_Ok. split; [reflexivity|].
    exists u, r. repeat split; auto. set_solver.
  - unfold requireAdmin. rewrite restrictTo_Ok. split.
    + intros (_ & u & r & Hu & Hr & Hin). exists u.
      apply list_elem_of_singleton in Hin. subst r. auto.
    + intros (u & Hu & Hr). split; [reflexivity|]. exists u, ADMIN.
      repeat split; auto. set_solver.
  - unfold requireMerchant. rewrite restrictTo_Ok. split.
    + intros (_ & u & r & Hu & Hr & Hin). exists u. split; [done|].
      rewrite Hr. set_solver.
    + intros (u & Hu & [Hr|Hr]); (split; [reflexivity|]).
      * exists u, MERCHANT. repeat split; auto. set_solver.
      * exists u, ADMIN. repeat split; auto. set_solver.
Qed.

(** X7. [checkOwnership(resourceParam)]: 401 without an identity; an
    ADMIN passes unconditionally, also when the path parameter is
    missing; anyone else gets 400 when the parameter is missing or empty,
    403 when it is not the caller's own id, and passes when it is. *)
Theorem checkOwnership_cases (resourceParam : string) (req : Request) :
  (user req = None ->
     checkOwnership resourceParam req
       = throw_AppError "Authentication required" 401)
  /\ (forall u, user req = Some u -> role u = Some ADMIN ->
        checkOwnership resourceParam req = Ok req)
  /\ (forall u, user req = Some u -> role u <> Some ADMIN ->
        params req !! resourceParam = None
        \/ params req !! resourceParam = Some EmptyString ->
        checkOwnership resourceParam req
          = throw_AppError
              ("Resource identifier '" +:+ resourceParam
               +:+ "' not found in request") 400)
  /\ (forall u resourceId, user req = Some u -> role u <> Some ADMIN ->
        params req !! resourceParam = Some resourceId ->
        resourceId <> EmptyString ->
        userId u <> resourceId ->
        checkOwnership resourceParam req
          = throw_AppError
              "Access denied. You can only access your own resources." 403)
  /\ (forall u, user req = Some u ->
        params req !! resourceParam = Some (userId u) ->
        userId u <> EmptyString ->
        checkOwnership resourceParam req = Ok req).
Proof.
  unfold checkOwnership. repeat split.
  - intros ->. reflexivity.
  - intros u -> Hr. by rewrite bool_decide_eq_true_2.
  - intros u -> Hr [-> | ->]; by rewrite bool_decide_eq_false_2.
  - intros u resourceId -> Hr -> Hne Hown.
    rewrite bool_decide_eq_false_2 by done.
    rewrite (proj2 (truthy_str_true _) Hne). cbn [negb].
    by rewrite bool_decide_eq_false_2.
  - intros u -> -> Hne.
    destruct (bool_decide (role u = Some ADMIN)); [reflexivity|].
    rewrite (proj2 (truthy_str_true _) Hne). cbn [negb].
    by rewrite bool_decide_eq_true_2.
Qed.

Section MiddlewareFurther.
Context `{StringPrototype} `{Jsonwebtoken} `{Bcryptjs}.
Variable env : ProcessEnv.

(** X5. [optionalAuth] never rejects: it forwards what [protect] would
    forward, and where [protect] would reject it forwards the request
    untouched, with no identity attached by it. *)
Theorem optionalAuth_never_rejects (now : Z) (req : Request) :
  optionalAuth env now req =
    match protect env now req with
    | Ok authenticated => Ok authenticated
    | Throw _ => Ok req
    end.
Proof.
  unfold optionalAuth, protect, throw_AppError.
  repeat case_match; simplify_eq; reflexivity.
Qed.

(** The one cookie a successful login sets is [jwt]. *)
Lemma login_success_cookie now req db res db' :
  login env now req db = (Ok res, db') ->
  exists refreshToken,
    set_cookies res = [mkCookie "jwt" refreshToken (login_cookieOptions env)].
Proof.
  unfold login.
  unfold App_bind, findOne, App_ret, throw, lift, throw_AppError.
  intros Hl. repeat case_match; simplify_eq. eexists. reflexivity.
Qed.

(** X6. The cookie-reading middleware [verifyRefreshToken] looks for a
    cookie named [refreshToken].  A client that presents exactly the
    cookies of a successful login (the refresh token, under the name
    [jwt]) is therefore answered 401 "not found"; every rejection of the
    middleware is a 401; and a request it does let through carries an
    identity with a user id and no role, which every [restrictTo] gate
    then refuses with 403. *)
Theorem refresh_cookie_middleware_misses_login_cookie (now : Z)
    (req : Request) :
  (forall t0 login_req db res db',
     login env t0 login_req db = (Ok res, db') ->
     verifyRefreshToken_middleware env now (with_cookies_of res req)
       = throw_AppError "Refresh token not found. Please log in again." 401)
  /\ (forall e, verifyRefreshToken_middleware env now req = Throw e ->
        exists msg, e = AppErr (new_AppError msg 401))
  /\ (forall req', verifyRefreshToken_middleware env now req = Ok req' ->
        (exists uid, user req' = Some (refresh_payload uid))
        /\ forall allowedRoles,
             restrictTo allowedRoles req'
               = throw_AppError
                   ("Access denied. This action requires one of the following roles: "
                    +:+ join ", " (UserRole_value <$> allowedRoles)) 403).
Proof.
  split; [|split].
  - intros t0 login_req db res db' Hl.
    destruct (login_success_cookie _ _ _ _ _ Hl) as [rt Hc].
    unfold verifyRefreshToken_middleware, with_cookies_of, cookie_jar.
    cbn [cookies]. rewrite Hc. cbn [foldl cookie_name cookie_value].
    cbn [mbind option_bind].
    rewrite lookup_insert_ne by done. rewrite lookup_empty. reflexivity.
  - unfold verifyRefreshToken_middleware, throw_AppError. intros e He.
    repeat case_match; try discriminate; inversion He; subst; eauto.
    eapply verifyRefreshToken_throws_401; eauto.
  - unfold verifyRefreshToken_middleware, throw_AppError. intros req' Hok.
    repeat case_match; try discriminate. inversion Hok; subst.
    split; [eexists; reflexivity|]. intros allowedRoles. reflexivity.
Qed.

(** What the two guarded routes do with a verified token, by role. *)
Lemma guarded_route (allowedRoles : list UserRole) handler now req db
    h token decoded :
  headers_authorization req = Some h ->
  startsWith h "Bearer " = true ->
  split " " h !! 1%nat = Some token ->
  token <> EmptyString ->
  verifyAccessToken env now token = Ok decoded ->
  route [protect env now; restrictTo allowedRoles] handler req db =
    if includes allowedRoles (role decoded)
    then route [] handler (set_user req decoded) db
    else (sendError new_res
            ("Access denied. This action requires one of the following roles: "
             +:+ join ", " (UserRole_value <$> allowedRoles)) 403, db).
Proof.
  intros Hh Hsw Htok Hne Hv. cbn [route].
  rewrite (protect_verified env now req h token decoded Hh Hsw Htok Hne Hv).
  unfold restrictTo. cbn [user set_user].
  destruct (includes allowedRoles (role decoded)); reflexivity.
Qed.

(** X9. The transaction routes.  Behind a verified access token, a
    caller whose role is MERCHANT or ADMIN reaches the controller with
    the token's claims attached; any other caller is answered 403 with
    the two roles named, the controller does not run and the store is
    left alone. *)
Theorem transaction_routes_role_gate
    (simulate getHistory : Request -> App Response) (now : Z)
    (req : Request) (db : User.Store) (h token : string)
    (decoded : JWTPayload) :
  headers_authorization req = Some h ->
  startsWith h "Bearer " = true ->
  split " " h !! 1%nat = Some token ->
  token <> EmptyString ->
  verifyAccessToken env now token = Ok decoded ->
  (role decoded = Some MERCHANT \/ role decoded = Some ADMIN ->
     POST_transaction_simulate env simulate now req db
       = route [] simulate (set_user req decoded) db
     /\ GET_transaction_history env getHistory now req db
        = route [] getHistory (set_user req decoded) db)
  /\ (role decoded <> Some MERCHANT -> role decoded <> Some ADMIN ->
      POST_transaction_simulate env simulate now req db
        = (sendError new_res
             "Access denied. This action requires one of the following roles: MERCHANT, ADMIN"
             403, db)
      /\ GET_transaction_history env getHistory now req db
         = (sendError new_res
              "Access denied. This action requires one of the following roles: MERCHANT, ADMIN"
              403, db)).
Proof.
  intros Hh Hsw Htok Hne Hv.
  unfold POST_transaction_simulate, GET_transaction_history.
  rewrite !(guarded_route _ _ now req db h token decoded Hh Hsw Htok Hne Hv).
  split.
  - intros Hr.
    assert (includes [MERCHANT; ADMIN] (role decoded) = true) as ->; [|done].
    destruct Hr as [-> | ->]; apply includes_Some; set_solver.
  - intros Hm Ha.
    assert (includes [MERCHANT; ADMIN] (role decoded) = false) as ->; [|done].
    apply includes_false. intros r Hr. rewrite Hr in Hm, Ha. set_solver.
Qed.

(** X10. [PATCH /users/:id/status] end to end.  Without an Authorization
    header the answer is 401, and with a verified token of a role other
    than ADMIN it is 403 naming ADMIN, the store left as it was.  With a
    verified ADMIN token the handler runs, on the request with the
    decoded claims attached; when the path id is, character for
    character, the id in the token, its answer is 400 and the store is
    left as it was. *)
Theorem PATCH_users_status_gate (now : Z) (req : Request) (db : User.Store) :
  (headers_authorization req = None ->
     PATCH_users_status env now req db
       = (sendError new_res
            "Authentication required. Please provide a valid access token."
            401, db))
  /\ (forall h token decoded,
        headers_authorization req = Some h ->
        startsWith h "Bearer " = true ->
        split " " h !! 1%nat = Some token ->
        token <> EmptyString ->
        verifyAccessToken env now token = Ok decoded ->
        (role decoded <> Some ADMIN ->
           PATCH_users_status env now req db
             = (sendError new_res
                  "Access denied. This action requires one of the following roles: ADMIN"
                  403, db))
        /\ (role decoded = Some ADMIN ->
            PATCH_users_status env now req db
              = route [] (updateUserStatus now) (set_user req decoded) db)
        /\ (role decoded = Some ADMIN ->
            params req !! "id" = Some (userId decoded) ->
            exists msg,
              PATCH_users_status env now req db
                = (sendError new_res msg 400, db))).
Proof.
  split.
  - intros Hh. unfold PATCH_users_status. cbn [route].
    unfold protect. rewrite Hh. reflexivity.
  - intros h token decoded Hh Hsw Htok Hne Hv.
    unfold PATCH_users_status.
    rewrite (guarded_route _ _ now req db h token decoded Hh Hsw Htok Hne Hv).
    split; [|split].
    + intros Hr.
      assert (includes [ADMIN] (role decoded) = false) as ->; [|done].
      apply includes_false. intros r Hr'. rewrite Hr' in Hr. set_solver.
    + intros Hr.
      assert (includes [ADMIN] (role decoded) = true) as ->; [|done].
      rewrite Hr. apply includes_Some. set_solver.
    + intros Hr Hid.
      assert (includes [ADMIN] (role decoded) = true) as ->.
      { rewrite Hr. apply includes_Some. set_solver. }
      cbn [route]. unfold updateUserStatus.
      cbn [params body user set_user].
      rewrite (bool_decide_eq_true_2 (params req !! "id" = _)); [|by rewrite Hid].
      destruct (typeof_boolean (body req !! "isActive")); eauto.
Qed.
End MiddlewareFurther.

(* ===================================================================== *)
(** * Further properties of the controllers and the store *)
(* ===================================================================== *)

Lemma find_map_same {A} (p : A -> bool) (g : A -> A) (l : list A) :
  (forall x, p (g x) = p x) ->
  List.find p (List.map g l) = g <$> List.find p l.
Proof.
  intros Hp. induction l as [|x l IH]; [reflexivity|].
  cbn [List.map List.find]. rewrite Hp. destruct (p x); [reflexivity|exact IH].
Qed.

Lemma find_Some_of_elem {A} (p : A -> bool) (l : list A) (x : A) :
  x ∈ l -> p x = true -> exists y, List.find p l = Some y.
Proof.
  intros Hin Hp. destruct (List.find p l) as [y|] eqn:Hf; [eauto|].
  apply list_elem_of_In in Hin.
  pose proof (List.find_none p l Hf x Hin). congruence.
Qed.

Lemma saved_fields doc now d :
  User._id (saved doc now d) = User._id d
  /\ User.username (saved doc now d) = User.username d
  /\ User.email (saved doc now d) = User.email d
  /\ User.password (saved doc now d) = User.password d
  /\ User.role (saved doc now d) = User.role d
  /\ User.provider (saved doc now d) = User.provider d
  /\ User.createdAt (saved doc now d) = User.createdAt d
  /\ User.isActive (saved doc now d)
     = (if bool_decide (User._id d = User._id doc) then User.isActive doc
        else User.isActive d).
Proof.
  unfold saved. repeat case_bool_decide; cbn; repeat split; congruence.
Qed.

Lemma findOne_save `{StringPrototype} f sel doc now db :
  User.findOne f sel (User.save doc now db)
    = saved doc now <$> User.findOne f sel db.
Proof.
  unfold User.findOne, User.save.
  rewrite (find_map_same (User.matches f) (saved doc now)).
  - destruct (List.find (User.matches f) db) as [d|]; [|reflexivity].
    cbn. f_equal. unfold saved, User.project. cbn.
    repeat case_bool_decide; reflexivity.
  - intros d. unfold User.matches.
    destruct (saved_fields doc now d) as (_ & _ & -> & _ & _ & -> & _).
    reflexivity.
Qed.

Lemma findById_save id doc now db :
  User.findById id (User.save doc now db)
    = match User.findById id db with
      | Ok found => Ok (saved doc now <$> found)
      | Throw e => Throw e
      end.
Proof.
  destruct id as [i|]; [|reflexivity]. unfold User.findById, User.save.
  destruct (User.castObjectId i) as [oid|]; [|reflexivity].
  rewrite (find_map_same _ (saved doc now)).
  - destruct (List.find _ db) as [d|]; [|reflexivity].
    cbn. do 2 f_equal. unfold saved, User.project. cbn.
    repeat case_bool_decide; reflexivity.
  - intros d. destruct (saved_fields doc now d) as (-> & _). reflexivity.
Qed.

Lemma save_lookup doc now db i :
  User.save doc now db !! i = saved doc now <$> db !! i.
Proof. unfold User.save. apply list_lookup_fmap. Qed.

(** X15. What [updateUserStatus] can do to the store.  Whatever the
    request, the store keeps its length, and every stored identity keeps
    its id, name, email, password hash, role, provider and creation
    time.  When the handler throws, the store is as it was.  A stored
    identity that did change is the one the path id addresses; its
    [isActive] is now the boolean of the body and its [updatedAt] the
    time of the request.  When the handler returns, every stored
    identity the path id addresses has the [isActive] of the body. *)
Theorem updateUserStatus_frame (now : Z) (req : Request)
    (db db' : User.Store) (r : result Response) :
  updateUserStatus now req db = (r, db') ->
  length db' = length db
  /\ (forall e, r = Throw e -> db' = db)
  /\ (forall i d d', db !! i = Some d -> db' !! i = Some d' ->
        User._id d' = User._id d
        /\ User.username d' = User.username d
        /\ User.email d' = User.email d
        /\ User.password d' = User.password d
        /\ User.role d' = User.role d
        /\ User.provider d' = User.provider d
        /\ User.createdAt d' = User.createdAt d
        /\ (d' <> d ->
            (exists id, params req !! "id" = Some id
                        /\ User.castObjectId id = Some (User._id d))
            /\ body req !! "isActive" = Some (JBool (User.isActive d'))
            /\ User.updatedAt d' = now))
  /\ (forall res id b i d,
        r = Ok res -> params req !! "id" = Some id ->
        body req !! "isActive" = Some (JBool b) ->
        db !! i = Some d -> User.castObjectId id = Some (User._id d) ->
        exists d', db' !! i = Some d' /\ User.isActive d' = b).
Proof.
  assert (Hsame : forall (i : nat) (d d' : User.IUser),
            db !! i = Some d -> db !! i = Some d' ->
            User._id d' = User._id d
            /\ User.username d' = User.username d
            /\ User.email d' = User.email d
            /\ User.password d' = User.password d
            /\ User.role d' = User.role d
            /\ User.provider d' = User.provider d
            /\ User.createdAt d' = User.createdAt d
            /\ (d' <> d ->
                (exists id, params req !! "id" = Some id
                            /\ User.castObjectId id = Some (User._id d))
                /\ body req !! "isActive" = Some (JBool (User.isActive d'))
                /\ User.updatedAt d' = now)).
  { intros i d d' Hd Hd'. rewrite Hd in Hd'. injection Hd' as <-.
    repeat split; congruence. }
  assert (Hthrow : forall e, (Throw e, db) = (r, db') ->
            length db' = length db
            /\ (forall e', r = Throw e' -> db' = db)
            /\ (forall i d d', db !! i = Some d -> db' !! i = Some d' ->
                  User._id d' = User._id d
                  /\ User.username d' = User.username d
                  /\ User.email d' = User.email d
                  /\ User.password d' = User.password d
                  /\ User.role d' = User.role d
                  /\ User.provider d' = User.provider d
                  /\ User.createdAt d' = User.createdAt d
                  /\ (d' <> d ->
                      (exists id, params req !! "id" = Some id
                                  /\ User.castObjectId id = Some (User._id d))
                      /\ body req !! "isActive"
                         = Some (JBool (User.isActive d'))
                      /\ User.updatedAt d' = now))
            /\ (forall res id b i d,
                  r = Ok res -> params req !! "id" = Some id ->
                  body req !! "isActive" = Some (JBool b) ->
                  db !! i = Some d ->
                  User.castObjectId id = Some (User._id d) ->
                  exists d', db' !! i = Some d' /\ User.isActive d' = b)).
  { intros e [= <- <-]. split; [reflexivity|]. split; [reflexivity|].
    split; [exact Hsame|]. intros ? ? ? ? ? [=]. }
  unfold updateUserStatus.
  destruct (typeof_boolean (body req !! "isActive")) as [b|] eqn:Hb;
    [|apply Hthrow].
  case_bool_decide as Hself; [apply Hthrow|].
  unfold App_bind, findById, save, App_ret, throw, lift.
  destruct (User.findById (params req !! "id") db) as [[u|]|e] eqn:Hf;
    [|apply Hthrow..].
  destruct (bool_decide (User.role u = ADMIN) && negb b); [apply Hthrow|].
  assert (Hbody : body req !! "isActive" = Some (JBool b)).
  { destruct (body req !! "isActive") as [[| | |]|]; by simplify_eq/=. }
  destruct (params req !! "id") as [id|] eqn:Hid; [|discriminate Hf].
  apply findById_Some in Hf as [Hc _].
  intros [= <- <-]. split; [apply length_map|]. split; [discriminate|].
  split.
  - intros i d d' Hd Hd'. rewrite save_lookup, Hd in Hd'. injection Hd' as <-.
    destruct (saved_fields (User.set_isActive b u) now d)
      as (-> & -> & -> & -> & -> & -> & -> & _).
    repeat split.
    all: revert H; unfold saved;
      cbn [User._id User.isActive User.set_isActive].
    all: repeat case_bool_decide; try done; intros _; cbn.
    exists id. split; [reflexivity|congruence].
  - intros res id0 b0 i d _ [= <-] Hb0 Hd Hcd. rewrite Hbody in Hb0.
    injection Hb0 as <-. exists (saved (User.set_isActive b u) now d).
    split; [by rewrite save_lookup, Hd|].
    destruct (saved_fields (User.set_isActive b u) now d)
      as (_ & _ & _ & _ & _ & _ & _ & ->).
    cbn [User._id User.isActive User.set_isActive].
    rewrite bool_decide_eq_true_2 by congruence. reflexivity.
Qed.

(** X14. [updateUserStatus] with a boolean [isActive], on a path id that
    is not the text of the caller's id: a path id that is no identifier
    makes the lookup throw, which the route answers with 500; an
    identifier that no stored identity has is answered 404; an
    administrator is not deactivated (403), but may be re-activated; in
    these cases the store is unchanged.  Otherwise the answer is 200 with
    the identity's new status, and the store is the result of saving that
    one change. *)
Theorem updateUserStatus_outcomes (now : Z) (req : Request) (db : User.Store)
    (b : bool) (id : string) :
  body req !! "isActive" = Some (JBool b) ->
  params req !! "id" = Some id ->
  Some id <> (userId <$> user req) ->
  (User.castObjectId id = None ->
     route [] (updateUserStatus now) req db
       = (sendError new_res "Internal Server Error" 500, db))
  /\ (forall oid, User.castObjectId id = Some oid ->
        (forall d, d ∈ db -> User._id d <> oid) ->
        updateUserStatus now req db = (throw_AppError "User not found" 404, db))
  /\ (forall u, User.findById (Some id) db = Ok (Some u) ->
        User.role u = ADMIN -> b = false ->
        updateUserStatus now req db
          = (throw_AppError "Cannot ban other administrators" 403, db))
  /\ (forall u, User.findById (Some id) db = Ok (Some u) ->
        User.role u <> ADMIN \/ b = true ->
        updateUserStatus now req db
          = (Ok (sendSuccess new_res
                   ("User " +:+ (if b then "activated" else "banned")
                    +:+ " successfully")
                   (Some {| d_user :=
                              Some {| uv_id := User._id u;
                                      uv_username := User.username u;
                                      uv_email := User.email u;
                                      uv_role := User.role u;
                                      uv_isActive := Some b;
                                      uv_createdAt := None |};
                            d_accessToken := None |})
                   200),
             User.save (User.set_isActive b u) now db)).
Proof.
  intros Hb Hid Hne.
  assert (Hself : bool_decide (params req !! "id" = userId <$> user req) = false)
    by (apply bool_decide_eq_false; by rewrite Hid).
  cbn [route]. unfold updateUserStatus. rewrite Hb, Hself, Hid.
  cbn [typeof_boolean].
  unfold App_bind, findById, save, App_ret, throw, lift.
  repeat split.
  - intros Hc. by rewrite findById_cast_fails.
  - intros oid Hc Hno. by rewrite (findById_absent _ oid).
  - intros u -> Hr ->. rewrite bool_decide_eq_true_2 by done. reflexivity.
  - intros u -> Hok.
    assert (bool_decide (User.role u = ADMIN) && negb b = false) as ->.
    { destruct Hok as [Hr | ->]; [|apply andb_false_r].
      by rewrite bool_decide_eq_false_2. }
    reflexivity.
Qed.

Section ControllersFurther.
Context `{StringPrototype} `{Jsonwebtoken} `{Bcryptjs} `{User.Mongoose}.
Variable env : ProcessEnv.

(** X16. A ban takes effect at the next login and the next refresh.  In
    the store that results from saving [isActive = false] on the identity
    found under [id]: a login with that identity's email and correct
    password is answered 403, and so is a refresh with a still-valid
    refresh token of that identity.  Neither writes to the store. *)
Theorem ban_blocks_login_and_refresh (id : string) (t_ban now : Z)
    (db : User.Store) (target : User.IUser) :
  User.findById (Some id) db = Ok (Some target) ->
  let db' := User.save (User.set_isActive false target) t_ban db in
  (forall req e pw u,
     body req !! "email" = Some (JStr e) -> e <> EmptyString ->
     body req !! "password" = Some pw -> truthy (Some pw) = true ->
     User.findOne {| User.f_email := toLowerCase e;
                     User.f_provider := Some User.local |} true db = Some u ->
     User._id u = User._id target ->
     User.comparePassword u pw = true ->
     login env now req db'
       = (throw_AppError
            "Your account has been deactivated. Please contact support." 403,
          db'))
  /\ (forall req jar token decoded,
        cookies req = Some jar -> jar !! "jwt" = Some token ->
        verifyRefreshToken env now token = Ok decoded ->
        userId decoded = id ->
        POST_auth_refresh env now req db'
          = (sendError new_res
               "Your account has been deactivated. Please contact support."
               403, db')).
Proof.
  intros Hf db'.
  split.
  - intros req e pw u He Hne Hp Hpw Hfo Hu Hc.
    rewrite (login_unfold env now req db' e pw He Hne Hp Hpw).
    subst db'. rewrite findOne_save, Hfo. cbn [fmap option_fmap option_map].
    destruct (saved_fields (User.set_isActive false target) t_ban u)
      as (_ & _ & _ & Hpass & _ & _ & _ & Hact).
    assert (User.comparePassword (saved (User.set_isActive false target) t_ban u)
              pw = true) as ->.
    { unfold User.comparePassword in *. by rewrite Hpass. }
    rewrite Hact. cbn [User._id User.set_isActive User.isActive].
    rewrite bool_decide_eq_true_2 by congruence. reflexivity.
  - intros req jar token decoded Hj Ht Hv Hu.
    rewrite POST_auth_refresh_unfold, Hj. cbn [mbind option_bind].
    rewrite Ht.
    assert (truthy_str token = true) as ->.
    { apply truthy_str_true.
      by apply (proj1 (verifyRefreshToken_Ok env now token decoded)). }
    cbn [negb]. rewrite Hv, Hu. subst db'.
    rewrite findById_save, Hf. cbn [fmap option_fmap option_map].
    destruct (saved_fields (User.set_isActive false target) t_ban target)
      as (_ & _ & _ & _ & _ & _ & _ & ->).
    cbn [User._id User.set_isActive User.isActive].
    rewrite bool_decide_eq_true_2 by done. reflexivity.
Qed.
End ControllersFurther.

Section RegisterFurther.
Context `{StringPrototype} `{Jsonwebtoken} `{Bcryptjs} `{User.Mongoose}.
Variable env : ProcessEnv.

Lemma jwt_sign_bad_expiry now payload secret options :
  truthy_str secret = true -> exp payload = None ->
  ms (expiresIn options) = None ->
  exists err, jwt_sign now payload secret options = Throw (JsErr err).
Proof.
  intros Hs He Hm. unfold jwt_sign, timespan. rewrite Hs, He, Hm. cbn.
  eexists. reflexivity.
Qed.

(** X11. What [register] turns down, each time leaving the store as it
    was: a missing or falsy username, email or password (400); a string
    password of fewer than eight UTF-16 code units (400); an email that
    the lookup, which lower-cases and trims it, finds on a stored
    identity of any provider (400); and a truthy email that is not a
    string, which makes [email.toLowerCase()] throw and is answered as a
    server error. *)
Theorem register_rejections (now : Z) (req : Request) (db : User.Store) :
  let username := body req !! "username" in
  let email := body req !! "email" in
  let password := body req !! "password" in
  (truthy username = false \/ truthy email = false \/ truthy password = false ->
     register env now req db
       = (throw_AppError "Please provide username, email, and password" 400,
          db))
  /\ (truthy username = true -> truthy email = true ->
      forall pw, password = Some (JStr pw) -> pw <> EmptyString ->
        (length_utf16 pw < 8)%nat ->
        register env now req db
          = (throw_AppError "Password must be at least 8 characters long" 400,
             db))
  /\ (truthy username = true -> truthy password = true ->
      length_lt_8 password = false ->
      forall e u, email = Some (JStr e) -> e <> EmptyString ->
        u ∈ db -> User.email u = User.email_setters (toLowerCase e) ->
        register env now req db
          = (throw_AppError "An account with this email already exists" 400,
             db))
  /\ (truthy username = true -> truthy password = true ->
      length_lt_8 password = false ->
      forall v, email = Some v -> truthy email = true ->
        (forall s, v <> JStr s) ->
        POST_auth_register env now req db
          = (sendError new_res "Internal Server Error" 500, db)).
Proof.
  intros username email password. subst username email password.
  unfold POST_auth_register, route, register.
  split; [|split; [|split]].
  - intros Hmiss.
    assert (negb (truthy (body req !! "username"))
            || negb (truthy (body req !! "email"))
            || negb (truthy (body req !! "password")) = true) as ->.
    { destruct Hmiss as [-> | [-> | ->]]; cbn;
        rewrite ?orb_true_r; reflexivity. }
    reflexivity.
  - intros -> -> pw -> Hne Hlen. cbn [truthy].
    rewrite (proj2 (truthy_str_true pw)) by done. cbn [negb orb length_lt_8].
    rewrite bool_decide_eq_true_2 by done. reflexivity.
  - intros -> -> -> e u -> Hne Hin Hem. cbn [truthy].
    rewrite (proj2 (truthy_str_true e)) by done. cbn [negb orb value_toLowerCase].
    unfold App_bind, lift, findOne, User.findOne.
    destruct (find_Some_of_elem
                (User.matches {| User.f_email := toLowerCase e;
                                 User.f_provider := None |}) db u Hin)
      as [y ->].
    { unfold User.matches. cbn [User.f_email User.f_provider].
      rewrite bool_decide_eq_true_2 by done. reflexivity. }
    reflexivity.
  - intros -> -> -> v -> -> Hv. cbn [negb orb].
    destruct v as [| | |s]; try reflexivity. by destruct (Hv s).
Qed.

Lemma jwt_sign_throws_js now payload secret options e :
  jwt_sign now payload secret options = Throw e -> exists err, e = JsErr err.
Proof.
  unfold jwt_sign, js_throw. intros Hs.
  repeat case_match; simplify_eq; eauto.
Qed.

(** X13. The role of a registered identity.  A registration that passes
    validation for an email no stored identity has creates the identity
    from the name, the lower-cased email and the password of the body,
    with the role the body asks for when that is exactly one of the three
    enum strings (the administrator role included), and with the plain
    user role for every other value or none; it answers 201 with the
    created identity, both tokens and the refresh cookie. *)
Theorem register_role_validation (now : Z) (req : Request) (db : User.Store)
    (un pw : JsValue) (e : string) (access_ms refresh_ms : Z) :
  body req !! "username" = Some un -> truthy (Some un) = true ->
  body req !! "email" = Some (JStr e) -> e <> EmptyString ->
  body req !! "password" = Some pw -> truthy (Some pw) = true ->
  length_lt_8 (Some pw) = false ->
  User.findOne {| User.f_email := toLowerCase e;
                  User.f_provider := None |} false db = None ->
  ms (JWT_ACCESS_EXPIRY (config env)) = Some access_ms ->
  ms (JWT_REFRESH_EXPIRY (config env)) = Some refresh_ms ->
  let input r :=
    {| User.c_username := un; User.c_email := toLowerCase e;
       User.c_password := pw; User.c_role := r;
       User.c_provider := User.local |} in
  let created u :=
    (Ok {| status := 201; success := true;
           res_message := "Registration successful";
           data :=
             Some {| d_user :=
                       Some {| uv_id := User._id u;
                               uv_username := User.username u;
                               uv_email := User.email u;
                               uv_role := User.role u;
                               uv_isActive := None; uv_createdAt := None |};
                     d_accessToken :=
                       Some (jws_sign
                               (signed_claims
                                  (access_payload (User._id u) (User.email u)
                                     (User.role u)) now (access_ms / 1000))
                               (JWT_ACCESS_SECRET (config env))) |};
           set_cookies :=
             [mkCookie "jwt"
                (jws_sign
                   (signed_claims (refresh_payload (User._id u)) now
                      (refresh_ms / 1000))
                   (JWT_REFRESH_SECRET (config env)))
                (register_cookieOptions env)] |},
     db ++ [u]) in
  (forall r u, body req !! "role" = Some (JStr (UserRole_value r)) ->
     User.new_document db (input r) now = Ok u ->
     register env now req db = created u)
  /\ (forall u, (forall r, body req !! "role" <> Some (JStr (UserRole_value r))) ->
        User.new_document db (input USER) now = Ok u ->
        register env now req db = created u).
Proof.
  intros Hun Tun He Hne Hpw Tpw Hlen Hfind Ha Hr input created.
  assert (Hrun : forall u,
            User.new_document db (input (validated_role (body req !! "role")))
              now = Ok u ->
            register env now req db = created u).
  { intros u Hnew. unfold register.
    rewrite Hun, He, Hpw, Tun, Tpw, Hlen. cbn [truthy].
    rewrite (proj2 (truthy_str_true e)) by done.
    cbn [negb orb value_toLowerCase the_value].
    unfold App_bind, lift, findOne, create, App_ret. rewrite Hfind.
    fold (input (validated_role (body req !! "role"))). rewrite Hnew.
    rewrite (generateAccessToken_fresh env now _ access_ms) by done.
    rewrite (generateRefreshToken_fresh env now _ refresh_ms) by done.
    reflexivity. }
  split.
  - intros r u Hrole Hnew. apply Hrun. rewrite Hrole.
    replace (validated_role (Some (JStr (UserRole_value r)))) with r
      by (destruct r; reflexivity).
    exact Hnew.
  - intros u Hrole Hnew. apply Hrun.
    replace (validated_role (body req !! "role")) with USER; [exact Hnew|].
    destruct (body req !! "role") as [[| | |s]|] eqn:Hb; try reflexivity.
    cbn. unfold UserRole_of_value.
    repeat case_decide; try reflexivity; subst s; exfalso;
      first [by apply (Hrole USER) | by apply (Hrole MERCHANT)
            | by apply (Hrole ADMIN)].
Qed.

(** X12. What [register] can do to the store: it appends at most one
    identity and touches none that was there.  Whenever it throws an
    application error the store is as it was; a success is a 201 whose
    body shows the identity that was appended. *)
Theorem register_store_effects (now : Z) (req : Request) (db db' : User.Store)
    (r : result Response) :
  register env now req db = (r, db') ->
  (db' = db \/ exists u, db' = db ++ [u])
  /\ (forall a, r = Throw (AppErr a) -> db' = db)
  /\ (forall res, r = Ok res ->
        status res = 201
        /\ exists u, db' = db ++ [u]
             /\ (data res ≫= d_user)
                = Some {| uv_id := User._id u;
                          uv_username := User.username u;
                          uv_email := User.email u;
                          uv_role := User.role u;
                          uv_isActive := None;
                          uv_createdAt := None |}).
Proof.
  unfold register.
  unfold App_bind, findOne, create, App_ret, throw, lift, throw_AppError.
  intros Hr.
  repeat case_match; simplify_eq;
    (split; [eauto|split]); intros; simplify_eq; eauto;
    match goal with
    | Hg : generateAccessToken _ _ _ = Throw _ |- _ =>
        apply jwt_sign_throws_js in Hg as [? [=]]
    | Hg : generateRefreshToken _ _ _ = Throw _ |- _ =>
        apply jwt_sign_throws_js in Hg as [? [=]]
    end.
Qed.

(** X17. Registration is not atomic.  When the configured lifetime of
    either token is not a time span the signer understands, a well-formed
    registration for a fresh email still inserts the identity (its email
    as the setters of the path store it), and only then fails: the caller
    gets a 500 and no tokens, and the same request sent again is refused
    with "already exists". *)
Theorem register_not_atomic (now now' : Z) (req : Request) (db : User.Store)
    (un pw : JsValue) (e : string) (u : User.IUser) :
  body req !! "username" = Some un -> truthy (Some un) = true ->
  body req !! "email" = Some (JStr e) -> e <> EmptyString ->
  body req !! "password" = Some pw -> truthy (Some pw) = true ->
  length_lt_8 (Some pw) = false ->
  User.findOne {| User.f_email := toLowerCase e;
                  User.f_provider := None |} false db = None ->
  User.new_document db
    {| User.c_username := un; User.c_email := toLowerCase e;
       User.c_password := pw;
       User.c_role := validated_role (body req !! "role");
       User.c_provider := User.local |} now = Ok u ->
  User.email u = User.email_setters (toLowerCase e) ->
  ms (JWT_ACCESS_EXPIRY (config env)) = None
  \/ ms (JWT_REFRESH_EXPIRY (config env)) = None ->
  POST_auth_register env now req db
    = (sendError new_res "Internal Server Error" 500, db ++ [u])
  /\ POST_auth_register env now' req (db ++ [u])
     = (sendError new_res "An account with this email already exists" 400,
        db ++ [u]).
Proof.
  intros Hun Tun He Hne Hpw Tpw Hlen Hfind Hnew Hmail Hms.
  split.
  - unfold POST_auth_register, route, register.
    rewrite Hun, He, Hpw, Tun, Tpw, Hlen. cbn [truthy].
    rewrite (proj2 (truthy_str_true e)) by done.
    cbn [negb orb value_toLowerCase the_value].
    unfold App_bind, lift, findOne, create. rewrite Hfind, Hnew.
    destruct (ms (JWT_ACCESS_EXPIRY (config env))) as [a|] eqn:Ha.
    + destruct Hms as [Hms|Hms]; [done|].
      rewrite (generateAccessToken_fresh env now _ a) by done.
      unfold generateRefreshToken.
      destruct (jwt_sign_bad_expiry now (refresh_payload (User._id u))
                  (JWT_REFRESH_SECRET (config env))
                  {| expiresIn := JWT_REFRESH_EXPIRY (config env);
                     issuer := "secureauth-gateway";
                     audience := "secureauth-api" |})
        as [err ->]; [apply refresh_secret_truthy|done|done|].
      reflexivity.
    + unfold generateAccessToken.
      destruct (jwt_sign_bad_expiry now
                  (access_payload (User._id u) (User.email u) (User.role u))
                  (JWT_ACCESS_SECRET (config env))
                  {| expiresIn := JWT_ACCESS_EXPIRY (config env);
                     issuer := "secureauth-gateway";
                     audience := "secureauth-api" |})
        as [err ->]; [apply access_secret_truthy|done|done|].
      reflexivity.
  - unfold POST_auth_register, route, register.
    rewrite Hun, He, Hpw, Tun, Tpw, Hlen. cbn [truthy].
    rewrite (proj2 (truthy_str_true e)) by done.
    cbn [negb orb value_toLowerCase the_value].
    unfold App_bind, lift, findOne, User.findOne.
    destruct (find_Some_of_elem
                (User.matches {| User.f_email := toLowerCase e;
                                 User.f_provider := None |}) (db ++ [u]) u)
      as [y ->].
    { set_solver. }
    { unfold User.matches. cbn [User.f_email User.f_provider].
      rewrite bool_decide_eq_true_2 by done. reflexivity. }
    reflexivity.
Qed.
End RegisterFurther.

(* ===================================================================== *)
(** * Further properties of the client *)
(* ===================================================================== *)

Section ClientFurther.
Import Client.

Lemma receive_errors_while_refreshing st errors :
  isRefreshing st = true ->
  receive_errors st errors
    = (set_failedQueue st
         (failedQueue st
          ++ (mkWaiter ∘ config <$> List.filter joins_queue errors)),
       (fun e => Rejected (config e) e)
         <$> List.filter (negb ∘ joins_queue) errors).
Proof.
  revert st. induction errors as [|e errors IH]; intros st Hr.
  - cbn. rewrite app_nil_r. by destruct st.
  - cbn [receive_errors List.filter]. unfold on_response_error.
    fold (joins_queue e). unfold compose at 2.
    destruct (joins_queue e) eqn:Hj; cbn [negb].
    + rewrite Hr. rewrite IH by exact Hr.
      cbn [set_failedQueue failedQueue accessToken isRefreshing window app
             fmap list_fmap compose].
      rewrite <- app_assoc. reflexivity.
    + rewrite IH by exact Hr. reflexivity.
Qed.

(** X18. Single flight under any traffic.  Let response errors of any
    kind (any status, retried or not) arrive one after the other while no
    refresh settles.  A refresh call is issued at most once: never when a
    refresh is already under way, and otherwise by the first error that
    is a 401 of a call not yet retried.  Every later such error is queued
    behind what was queued, in arrival order; every other error is
    rejected with itself, in arrival order.  The stored token and the
    browser storages are not touched. *)
Theorem single_flight_under_any_errors (st : State) (errors : list AxiosError) :
  let fresh := List.filter joins_queue errors in
  let st' := (receive_errors st errors).1 in
  let effects := (receive_errors st errors).2 in
  List.filter is_RefreshCall effects
    = (if isRefreshing st then []
       else match fresh with [] => [] | _ :: _ => [RefreshCall] end)
  /\ List.filter (negb ∘ is_RefreshCall) effects
     = ((fun e => Rejected (config e) e)
          <$> List.filter (negb ∘ joins_queue) errors)
  /\ failedQueue st'
     = failedQueue st
       ++ (mkWaiter ∘ config <$> (if isRefreshing st then fresh else tail fresh))
  /\ isRefreshing st'
     = (isRefreshing st || match fresh with [] => false | _ :: _ => true end)
  /\ accessToken st' = accessToken st
  /\ window st' = window st.
Proof.
  assert (Hrej : forall l : list AxiosError,
            List.filter is_RefreshCall ((fun e => Rejected (config e) e) <$> l) = []
            /\ List.filter (negb ∘ is_RefreshCall)
                 ((fun e => Rejected (config e) e) <$> l)
               = ((fun e => Rejected (config e) e) <$> l)).
  { induction l as [|x l [IH1 IH2]]; [done|]. cbn. rewrite IH1. split; [done|].
    f_equal. exact IH2. }
  cbv zeta. revert st. induction errors as [|e errors IH]; intros st.
  - destruct st as [a [] q w]; cbn; rewrite app_nil_r; done.
  - destruct (isRefreshing st) eqn:Hr.
    + rewrite receive_errors_while_refreshing by exact Hr.
      cbn [fst snd set_failedQueue failedQueue accessToken isRefreshing window].
      destruct (Hrej (List.filter (negb ∘ joins_queue) (e :: errors))) as [-> ->].
      rewrite Hr. done.
    + cbn [receive_errors List.filter]. unfold on_response_error.
      fold (joins_queue e). unfold compose at 2 4.
      destruct (joins_queue e) eqn:Hj; cbn [negb].
      * rewrite Hr.
        rewrite receive_errors_while_refreshing by reflexivity.
        cbn [fst snd set_failedQueue set_isRefreshing failedQueue accessToken
               isRefreshing window app tail List.filter is_RefreshCall
               compose negb].
        destruct (Hrej (List.filter (negb ∘ joins_queue) errors)) as [-> ->].
        done.
      * specialize (IH st). rewrite Hr in IH.
        destruct (receive_errors st errors) as [st1 effs1].
        cbn [fst snd app List.filter is_RefreshCall compose negb fmap
               list_fmap] in *.
        destruct IH as (-> & -> & -> & -> & -> & ->). done.
Qed.

(** X19. The retry guard covers the initiator only.  The call that
    started a refresh is sent again marked [_retry], so a second 401 for
    it is rejected without another refresh, whatever the state.  A call
    released from the queue is sent again with the flag it came with, so
    a second 401 for it, once the refresh is over, starts a refresh of its
    own. *)
Theorem retry_guard_covers_initiator_only (st : State) (c : RequestConfig)
    (token : string) :
  _retry c = false ->
  accessToken st = Some token -> token <> EmptyString ->
  let again := {| config := retried token (marked c);
                  response_status := Some 401 |} in
  let released := {| config := retried token c;
                     response_status := Some 401 |} in
  (apiClient st (set_Authorization_if_headers (marked c) token)).2
    = [Dispatch (config again)]
  /\ (forall st', on_response_error st' again
        = (st', [Rejected (config again) again], Settled))
  /\ (run_microtask st (ThenRetry (mkWaiter c) token)).2
     = [Dispatch (config released)]
  /\ (forall st', isRefreshing st' = false ->
        on_response_error st' released
          = (set_isRefreshing st' true, [RefreshCall],
             AwaitingRefresh (marked (retried token c)))).
Proof.
  intros Hc Ht Hne. cbv zeta. repeat split.
  - by rewrite apiClient_with_token.
  - cbn [run_microtask originalRequest]. by rewrite apiClient_with_token.
  - intros st' Hr. unfold on_response_error.
    cbn [config response_status retried _retry]. rewrite Hc, Hr.
    reflexivity.
Qed.

(** X20. The stored access token survives exactly what the module says
    it survives.  [getAccessToken] after [setTokens t] is [t] and after
    [clearTokens] is [null], and neither read changes the state.  In a
    browser, a reloaded module that runs [initializeTokens] finds a
    non-empty token set before the reload, and finds none after
    [clearTokens].  Neither writer touches [localStorage]. *)
Theorem token_accessors_round_trip (st : State) (t : string) :
  getAccessToken (setTokens st t) = (setTokens st t, Some t)
  /\ getAccessToken (clearTokens st) = (clearTokens st, None)
  /\ (is_Some (window st) -> t <> EmptyString ->
      accessToken (initializeTokens (init (window (setTokens st t)))) = Some t)
  /\ accessToken (initializeTokens (init (window (clearTokens st)))) = None
  /\ (localStorage <$> window (setTokens st t)) = (localStorage <$> window st)
  /\ (localStorage <$> window (clearTokens st)) = (localStorage <$> window st).
Proof.
  destruct st as [a r q [w|]]; unfold getAccessToken, setTokens, clearTokens,
    initializeTokens, init;
    cbn [window set_accessToken set_window accessToken isRefreshing failedQueue
           sessionStorage localStorage truthy_token].
  - rewrite lookup_insert_eq, lookup_delete_eq.
    repeat split.
    + destruct (truthy_str t); reflexivity.
    + intros _ Hne. rewrite (proj2 (truthy_str_true t)) by done. reflexivity.
  - repeat split. intros [? [=]].
Qed.

Lemma request_interceptor_in_memory st cfg t :
  accessToken st = Some t -> t <> EmptyString ->
  request_interceptor st cfg = (st, set_Authorization cfg t).
Proof.
  intros Ha Hne. apply truthy_str_true in Hne. unfold request_interceptor.
  rewrite Ha. cbn [truthy_token]. rewrite Hne. cbn [negb]. rewrite Hne.
  reflexivity.
Qed.

Lemma request_interceptor_cases st cfg :
  (request_interceptor st cfg = (st, cfg)
   /\ (truthy_token (accessToken st) = false ->
       forall w, window st = Some w ->
                 truthy_token (localStorage w !! "accessToken") = false))
  \/ exists t, t <> EmptyString
       /\ request_interceptor st cfg
          = (set_accessToken st (Some t), set_Authorization cfg t).
Proof.
  unfold request_interceptor. destruct st as [a r q w].
  cbn [accessToken window]. destruct (truthy_token a) eqn:Ha.
  - destruct a as [t|]; [|done]. cbn [truthy_token] in Ha. rewrite Ha.
    right. exists t. split; [by apply truthy_str_true|reflexivity].
  - destruct w as [w|]; [|left; split; [reflexivity|done]].
    destruct (localStorage w !! "accessToken") as [t|] eqn:Hl.
    + destruct (truthy_str t) eqn:Ht.
      * right. exists t. split; [by apply truthy_str_true|reflexivity].
      * left. split; [reflexivity|]. intros _ w' [= <-]. by rewrite Hl.
    + left. split; [reflexivity|]. intros _ w' [= <-]. by rewrite Hl.
Qed.

(** X21. The request interceptor only ever writes the [Authorization]
    header: the URL, the retry flag and every other header of the call
    are passed through, and neither the browser storage nor the refresh
    bookkeeping is written.  Running it again on its own output changes
    nothing.  It leaves a call without the header only when there is no
    token in memory and none under [accessToken] in [localStorage]. *)
Theorem request_interceptor_frame (st : State) (cfg : RequestConfig) :
  let st1 := (request_interceptor st cfg).1 in
  let cfg1 := (request_interceptor st cfg).2 in
  url cfg1 = url cfg
  /\ _retry cfg1 = _retry cfg
  /\ (forall k, k <> "Authorization" ->
        default ∅ (headers cfg1) !! k = default ∅ (headers cfg) !! k)
  /\ window st1 = window st
  /\ isRefreshing st1 = isRefreshing st
  /\ failedQueue st1 = failedQueue st
  /\ request_interceptor st1 cfg1 = (st1, cfg1)
  /\ (cfg1 = cfg \/
      exists t, t <> EmptyString
        /\ default ∅ (headers cfg1) !! "Authorization" = Some ("Bearer " +:+ t)
        /\ accessToken st1 = Some t).
Proof.
  cbv zeta.
  destruct (request_interceptor_cases st cfg) as [[Hsame _]|(t & Hne & Hset)].
  - rewrite Hsame. cbn [fst snd]. rewrite Hsame. repeat split; auto.
  - rewrite Hset. cbn [fst snd].
    rewrite (request_interceptor_in_memory _ _ t) by done.
    repeat split; try reflexivity.
    + intros k Hk. cbn. by rewrite lookup_insert_ne.
    + unfold set_Authorization. cbn [url headers _retry default from_option id].
      by rewrite insert_insert_eq.
    + right. exists t. split; [done|]. split; [|reflexivity].
      cbn. apply lookup_insert_eq.
Qed.

(** X22. A failed refresh does not log the interceptor out.  When the
    refresh fails, the initiator and every queued call are rejected with
    the refresh error, in order, the in-memory token and its
    [sessionStorage] copy are removed, and the page is sent to the login
    form; but a token under [accessToken] in [localStorage] is still
    there, and the next call through the client carries it as its bearer
    credential again. *)
Theorem refresh_failure_keeps_durable_token (st : State) (w : Window)
    (initiator next : RequestConfig) (refreshError : AxiosError) (t : string) :
  window st = Some w ->
  localStorage w !! "accessToken" = Some t ->
  t <> EmptyString ->
  let st' := (settle st initiator (RefreshFailed refreshError)).1 in
  let effects := (settle st initiator (RefreshFailed refreshError)).2 in
  effects = Rejected initiator refreshError
            :: ((fun q => Rejected (originalRequest q) refreshError)
                  <$> failedQueue st)
  /\ accessToken st' = None
  /\ isRefreshing st' = false
  /\ failedQueue st' = []
  /\ (exists w', window st' = Some w'
        /\ sessionStorage w' !! "accessToken" = None
        /\ location_href w' = "/auth/login"
        /\ localStorage w' = localStorage w)
  /\ apiClient st' next
     = (set_accessToken st' (Some t), [Dispatch (retried t next)]).
Proof.
  intros Hw Hl Hne. cbv zeta.
  unfold settle, on_refresh_settled, processQueue.
  rewrite run_rejected.
  destruct st as [a r q w0]. cbn [window] in Hw. subst w0.
  cbn [fst snd clearTokens set_failedQueue set_accessToken set_window
         set_isRefreshing window accessToken isRefreshing failedQueue app
         sessionStorage localStorage location_href].
  repeat split.
  - eexists. repeat split. cbn. apply lookup_delete_eq.
  - unfold apiClient.
    erewrite request_interceptor_falls_back_to_localStorage;
      [reflexivity|reflexivity|reflexivity|exact Hl|exact Hne].
Qed.
End ClientFurther.

(* ===================================================================== *)
(** * A session from login to refresh *)
(* ===================================================================== *)

Section SessionFurther.
Context `{StringPrototype} `{Jsonwebtoken} `{Bcryptjs}.
Variable env : ProcessEnv.

Lemma protect_signed now req payload t0 ttl :
  headers_authorization req
    = Some ("Bearer " +:+ jws_sign (signed_claims payload t0 ttl)
                            (JWT_ACCESS_SECRET (config env))) ->
  nbf payload = None -> now < t0 + ttl ->
  protect env now req = Ok (set_user req (signed_claims payload t0 ttl)).
Proof.
  intros Hh Hn Hlt.
  rewrite (protect_Bearer env now req _ Hh);
    [|apply jws_sign_not_empty|apply jws_sign_no_space].
  unfold verifyAccessToken. rewrite jwt_verify_signed by done. reflexivity.
Qed.

Lemma login_success_inv t0 req db res db' a_ms r_ms :
  ms (JWT_ACCESS_EXPIRY (config env)) = Some a_ms ->
  ms (JWT_REFRESH_EXPIRY (config env)) = Some r_ms ->
  login env t0 req db = (Ok res, db') ->
  exists u,
    db' = db
    /\ User.isActive u = true
    /\ data res
       = Some {| d_user :=
                   Some {| uv_id := User._id u;
                           uv_username := User.username u;
                           uv_email := User.email u;
                           uv_role := User.role u;
                           uv_isActive := None; uv_createdAt := None |};
                 d_accessToken :=
                   Some (jws_sign
                           (signed_claims
                              (access_payload (User._id u) (User.email u)
                                 (User.role u)) t0 (a_ms / 1000))
                           (JWT_ACCESS_SECRET (config env))) |}
    /\ set_cookies res
       = [mkCookie "jwt"
            (jws_sign (signed_claims (refresh_payload (User._id u)) t0
                         (r_ms / 1000))
               (JWT_REFRESH_SECRET (config env)))
            (login_cookieOptions env)].
Proof.
  intros Ha Hr. unfold login.
  unfold App_bind, findOne, App_ret, throw, lift, throw_AppError.
  intros Hl. repeat case_match; simplify_eq.
  match goal with
  | Hg : generateAccessToken _ _ _ = Ok _ |- _ =>
      rewrite (generateAccessToken_fresh env t0 _ a_ms) in Hg by done;
      injection Hg as <-
  end.
  match goal with
  | Hg : generateRefreshToken _ _ _ = Ok _ |- _ =>
      rewrite (generateRefreshToken_fresh env t0 _ r_ms) in Hg by done;
      injection Hg as <-
  end.
  match goal with
  | Hact : negb (User.isActive ?u) = false |- _ =>
      exists u; apply negb_false_iff in Hact
  end.
  repeat split; done.
Qed.

(** X23. A session, end to end.  After a successful login at [t0]: the
    store is as it was; the access token of the response, sent as a
    bearer credential at any clock reading before its expiry, passes
    [protect], and the identity attached to the request has the id, email
    and role that the login response showed; and the response's cookies,
    sent to the refresh route before the refresh token expires, yield a
    new access token as long as the identity is still stored and active.
    That token passes [protect] in turn, with the id, email and role the
    store holds at refresh time, not those of the login. *)
Theorem login_session_end_to_end (t0 : Z) (login_req : Request)
    (db db' : User.Store) (res : Response) (a_ms r_ms : Z) :
  ms (JWT_ACCESS_EXPIRY (config env)) = Some a_ms ->
  ms (JWT_REFRESH_EXPIRY (config env)) = Some r_ms ->
  login env t0 login_req db = (Ok res, db') ->
  db' = db
  /\ exists view token,
       data res = Some {| d_user := Some view; d_accessToken := Some token |}
       /\ (forall now req,
             headers_authorization req = Some ("Bearer " +:+ token) ->
             now < t0 + a_ms / 1000 ->
             protect env now req
               = Ok (set_user req
                       (signed_claims
                          (access_payload (uv_id view) (uv_email view)
                             (uv_role view)) t0 (a_ms / 1000))))
       /\ (forall now req db2 u,
             now < t0 + r_ms / 1000 ->
             User.findById (Some (uv_id view)) db2 = Ok (Some u) ->
             User.isActive u = true ->
             exists fresh,
               POST_auth_refresh env now (with_cookies_of res req) db2
                 = (sendSuccess new_res "Token refreshed successfully"
                      (Some {| d_user := None;
                               d_accessToken := Some fresh |}) 200, db2)
               /\ forall now' req',
                    headers_authorization req' = Some ("Bearer " +:+ fresh) ->
                    now' < now + a_ms / 1000 ->
                    protect env now' req'
                      = Ok (set_user req'
                              (signed_claims
                                 (access_payload (User._id u) (User.email u)
                                    (User.role u)) now (a_ms / 1000)))).
Proof.
  intros Ha Hr Hl.
  destruct (login_success_inv _ _ _ _ _ _ _ Ha Hr Hl)
    as (u0 & -> & Hact & Hdata & Hcookie).
  split; [reflexivity|]. eexists _, _. split; [exact Hdata|]. split.
  - intros now req Hh Hlt. cbn [uv_id uv_email uv_role].
    by apply protect_signed.
  - intros now req db2 u Hlt Hfind Hactive. cbn [uv_id] in Hfind.
    eexists. split.
    + rewrite POST_auth_refresh_unfold.
      unfold with_cookies_of, cookie_jar. cbn [cookies]. rewrite Hcookie.
      cbn [foldl cookie_name cookie_value mbind option_bind].
      rewrite lookup_insert_eq.
      rewrite (proj2 (truthy_str_true _) (jws_sign_not_empty _ _)).
      cbn [negb]. unfold verifyRefreshToken.
      rewrite jwt_verify_signed by done.
      cbn [signed_claims userId refresh_payload]. rewrite Hfind, Hactive.
      cbn [negb].
      rewrite (generateAccessToken_fresh env now _ a_ms) by done.
      reflexivity.
    + intros now' req' Hh Hlt'. by apply protect_signed.
Qed.

End SessionFurther.

(* ===================================================================== *)
(** * The client across a page load *)
(* ===================================================================== *)

Section ClientReload.
Import Client.

Lemma settle_refresh_ok st initiator token :
  token <> EmptyString ->
  settle st initiator (RefreshOk token)
    = (set_isRefreshing (set_failedQueue (setTokens st token) []) false,
       Dispatch (retried token initiator)
       :: ((fun q => Dispatch (retried token (originalRequest q)))
             <$> failedQueue st)).
Proof.
  intros Hne. unfold settle, on_refresh_settled, processQueue.
  set (st' := setTokens _ token).
  assert (Ht : accessToken st' = Some token).
  { subst st'. unfold setTokens. cbn. by destruct (window st). }
  assert (Hq : failedQueue st' = failedQueue st).
  { subst st'. unfold setTokens. cbn. by destruct (window st). }
  rewrite Hq. rewrite apiClient_with_token by done.
  change (fun prom : Waiter =>
            ThenRetry prom (default EmptyString (Some token)))
    with (fun w : Waiter => ThenRetry w token).
  rewrite (run_released _ token) by done. reflexivity.
Qed.

(** X25. The login and logout hooks and the interceptor agree across
    the page load that each hook forces.  After the login hook stored a
    non-empty token, the freshly loaded module sends its first call with
    that token as bearer credential; after the logout hook, the freshly
    loaded module sends its call without an [Authorization] header.  The
    module's own accessor does not see the login: on the fresh page it
    returns what [sessionStorage] held before, which neither hook
    writes. *)
Theorem hooks_agree_with_interceptor_across_reload (w : Window) (t : string)
    (cfg : RequestConfig) :
  t <> EmptyString ->
  exists w',
    useLogin_onSuccess w (Some t) = Some w'
    /\ apiClient (init (Some w')) cfg
       = (set_accessToken (init (Some w')) (Some t),
          [Dispatch (retried t cfg)])
    /\ apiClient (init (Some (useLogout_onSuccess w'))) cfg
       = (init (Some (useLogout_onSuccess w')),
          [Dispatch {| url := url cfg;
                       headers := Some (default ∅ (headers cfg));
                       _retry := _retry cfg |}])
    /\ (getAccessToken (init (Some w'))).2 = sessionStorage w !! "accessToken"
    /\ sessionStorage (useLogout_onSuccess w') = sessionStorage w.
Proof.
  intros Hne. unfold useLogin_onSuccess.
  rewrite (proj2 (truthy_str_true t) Hne). eexists. split; [reflexivity|].
  split; [|split; [|split]].
  - unfold apiClient.
    erewrite request_interceptor_falls_back_to_localStorage;
      [reflexivity|reflexivity|reflexivity| |exact Hne].
    cbn. apply lookup_insert_eq.
  - unfold apiClient, request_interceptor, useLogout_onSuccess, init.
    cbn [accessToken window truthy_token localStorage].
    rewrite lookup_delete_eq. reflexivity.
  - reflexivity.
  - reflexivity.
Qed.

(** X26. A refreshed token does not survive a page load.  When a
    refresh succeeds while [localStorage] holds an older token, calls on
    the same page carry the new token; but the new token is written to
    memory and [sessionStorage] only, so after a page load the
    interceptor, which consults [localStorage], sends the older token
    again, although [initializeTokens] would have restored the new
    one. *)
Theorem refreshed_token_lost_on_reload (st : State) (w : Window)
    (initiator cfg : RequestConfig) (t_old t_new : string) :
  window st = Some w ->
  localStorage w !! "accessToken" = Some t_old ->
  t_old <> EmptyString -> t_new <> EmptyString ->
  let st2 := (settle st initiator (RefreshOk t_new)).1 in
  (apiClient st2 cfg).2 = [Dispatch (retried t_new cfg)]
  /\ (apiClient (init (window st2)) cfg).2 = [Dispatch (retried t_old cfg)]
  /\ accessToken (initializeTokens (init (window st2))) = Some t_new.
Proof.
  intros Hw Hl Hold Hnew. cbv zeta. rewrite settle_refresh_ok by done.
  cbn [fst]. destruct st as [a r q w0]. cbn [window] in Hw. subst w0.
  unfold setTokens.
  cbn [set_accessToken set_window set_failedQueue set_isRefreshing window
         accessToken isRefreshing failedQueue].
  split; [|split].
  - unfold apiClient.
    rewrite (request_interceptor_in_memory _ _ t_new) by done. reflexivity.
  - unfold apiClient.
    erewrite request_interceptor_falls_back_to_localStorage;
      [reflexivity|reflexivity|reflexivity|exact Hl|exact Hold].
  - unfold initializeTokens, init. cbn [window sessionStorage].
    rewrite lookup_insert_eq.
    rewrite (proj2 (truthy_str_true t_new) Hnew). reflexivity.
Qed.
End ClientReload.

(* ===================================================================== *)
(** * The further properties on the reference libraries *)
(* ===================================================================== *)

Lemma refresh_token_roundtrip_witness :
  exists token,
    generateRefreshToken Examples.env0 Examples.t0 (refresh_payload Reference.alice_id)
      = Ok token
    /\ verifyRefreshToken Examples.env0 (Examples.t0 + 3600) token
       = Ok {| userId := Reference.alice_id; email := None; role := None;
               iat := Some Examples.t0; nbf := None;
               exp := Some (Examples.t0 + 604800);
               iss := Some "secureauth-gateway";
               aud := Some "secureauth-api" |}.
Proof.
  apply (refresh_token_roundtrip Examples.env0 Reference.alice_id Examples.t0
           (Examples.t0 + 3600)).
  - reflexivity.
  - unfold Examples.t0. lia.
Defined.

Lemma tokens_valid_exactly_before_expiry_witness :
  verifyAccessToken Examples.env0 (Examples.t0 + 900) Examples.alice_access
    = throw_AppError "Access token has expired" 401.
Proof.
  destruct (tokens_valid_exactly_before_expiry Examples.env0
              Reference.alice_id "alice@x.com" USER Examples.t0 (Examples.t0 + 900)
              Examples.alice_access Examples.alice_refresh)
    as (_ & W & _).
  - reflexivity.
  - reflexivity.
  - vm_compute. reflexivity.
  - vm_compute. reflexivity.
  - apply W. lia.
Defined.

Lemma issuer_and_audience_enforced_witness :
  verifyAccessToken Examples.env0 Examples.t0
    (jws_sign Examples.foreign_claims
       (JWT_ACCESS_SECRET (config Examples.env0)))
    = throw_AppError "Invalid access token" 401.
Proof.
  refine (proj1 (issuer_and_audience_enforced Examples.env0 Examples.t0
                   Examples.foreign_claims _ _ _)).
  - intros n Hn. vm_compute in Hn. discriminate Hn.
  - intros e He. vm_compute in He. discriminate He.
  - left. vm_compute. discriminate.
Defined.

Lemma decodeToken_checks_nothing_witness :
  exists claims,
    decodeToken Examples.self_signed = Some claims
    /\ userId claims = Reference.alice_id
    /\ email claims = Some "alice@x.com"
    /\ role claims = Some ADMIN.
Proof.
  refine (proj1 (decodeToken_checks_nothing Examples.env0 Examples.t0
                   (access_payload Reference.alice_id "alice@x.com" ADMIN)
                   "not-the-secret"
                   {| expiresIn := "15m"; issuer := "secureauth-gateway";
                      audience := "secureauth-api" |}
                   Examples.self_signed _)).
  vm_compute. reflexivity.
Defined.

Lemma transaction_routes_role_gate_witness :
  POST_transaction_simulate Examples.env0 Examples.done_handler
    (Examples.t0 + 60) (Examples.bearer Examples.alice_access) Reference.store
  = (sendError new_res
       "Access denied. This action requires one of the following roles: MERCHANT, ADMIN"
       403, Reference.store).
Proof.
  destruct (transaction_routes_role_gate Examples.env0
              Examples.done_handler Examples.done_handler
              (Examples.t0 + 60) (Examples.bearer Examples.alice_access)
              Reference.store ("Bearer " +:+ Examples.alice_access)
              Examples.alice_access
              (signed_claims (access_payload Reference.alice_id "alice@x.com" USER)
                 Examples.t0 900))
    as (_ & W).
  - reflexivity.
  - reflexivity.
  - vm_compute. reflexivity.
  - discriminate.
  - vm_compute. reflexivity.
  - apply W; discriminate.
Defined.

Lemma register_store_effects_witness :
  Examples.registered.2 = Reference.store
  \/ exists u, Examples.registered.2 = Reference.store ++ [u].
Proof.
  refine (proj1 (register_store_effects Examples.env0 Examples.t0
                   Examples.register_request Reference.store
                   Examples.registered.2 Examples.registered.1 _)).
  vm_compute. reflexivity.
Defined.

Lemma register_role_validation_witness :
  exists res,
    register Examples.env0 Examples.t0 Examples.register_admin_request
      Reference.store = (Ok res, Reference.store ++ [Examples.eve])
    /\ (data res ≫= d_user)
       = Some {| uv_id := Reference.bob_id; uv_username := "eve";
                 uv_email := "eve@x.com"; uv_role := ADMIN;
                 uv_isActive := None; uv_createdAt := None |}.
Proof.
  destruct (register_role_validation Examples.env0 Examples.t0
              Examples.register_admin_request Reference.store
              (JStr "eve") (JStr "Passw0rd3") "Eve@X.com" 900000 604800000)
    as (W & _).
  - vm_compute. reflexivity.
  - reflexivity.
  - vm_compute. reflexivity.
  - discriminate.
  - vm_compute. reflexivity.
  - reflexivity.
  - vm_compute. reflexivity.
  - vm_compute. reflexivity.
  - reflexivity.
  - reflexivity.
  - rewrite (W ADMIN Examples.eve).
    + eexists. split; reflexivity.
    + vm_compute. reflexivity.
    + vm_compute. reflexivity.
Defined.

Lemma updateUserStatus_outcomes_witness :
  updateUserStatus (Examples.t0 + 200) Examples.ban_alice Reference.store
  = (Ok (sendSuccess new_res "User banned successfully"
           (Some {| d_user :=
                      Some {| uv_id := Reference.alice_id;
                              uv_username := "alice";
                              uv_email := "alice@x.com"; uv_role := USER;
                              uv_isActive := Some false;
                              uv_createdAt := None |};
                    d_accessToken := None |})
           200),
     User.save
       (User.set_isActive false (User.project false Reference.alice))
       (Examples.t0 + 200) Reference.store).
Proof.
  destruct (updateUserStatus_outcomes (Examples.t0 + 200) Examples.ban_alice
              Reference.store false Reference.alice_id)
    as (_ & _ & _ & W).
  - vm_compute. reflexivity.
  - vm_compute. reflexivity.
  - vm_compute. discriminate.
  - apply (W (User.project false Reference.alice)).
    + vm_compute. reflexivity.
    + left. discriminate.
Defined.

Lemma updateUserStatus_frame_witness :
  length Examples.alice_banned.2 = length Reference.store
  /\ exists d', Examples.alice_banned.2 !! 1%nat = Some d'
                /\ User.isActive d' = false.
Proof.
  destruct (updateUserStatus_frame (Examples.t0 + 200) Examples.ban_alice
              Reference.store Examples.alice_banned.2 Examples.alice_banned.1)
    as (W1 & _ & _ & W4).
  - vm_compute. reflexivity.
  - split; [exact W1|].
    eapply (W4 _ Reference.alice_id false 1%nat Reference.alice).
    + reflexivity.
    + vm_compute. reflexivity.
    + vm_compute. reflexivity.
    + reflexivity.
    + vm_compute. reflexivity.
Defined.

Lemma ban_blocks_login_and_refresh_witness :
  login Examples.env0 (Examples.t0 + 300) Examples.login_request
    (User.save
       (User.set_isActive false (User.project false Reference.alice))
       (Examples.t0 + 200) Reference.store)
  = (throw_AppError
       "Your account has been deactivated. Please contact support." 403,
     User.save
       (User.set_isActive false (User.project false Reference.alice))
       (Examples.t0 + 200) Reference.store).
Proof.
  destruct (ban_blocks_login_and_refresh Examples.env0 Reference.alice_id
              (Examples.t0 + 200) (Examples.t0 + 300) Reference.store
              (User.project false Reference.alice))
    as (W & _).
  - vm_compute. reflexivity.
  - apply (W Examples.login_request "Alice@X.com" (JStr "Passw0rd1")
             (User.project true Reference.alice)).
    + vm_compute. reflexivity.
    + discriminate.
    + vm_compute. reflexivity.
    + reflexivity.
    + vm_compute. reflexivity.
    + reflexivity.
    + vm_compute. reflexivity.
Defined.

Lemma register_not_atomic_witness :
  POST_auth_register Examples.env_bad_expiry Examples.t0
    Examples.register_request Reference.store
  = (sendError new_res "Internal Server Error" 500,
     Reference.store ++ [Examples.bob])
  /\ POST_auth_register Examples.env_bad_expiry (Examples.t0 + 5)
       Examples.register_request (Reference.store ++ [Examples.bob])
     = (sendError new_res "An account with this email already exists" 400,
        Reference.store ++ [Examples.bob]).
Proof.
  apply (register_not_atomic Examples.env_bad_expiry Examples.t0
           (Examples.t0 + 5) Examples.register_request Reference.store
           (JStr "bob") (JStr "Passw0rd2") "Bob@X.com" Examples.bob).
  - vm_compute. reflexivity.
  - reflexivity.
  - vm_compute. reflexivity.
  - discriminate.
  - vm_compute. reflexivity.
  - reflexivity.
  - vm_compute. reflexivity.
  - vm_compute. reflexivity.
  - vm_compute. reflexivity.
  - vm_compute. reflexivity.
  - left. vm_compute. reflexivity.
Defined.

Lemma retry_guard_covers_initiator_only_witness :
  Client.on_response_error Examples.idle
    (Examples.unauthorized (Client.retried "expired" (Examples.call "/a")))
  = (Client.set_isRefreshing Examples.idle true, [Client.RefreshCall],
     Client.AwaitingRefresh
       (Client.marked (Client.retried "expired" (Examples.call "/a")))).
Proof.
  destruct (retry_guard_covers_initiator_only Examples.idle
              (Examples.call "/a") "expired")
    as (_ & _ & _ & W).
  - reflexivity.
  - reflexivity.
  - discriminate.
  - apply W. reflexivity.
Defined.

Lemma refresh_failure_keeps_durable_token_witness :
  let st' :=
    (Client.settle Examples.refreshing (Client.marked (Examples.call "/a"))
       (Client.RefreshFailed (Examples.unauthorized (Examples.call "/r")))).1 in
  Client.apiClient st' (Examples.call "/c")
  = (Client.set_accessToken st' (Some "durable-token"),
     [Client.Dispatch (Client.retried "durable-token" (Examples.call "/c"))]).
Proof.
  destruct (refresh_failure_keeps_durable_token Examples.refreshing
              Examples.browser (Client.marked (Examples.call "/a"))
              (Examples.call "/c")
              (Examples.unauthorized (Examples.call "/r")) "durable-token")
    as (_ & _ & _ & _ & _ & W).
  - reflexivity.
  - vm_compute. reflexivity.
  - discriminate.
  - exact W.
Defined.

Lemma login_session_end_to_end_witness :
  exists view token,
    data Examples.login_response
      = Some {| d_user := Some view; d_accessToken := Some token |}
    /\ protect Examples.env0 (Examples.t0 + 60) (Examples.bearer token)
       = Ok (set_user (Examples.bearer token)
               (signed_claims
                  (access_payload (uv_id view) (uv_email view) (uv_role view))
                  Examples.t0 (900000 / 1000))).
Proof.
  destruct (login_session_end_to_end Examples.env0 Examples.t0
              Examples.login_request Reference.store Reference.store
              Examples.login_response 900000 604800000)
    as (_ & view & token & Hd & Hp & _).
  - reflexivity.
  - reflexivity.
  - vm_compute. reflexivity.
  - exists view, token. split; [exact Hd|].
    apply Hp; [reflexivity|]. vm_compute. reflexivity.
Defined.

Lemma hooks_agree_with_interceptor_across_reload_witness :
  exists w',
    Client.useLogin_onSuccess Examples.browser (Some "issued") = Some w'
    /\ Client.apiClient (Client.init (Some w')) (Examples.call "/a")
       = (Client.set_accessToken (Client.init (Some w')) (Some "issued"),
          [Client.Dispatch (Client.retried "issued" (Examples.call "/a"))]).
Proof.
  destruct (hooks_agree_with_interceptor_across_reload Examples.browser
              "issued" (Examples.call "/a"))
    as (w' & H1 & H2 & _).
  - discriminate.
  - exists w'. split; [exact H1|exact H2].
Defined.

Lemma refreshed_token_lost_on_reload_witness :
  (Client.apiClient
     (Client.init
        (Client.window
           (Client.settle Examples.refreshing
              (Client.marked (Examples.call "/a"))
              (Client.RefreshOk "fresh")).1))
     (Examples.call "/c")).2
  = [Client.Dispatch (Client.retried "durable-token" (Examples.call "/c"))].
Proof.
  destruct (refreshed_token_lost_on_reload Examples.refreshing
              Examples.browser (Client.marked (Examples.call "/a"))
              (Examples.call "/c") "durable-token" "fresh")
    as (_ & W & _).
  - reflexivity.
  - vm_compute. reflexivity.
  - discriminate.
  - discriminate.
  - exact W.
Defined.
